(** * Job orchestration and asset resolution core of the Fashion AI dashboard

    A shallow embedding of the five Next.js route handlers
    ([flatlay-render], [virtual-showcase], [runway], [apply-change], [asset])
    and of the front end's [normalizeModelConfigForBackend], followed by the
    properties the specification states about them; then the [trends]
    route, the asset URL helpers of the front end ([toAssetsUrl],
    [withCacheBuster], [toAbsoluteUrl]) and [getLanIp] of the server, with
    further properties of the handlers read off the code.

    Conventions of the embedding:
    - an ECMAScript string is the list of its UTF-16 code units ([list N]);
    - a JavaScript value is a term of [value]; a parsed JSON document is a
      [value] without [VUndefined];
    - what the handlers obtain from Node (the [path] module, the process
      environment, [JSON], [URL], [mime], the worker process) is a field of
      the record [Host]; the file system and the clock are the state threaded
      through the handler monad [M], together with the trace of effects;
    - one request is followed from its arrival to its response; what the
      handlers print on the console is left out. *)

From Stdlib Require Import List NArith ZArith Bool Lia String Ascii.
From Stdlib Require Import Floats.PrimFloat Floats.FloatOps Floats.SpecFloat.
From Stdlib Require Import DecimalString.
Import ListNotations.

Set Implicit Arguments.
Open Scope N_scope.

(* ================================================================== *)
(** * ECMAScript strings *)
(* ================================================================== *)

Definition jsstring : Type := list N.

(** A string literal of the source, as code units (ASCII literals only). *)
Definition lit (s : string) : jsstring := map N_of_ascii (list_ascii_of_string s).

Definition c_lf : N := 10.
Definition c_space : N := 32.
Definition c_dquote : N := 34.
Definition c_hash : N := 35.
Definition c_percent : N := 37.
Definition c_amp : N := 38.
Definition c_squote : N := 39.
Definition c_plus : N := 43.
Definition c_dot : N := 46.
Definition c_slash : N := 47.
Definition c_colon : N := 58.
Definition c_equals : N := 61.
Definition c_question : N := 63.
Definition c_backslash : N := 92.

Definition in_range (lo hi c : N) : bool := (lo <=? c) && (c <=? hi).

Definition is_upper (c : N) : bool := in_range 65 90 c.
Definition is_lower (c : N) : bool := in_range 97 122 c.
Definition is_digit (c : N) : bool := in_range 48 57 c.
Definition is_alpha (c : N) : bool := is_upper c || is_lower c.

(** ECMAScript WhiteSpace and LineTerminator code units: what [\s] matches
    and what [String.prototype.trim] removes. *)
Definition is_line_terminator (c : N) : bool :=
  (c =? 0x0A) || (c =? 0x0D) || (c =? 0x2028) || (c =? 0x2029).

Definition is_js_space (c : N) : bool :=
  in_range 0x09 0x0D c || (c =? 0x20) || (c =? 0xA0) || (c =? 0x1680)
  || in_range 0x2000 0x200A c || (c =? 0x2028) || (c =? 0x2029)
  || (c =? 0x202F) || (c =? 0x205F) || (c =? 0x3000) || (c =? 0xFEFF).

Fixpoint str_eqb (a b : jsstring) : bool :=
  match a, b with
  | [], [] => true
  | x :: a', y :: b' => (x =? y) && str_eqb a' b'
  | _, _ => false
  end.

(** [s.startsWith(pre)] *)
Fixpoint startsWith (s pre : jsstring) : bool :=
  match pre, s with
  | [], _ => true
  | p :: pre', c :: s' => (c =? p) && startsWith s' pre'
  | _ :: _, [] => false
  end.

(** [s.includes(sub)] *)
Fixpoint includes (s sub : jsstring) : bool :=
  startsWith s sub
  || match s with
     | [] => false
     | _ :: s' => includes s' sub
     end.

(** [s.split(sep)] for a separator of one code unit; the empty string splits
    into one empty segment. *)
Fixpoint split (sep : N) (s : jsstring) : list jsstring :=
  match s with
  | [] => [[]]
  | c :: s' =>
      if c =? sep then [] :: split sep s'
      else match split sep s' with
           | seg :: segs => (c :: seg) :: segs
           | [] => [[c]]
           end
  end.

Fixpoint drop_while (p : N -> bool) (s : jsstring) : jsstring :=
  match s with
  | [] => []
  | c :: s' => if p c then drop_while p s' else s
  end.

(** [s.trim()] *)
Definition trim (s : jsstring) : jsstring :=
  rev (drop_while is_js_space (rev (drop_while is_js_space s))).

(** [s.slice(0, n)] *)
Definition slice0 (n : N) (s : jsstring) : jsstring := firstn (N.to_nat n) s.

(** [s.replace(/\\/g, '/')]: every backslash becomes a slash. *)
Definition replace_backslashes (s : jsstring) : jsstring :=
  map (fun c => if c =? c_backslash then c_slash else c) s.

(** [s.replace(/^[A-Za-z]:/, '')]: a leading drive letter is removed. *)
Definition strip_drive_letter (s : jsstring) : jsstring :=
  match s with
  | c :: d :: rest => if is_alpha c && (d =? c_colon) then rest else s
  | _ => s
  end.

(** [s.replace(/^\/+/, '')]: the leading slashes are removed. *)
Definition strip_leading_slashes (s : jsstring) : jsstring :=
  drop_while (fun c => c =? c_slash) s.

(** A single or a double quote. *)
Definition is_quote (c : N) : bool := (c =? c_dquote) || (c =? c_squote).

Definition strip_last_quote (s : jsstring) : jsstring :=
  match rev s with
  | c :: r => if is_quote c then rev r else s
  | [] => s
  end.

(** The replacement of apply-change that deletes every match of
    (a quote at index 0) | (a quote that is the last code unit): with the
    [g] flag the first alternative removes a leading quote and the second a
    trailing one (the scan resumes after the first match, so a one-quote
    string loses that quote once). *)
Definition strip_quotes (s : jsstring) : jsstring :=
  match s with
  | c :: s' => if is_quote c then strip_last_quote s' else strip_last_quote s
  | [] => []
  end.

(** Decimal rendering of an integer, as [ToString] gives it for an exit
    code or a millisecond timestamp. *)
Definition string_of_Z (z : Z) : jsstring :=
  lit (NilZero.string_of_int (Z.to_int z)).

(* ================================================================== *)
(** * UTF-8, percent-encoding and the URL query *)
(* ================================================================== *)

Definition is_high_surrogate (c : N) : bool := in_range 0xD800 0xDBFF c.
Definition is_low_surrogate (c : N) : bool := in_range 0xDC00 0xDFFF c.

(** The UTF-8 octets of a code point. *)
Definition utf8_bytes (v : N) : list N :=
  if v <? 0x80 then [v]
  else if v <? 0x800 then [0xC0 + v / 64; 0x80 + v mod 64]
  else if v <? 0x10000 then
    [0xE0 + v / 4096; 0x80 + (v / 64) mod 64; 0x80 + v mod 64]
  else
    [0xF0 + v / 262144; 0x80 + (v / 4096) mod 64;
     0x80 + (v / 64) mod 64; 0x80 + v mod 64].

(** The UTF-16 code units of a code point. *)
Definition utf16_units (v : N) : jsstring :=
  if v <? 0x10000 then [v]
  else [0xD800 + (v - 0x10000) / 0x400; 0xDC00 + (v - 0x10000) mod 0x400].

(** The code point of a surrogate pair. *)
Definition pair_code_point (c d : N) : N :=
  (c - 0xD800) * 0x400 + (d - 0xDC00) + 0x10000.

(** The code points of a string, a lone surrogate read as U+FFFD (what Node
    does when it encodes a string as UTF-8). *)
Fixpoint code_points (s : jsstring) : list N :=
  match s with
  | [] => []
  | c :: s' =>
      if is_high_surrogate c then
        match s' with
        | d :: s'' =>
            if is_low_surrogate d
            then pair_code_point c d :: code_points s''
            else 0xFFFD :: code_points s'
        | [] => [0xFFFD]
        end
      else if is_low_surrogate c then 0xFFFD :: code_points s'
      else c :: code_points s'
  end.

Definition utf8_encode (s : jsstring) : list N :=
  flat_map utf8_bytes (code_points s).

(** The WHATWG UTF-8 decoder: a state machine over the octets, an ill-formed
    sequence decoded as U+FFFD and the offending octet read again. *)
Record utf8_state : Type := Utf8State {
  u_cp : N; u_needed : N; u_seen : N; u_lower : N; u_upper : N
}.

Definition utf8_init : utf8_state := Utf8State 0 0 0 0x80 0xBF.

(** An octet read when no sequence is open. *)
Definition utf8_lead (b : N) : utf8_state * list N :=
  if b <=? 0x7F then (utf8_init, [b])
  else if in_range 0xC2 0xDF b then (Utf8State (b mod 32) 1 0 0x80 0xBF, [])
  else if in_range 0xE0 0xEF b then
    (Utf8State (b mod 16) 2 0
       (if b =? 0xE0 then 0xA0 else 0x80) (if b =? 0xED then 0x9F else 0xBF), [])
  else if in_range 0xF0 0xF4 b then
    (Utf8State (b mod 8) 3 0
       (if b =? 0xF0 then 0x90 else 0x80) (if b =? 0xF4 then 0x8F else 0xBF), [])
  else (utf8_init, [0xFFFD]).

Definition utf8_step (st : utf8_state) (b : N) : utf8_state * list N :=
  if u_needed st =? 0 then utf8_lead b
  else if negb (in_range (u_lower st) (u_upper st) b) then
    let '(st', out) := utf8_lead b in (st', 0xFFFD :: out)
  else
    let cp := u_cp st * 64 + b mod 64 in
    if u_seen st + 1 =? u_needed st then (utf8_init, [cp])
    else (Utf8State cp (u_needed st) (u_seen st + 1) 0x80 0xBF, []).

Fixpoint utf8_decode_from (st : utf8_state) (bs : list N) : list N :=
  match bs with
  | [] => if u_needed st =? 0 then [] else [0xFFFD]
  | b :: bs' =>
      let '(st', out) := utf8_step st b in
      out ++ utf8_decode_from st' bs'
  end.

(** "UTF-8 decode without BOM": octets to a string. *)
Definition utf8_decode (bs : list N) : jsstring :=
  flat_map utf16_units (utf8_decode_from utf8_init bs).

(** Upper-case hexadecimal digit of a nibble, and its inverse (either case). *)
Definition hex_digit (n : N) : N := if n <? 10 then 48 + n else 55 + n.

Definition hex_value (c : N) : option N :=
  if is_digit c then Some (c - 48)
  else if in_range 65 70 c then Some (c - 55)
  else if in_range 97 102 c then Some (c - 87)
  else None.

Definition percent_escape (b : N) : jsstring :=
  [c_percent; hex_digit (b / 16); hex_digit (b mod 16)].

Definition escape_code_point (v : N) : jsstring :=
  flat_map percent_escape (utf8_bytes v).

(** The code units [encodeURIComponent] leaves alone: ASCII letters, digits
    and [- _ . ! ~ * ' ( )]. *)
Definition uri_unescaped (c : N) : bool :=
  is_alpha c || is_digit c
  || existsb (N.eqb c) (lit "-_.!~*'()").

(** [encodeURIComponent(s)]; [None] is the [URIError] it throws on a lone
    surrogate. *)
Fixpoint encodeURIComponent (s : jsstring) : option jsstring :=
  match s with
  | [] => Some []
  | c :: s' =>
      if uri_unescaped c then option_map (cons c) (encodeURIComponent s')
      else if is_low_surrogate c then None
      else if is_high_surrogate c then
        match s' with
        | d :: s'' =>
            if is_low_surrogate d then
              option_map (app (escape_code_point (pair_code_point c d)))
                         (encodeURIComponent s'')
            else None
        | [] => None
        end
      else option_map (app (escape_code_point c)) (encodeURIComponent s')
  end.

(** Percent-decoding of a query component to octets.  A request URL is a
    serialized URL, hence ASCII; a code unit above 0x7F, which the URL parser
    would have percent-encoded, is given its UTF-8 octets here. *)
Fixpoint percent_decode (s : jsstring) : list N :=
  match s with
  | [] => []
  | c :: s' =>
      if c =? c_percent then
        match s' with
        | h1 :: h2 :: rest =>
            match hex_value h1, hex_value h2 with
            | Some a, Some b => (16 * a + b) :: percent_decode rest
            | _, _ => c :: percent_decode s'
            end
        | _ => c :: percent_decode s'
        end
      else utf8_bytes c ++ percent_decode s'
  end.

(** The code units before the first one that satisfies [p], and those
    after it. *)
Fixpoint take_until (p : N -> bool) (s : jsstring) : jsstring :=
  match s with
  | [] => []
  | c :: s' => if p c then [] else c :: take_until p s'
  end.

Fixpoint drop_until (p : N -> bool) (s : jsstring) : option jsstring :=
  match s with
  | [] => None
  | c :: s' => if p c then Some s' else drop_until p s'
  end.

(** The query of a URL: what follows the first [?], up to a [#]. *)
Definition url_query (u : jsstring) : jsstring :=
  match drop_until (N.eqb c_question) (take_until (N.eqb c_hash) u) with
  | Some q => q
  | None => []
  end.

(** The [application/x-www-form-urlencoded] parser behind
    [url.searchParams]: the query is cut at every [&], each piece at its
    first [=]; in a name and in a value [+] becomes a space, percent-escapes
    become octets and the octets are decoded as UTF-8. *)
Definition plus_to_space (s : jsstring) : jsstring :=
  map (fun c => if c =? c_plus then c_space else c) s.

Definition form_component (s : jsstring) : jsstring :=
  utf8_decode (percent_decode (plus_to_space s)).

Definition form_pair (seq : jsstring) : jsstring * jsstring :=
  (form_component (take_until (N.eqb c_equals) seq),
   match drop_until (N.eqb c_equals) seq with
   | Some v => form_component v
   | None => []
   end).

Definition form_parse (q : jsstring) : list (jsstring * jsstring) :=
  map form_pair
      (filter (fun seq => negb (str_eqb seq [])) (split c_amp q)).

(** [new URL(u).searchParams.get(name)] *)
Definition searchParams_get (u name : jsstring) : option jsstring :=
  option_map snd
    (find (fun kv => str_eqb (fst kv) name) (form_parse (url_query u))).

(* ================================================================== *)
(** * Regular expressions of the handlers *)
(* ================================================================== *)

(** The fragment of ECMAScript regular expressions the handlers use:
    every quantified atom is one code unit wide, and there is at most one
    capture group. Matching is the backtracking, greedy, left-to-right
    semantics of the language. *)
Inductive regex : Type :=
| REps
| RUnit (p : N -> bool)
| RSeq (r1 r2 : regex)
| RAlt (r1 r2 : regex)
| ROpt (r : regex)
| RStar (p : N -> bool)
| RGroup (r : regex).

Definition RPlus (p : N -> bool) : regex := RSeq (RUnit p) (RStar p).

Section Matcher.
Variable R : Type.

Definition or_else (a b : option R) : option R :=
  match a with Some x => Some x | None => b end.

(** Greedy [p*]: the longest run first, shorter ones on backtracking. *)
Fixpoint star (p : N -> bool) (k : jsstring -> option R) (s : jsstring)
  : option R :=
  match s with
  | c :: s' => if p c then or_else (star p k s') (k s) else k s
  | [] => k []
  end.

Fixpoint rmatch (r : regex) (s : jsstring) (cap : option jsstring)
         (k : jsstring -> option jsstring -> option R) : option R :=
  match r with
  | REps => k s cap
  | RUnit p =>
      match s with
      | c :: s' => if p c then k s' cap else None
      | [] => None
      end
  | RSeq r1 r2 => rmatch r1 s cap (fun s1 cap1 => rmatch r2 s1 cap1 k)
  | RAlt r1 r2 => or_else (rmatch r1 s cap k) (rmatch r2 s cap k)
  | ROpt r1 => or_else (rmatch r1 s cap k) (k s cap)
  | RStar p => star p (fun s' => k s' cap) s
  | RGroup r1 =>
      rmatch r1 s cap
        (fun s' _ => k s' (Some (firstn (List.length s - List.length s') s)))
  end.
End Matcher.

(** [s.match(r)] for a regex without the [g] flag: [None] is [null];
    otherwise the capture of group 1 ([m[1]], [None] when the group took no
    part), at the leftmost position where [r] matches. *)
Fixpoint regex_match (r : regex) (s : jsstring) : option (option jsstring) :=
  match rmatch r s None (fun _ cap => Some cap) with
  | Some m => Some m
  | None =>
      match s with
      | [] => None
      | _ :: s' => regex_match r s'
      end
  end.

(** [m && m[1]]: the capture when the match exists and the capture is a
    non-empty string. *)
Definition capture1 (m : option (option jsstring)) : option jsstring :=
  match m with
  | Some (Some (c :: s)) => Some (c :: s)
  | _ => None
  end.

(** [a || b] on match results. *)
Definition match_or (a b : option (option jsstring)) : option (option jsstring) :=
  match a with Some m => Some m | None => b end.

Definition ascii_upper (c : N) : N := if is_lower c then c - 32 else c.

(** One literal code unit; under the [i] flag an ASCII letter matches in
    either case (canonicalization never maps a non-ASCII unit to ASCII). *)
Definition unit_is (ci : bool) (c : N) : N -> bool :=
  fun x => if ci then ascii_upper x =? ascii_upper c else x =? c.

Definition rlit (ci : bool) (s : string) : regex :=
  fold_right (fun c r => RSeq (RUnit (unit_is ci c)) r) REps (lit s).

Fixpoint rseq (rs : list regex) : regex :=
  match rs with
  | [] => REps
  | [r] => r
  | r :: rs' => RSeq r (rseq rs')
  end.

(** [.] (without the [s] flag), [\s], and the negated class of the path
    patterns: a unit that is neither white space nor a quote. *)
Definition re_dot (c : N) : bool := negb (is_line_terminator c).
Definition re_space (c : N) : bool := is_js_space c.
Definition re_path_unit (c : N) : bool := negb (is_js_space c || is_quote c).

(** [(?:png|jpe?g)] under [i] *)
Definition re_image_ext : regex :=
  RAlt (rlit true "png")
       (rseq [rlit true "jp"; ROpt (rlit true "e"); rlit true "g"]).

(** flatlay: [/Saved:? (.+\.(?:png|jpg|jpeg))/i] *)
Definition re_flatlay_saved : regex :=
  rseq [rlit true "Saved"; ROpt (rlit true ":"); rlit true " ";
        RGroup (rseq [RPlus re_dot; rlit true ".";
                      RAlt (rlit true "png")
                           (RAlt (rlit true "jpg") (rlit true "jpeg"))])].

(** showcase: [/Saved(?: showcase image)?:\s*(P+\.(?:png|jpe?g))/i], [P]
    the negated class [re_path_unit] *)
Definition re_showcase_saved : regex :=
  rseq [rlit true "Saved"; ROpt (rlit true " showcase image"); rlit true ":";
        RStar re_space;
        RGroup (rseq [RPlus re_path_unit; rlit true "."; re_image_ext])].

(** showcase: [/Saved:\s*(<dir>\/P+\.(?:png|jpe?g))/i] for [renders] and
    [output] *)
Definition re_saved_image_under (dir : string) : regex :=
  rseq [rlit true "Saved:"; RStar re_space;
        RGroup (rseq [rlit true dir; rlit true "/"; RPlus re_path_unit;
                      rlit true "."; re_image_ext])].

(** runway: [/Saved video:\s*(P+\.mp4)/i] *)
Definition re_runway_saved : regex :=
  rseq [rlit true "Saved video:"; RStar re_space;
        RGroup (rseq [RPlus re_path_unit; rlit true ".mp4"])].

(** runway: [/Saved:\s*(<dir>\/P+\.mp4)/i] for [output] and [renders] *)
Definition re_saved_video_under (dir : string) : regex :=
  rseq [rlit true "Saved:"; RStar re_space;
        RGroup (rseq [rlit true dir; rlit true "/"; RPlus re_path_unit;
                      rlit true ".mp4"])].

(** apply-change: [/Wrote:\s*(.+)/] (case-sensitive) *)
Definition re_wrote : regex :=
  rseq [rlit false "Wrote:"; RStar re_space; RGroup (RPlus re_dot)].

(* ================================================================== *)
(** * JavaScript values *)
(* ================================================================== *)

#[local] Set Warnings "-register-all".

(** A value: of an object the own properties, in insertion order, under
    distinct keys. *)
Inductive value : Type :=
| VUndefined
| VNull
| VBool (b : bool)
| VNum (f : float)
| VStr (s : jsstring)
| VArr (xs : list value)
| VObj (fields : list (jsstring * value)).

(** ToBoolean *)
Definition truthy (v : value) : bool :=
  match v with
  | VUndefined | VNull => false
  | VBool b => b
  | VNum f => negb (PrimFloat.eqb f 0%float || PrimFloat.is_nan f)
  | VStr s => negb (str_eqb s [])
  | VArr _ | VObj _ => true
  end.

Fixpoint lookup (k : jsstring) (fields : list (jsstring * value)) : option value :=
  match fields with
  | [] => None
  | (k', v) :: rest => if str_eqb k' k then Some v else lookup k rest
  end.

(** [v.key] for the property names the handlers read ([design],
    [design_id], [gender], ...), none of which a primitive, an array or
    [Object.prototype] defines: an own property of a plain object, else
    [undefined]. The receiver is not [null] or [undefined] (the callers
    guard that case, or raise the TypeError themselves). *)
Definition get_prop (v : value) (key : string) : value :=
  match v with
  | VObj fields =>
      match lookup (lit key) fields with
      | Some x => x
      | None => VUndefined
      end
  | _ => VUndefined
  end.

(** [a || b] *)
Definition js_or (a b : value) : value := if truthy a then a else b.

(** [v ?? d] *)
Definition nullish_or (v d : value) : value :=
  match v with
  | VUndefined | VNull => d
  | _ => v
  end.

Definition is_nullish (v : value) : bool :=
  match v with
  | VUndefined | VNull => true
  | _ => false
  end.

(** [Object.keys(v).length] for a value that is not nullish. *)
Definition keys_length (v : value) : nat :=
  match v with
  | VObj fields => List.length fields
  | VArr xs => List.length xs
  | VStr s => List.length s
  | _ => 0%nat
  end.

(** A field of an object literal of the source. *)
Definition fld (key : string) (v : value) : jsstring * value := (lit key, v).

(* ================================================================== *)
(** * The front end's model configuration *)
(* ================================================================== *)

(** [normalizeModelConfigForBackend] of [src/app/page.tsx]. *)
Definition normalizeModelConfigForBackend (m : value) : value :=
  if negb (truthy m) then VObj []
  else VObj [
    fld "gender" (js_or (get_prop m "gender") (get_prop m "gender"));
    fld "age_range" (js_or (js_or (get_prop m "ageRange") (get_prop m "age_range"))
                           (VStr (lit "25-32")));
    fld "body_type" (js_or (js_or (get_prop m "bodyType") (get_prop m "body_type"))
                           (VStr (lit "slim")));
    fld "skin_tone" (js_or (js_or (get_prop m "skinTone") (get_prop m "skin_tone"))
                           (VStr (lit "medium")));
    fld "pose" (js_or (get_prop m "pose") (VStr (lit "standing")));
    fld "framing" (js_or (get_prop m "framing")
                         (VStr (lit "full-body, studio frame, no close-ups")))
  ].

(* ================================================================== *)
(** * The Node host, the file system and the handler monad *)
(* ================================================================== *)

Inductive node : Type :=
| File (data : list N)
| Dir.

(** The file system: what is at an absolute path. *)
Definition filesystem : Type := jsstring -> option node.

Definition fs_set (fs : filesystem) (p : jsstring) (n : node) : filesystem :=
  fun q => if str_eqb q p then Some n else fs q.

(** What a handler does to the world, in order. *)
Inductive effect : Type :=
| EExists (p : jsstring)
| EMkdir (p : jsstring)
| EWriteFile (p : jsstring) (data : list N)
| EReadFile (p : jsstring)
| ESpawn (cmd : jsstring) (args : list jsstring).

Record state : Type := State {
  fs : filesystem;
  clock : Z;
  trace : list effect
}.

(** A thrown JavaScript error. *)
Record exn : Type := Exn { exn_name : jsstring; exn_message : jsstring }.

(** [String(err)] *)
Definition exn_to_string (e : exn) : jsstring :=
  match exn_message e with
  | [] => exn_name e
  | _ => exn_name e ++ lit ": " ++ exn_message e
  end.

(** The errors the runtime raises in the handlers; the host words them. *)
Inductive failure : Type :=
| ENOENT (p : jsstring)
| EISDIR (p : jsstring)            (* a directory is read *)
| EISDIR_open (p : jsstring)       (* a directory is opened for writing *)
| EEXIST (p : jsstring)
| ENOTDIR (p : jsstring)
| NullProperty (base : value)      (* [body.design] of [null] or [undefined] *)
| NullDestructure (base : value)   (* [const { design, textChange } = body] *)
| NotCallable
| NotPrimitive                     (* ToString of an object that has no usable [toString] *)
| InvalidURL
| URIMalformed.

Definition failure_name (f : failure) : jsstring :=
  match f with
  | ENOENT _ | EISDIR _ | EISDIR_open _ | EEXIST _ | ENOTDIR _ => lit "Error"
  | NullProperty _ | NullDestructure _ | NotCallable | NotPrimitive
  | InvalidURL => lit "TypeError"
  | URIMalformed => lit "URIError"
  end.

(** How a spawned worker ended: the [error] event, or the [close] event with
    the exit code ([None] is [null], a worker ended by a signal) after the
    [data] events of both streams, each chunk already a string. *)
Inductive worker_result : Type :=
| SpawnError (message : jsstring)
| Closed (code : option Z) (stdout_chunks stderr_chunks : list jsstring).

Record Host : Type := {
  cwd : jsstring;                         (* process.cwd() *)
  win32 : bool;                           (* process.platform === 'win32' *)
  env : jsstring -> option jsstring;      (* process.env *)
  path_join : list jsstring -> jsstring;  (* path.join(...) *)
  path_resolve : jsstring -> jsstring;    (* path.resolve(p) *)
  path_isAbsolute : jsstring -> bool;
  path_dirname : jsstring -> jsstring;
  path_sep : jsstring;
  number_to_string : float -> jsstring;   (* ToString of a number *)
  JSON_stringify : bool -> value -> jsstring; (* true: (v, null, 2) *)
  JSON_parse : jsstring -> value + exn;
  URL_href : jsstring -> option jsstring;     (* new URL(s).toString() *)
  URL_protocol : jsstring -> option jsstring; (* new URL(s).protocol *)
  mime_getType : jsstring -> option jsstring;
  failure_message : failure -> jsstring;
  tick : Z -> Z;                          (* the clock between two readings *)
  run_worker : jsstring -> list jsstring -> filesystem
               -> worker_result * filesystem
}.

(** The outcome of a computation: a value, an exception a [try] can catch,
    or an exception raised inside an event callback, which no [try] of the
    handler encloses and after which no response is sent. *)
Inductive result (A : Type) : Type :=
| Ok (a : A)
| Throw (e : exn)
| Uncaught (e : exn).
Arguments Ok {A} a.
Arguments Throw {A} e.
Arguments Uncaught {A} e.

Definition M (A : Type) : Type := state -> result A * state.

Definition ret {A} (a : A) : M A := fun st => (Ok a, st).

Definition bind {A B} (m : M A) (k : A -> M B) : M B :=
  fun st =>
    match m st with
    | (Ok a, st') => k a st'
    | (Throw e, st') => (Throw e, st')
    | (Uncaught e, st') => (Uncaught e, st')
    end.

Notation "x <- m ;; k" := (bind m (fun x => k))
  (at level 61, m at next level, right associativity).
Notation "m ;;; k" := (bind m (fun _ => k))
  (at level 61, right associativity).

Definition try_catch {A} (m : M A) (handler : exn -> M A) : M A :=
  fun st =>
    match m st with
    | (Throw e, st') => handler e st'
    | r => r
    end.

Definition log (e : effect) (st : state) : state :=
  State (fs st) (clock st) (trace st ++ [e]).

Section HostOperations.
Variable h : Host.

Definition error_of (f : failure) : exn :=
  Exn (failure_name f) (failure_message h f).

Definition throw {A} (f : failure) : M A := fun st => (Throw (error_of f), st).
Definition uncaught {A} (f : failure) : M A :=
  fun st => (Uncaught (error_of f), st).

(** [fs.existsSync(p)] *)
Definition existsSync (p : jsstring) : M bool :=
  fun st =>
    (Ok (match fs st p with Some _ => true | None => false end),
     log (EExists p) st).

(** [mkdir(p, { recursive: true })] *)
Definition mkdir (p : jsstring) : M unit :=
  fun st =>
    match fs st p with
    | Some (File _) => (Throw (error_of (EEXIST p)), log (EMkdir p) st)
    | _ => (Ok tt, State (fs_set (fs st) p Dir) (clock st)
                         (trace st ++ [EMkdir p]))
    end.

(** [writeFile(p, text)]: the text is stored as its UTF-8 octets. *)
Definition writeFile (p : jsstring) (text : jsstring) : M unit :=
  fun st =>
    let st' := log (EWriteFile p (utf8_encode text)) st in
    match fs st p, fs st (path_dirname h p) with
    | Some Dir, _ => (Throw (error_of (EISDIR_open p)), st')
    | _, Some Dir =>
        (Ok tt, State (fs_set (fs st) p (File (utf8_encode text)))
                      (clock st) (trace st'))
    | _, Some (File _) => (Throw (error_of (ENOTDIR p)), st')
    | _, None => (Throw (error_of (ENOENT p)), st')
    end.

(** [readFileSync(p)]: the octets of the file. *)
Definition readFileSync (p : jsstring) : M (list N) :=
  fun st =>
    let st' := log (EReadFile p) st in
    match fs st p with
    | Some (File data) => (Ok data, st')
    | Some Dir => (Throw (error_of (EISDIR p)), st')
    | None => (Throw (error_of (ENOENT p)), st')
    end.

(** [Date.now()] *)
Definition Date_now : M Z :=
  fun st => (Ok (clock st), State (fs st) (tick h (clock st)) (trace st)).

(** [spawn(cmd, args, ...)] followed to the worker's [error] or [close]
    event; the worker runs on the file system and may change it. *)
Definition spawn (cmd : jsstring) (args : list jsstring) : M worker_result :=
  fun st =>
    let '(r, fs') := run_worker h cmd args (fs st) in
    (Ok r, State fs' (clock st) (trace st ++ [ESpawn cmd args])).

(** [parts.join(sep)] *)
Fixpoint join_with (sep : jsstring) (parts : list jsstring) : jsstring :=
  match parts with
  | [] => []
  | [p] => p
  | p :: rest => p ++ sep ++ join_with sep rest
  end.

(** Whether ToString of a value returns. The values of a request come from
    a JSON text and hold no function: an own [toString] property of an
    object hides the one of [Object.prototype] and cannot be called, and the
    [valueOf] that is left returns the object itself, so the conversion
    throws a TypeError. An array is joined, which converts every element
    that is not [null] or [undefined]. *)
Fixpoint stringifiable (v : value) : bool :=
  match v with
  | VObj fields =>
      match lookup (lit "toString") fields with
      | Some _ => false
      | None => true
      end
  | VArr xs => forallb (fun x => is_nullish x || stringifiable x) xs
  | _ => true
  end.

(** The string ToString returns, when it returns. *)
Fixpoint to_string (v : value) : jsstring :=
  match v with
  | VUndefined => lit "undefined"
  | VNull => lit "null"
  | VBool true => lit "true"
  | VBool false => lit "false"
  | VNum f => number_to_string h f
  | VStr s => s
  | VArr xs =>
      join_with (lit ",")
        (map (fun x => if is_nullish x then [] else to_string x) xs)
  | VObj _ => lit "[object Object]"
  end.

(** ToString of a value of the request ([`${v}`], [String(v)]), inside
    the [try] of a handler and inside an event callback. *)
Definition ToString (v : value) : M jsstring :=
  if stringifiable v then ret (to_string v) else throw NotPrimitive.

Definition ToString_in_callback (v : value) : M jsstring :=
  if stringifiable v then ret (to_string v) else uncaught NotPrimitive.

(** [`${code}`] for the exit code of a [close] event. *)
Definition string_of_code (code : option Z) : jsstring :=
  match code with
  | Some z => string_of_Z z
  | None => lit "null"
  end.

(** [process.env.NAME] when it is set and not empty. *)
Definition env_truthy (name : string) : option jsstring :=
  match env h (lit name) with
  | Some (c :: s) => Some (c :: s)
  | _ => None
  end.

(** [process.platform === 'win32' ? 'py' : 'python3'] *)
Definition platform_default : jsstring :=
  if win32 h then lit "py" else lit "python3".

Definition winVenv : jsstring :=
  path_join h [cwd h; lit "scripts"; lit "venv"; lit "Scripts"; lit "python.exe"].
Definition posixVenv : jsstring :=
  path_join h [cwd h; lit "scripts"; lit "venv"; lit "bin"; lit "python"].
End HostOperations.

(** Responses. *)
Inductive body : Type :=
| JsonBody (v : value)
| RawBody (data : list N).

Record Response : Type := {
  status : N;
  headers : list (jsstring * jsstring);
  payload : body
}.

(** [NextResponse.json(obj, { status })] *)
Definition json_response (status : N) (fields : list (jsstring * value)) : Response :=
  {| status := status; headers := []; payload := JsonBody (VObj fields) |}.

(** A field of a JSON response body, [VUndefined] when there is none. *)
Definition body_field (r : Response) (key : string) : value :=
  match payload r with
  | JsonBody v => get_prop v key
  | RawBody _ => VUndefined
  end.

Record Request : Type := {
  req_url : jsstring;
  req_json : value + exn;                      (* await request.json() *)
  req_header : jsstring -> option jsstring     (* request.headers.get *)
}.

Definition request_json (req : Request) : M value :=
  fun st =>
    match req_json req with
    | inl v => (Ok v, st)
    | inr e => (Throw e, st)
    end.

(** [request.headers.get(name)] when it is present and not empty. *)
Definition header_truthy (req : Request) (name : string) : option jsstring :=
  match req_header req (lit name) with
  | Some (c :: s) => Some (c :: s)
  | _ => None
  end.

(** The three route files that render carry the same [normalizeForBrowser];
    [None] is the [URIError] of [encodeURIComponent]. *)
Definition normalizeForBrowser (p : jsstring) : option jsstring :=
  let s := strip_drive_letter (replace_backslashes p) in
  let s := strip_leading_slashes s in
  option_map (app (lit "/api/assets?path=")) (encodeURIComponent s).

(* ================================================================== *)
(** * The job request handlers *)
(* ================================================================== *)

Section SharedByRoutes.
Variable h : Host.

(** [ensureTempDir] (flatlay-render, virtual-showcase, runway) *)
Definition ensureTempDir : M jsstring :=
  let tmp := path_join h [cwd h; lit "temp"] in
  ex <- existsSync tmp ;;
  (if negb ex then mkdir h tmp else ret tt) ;;;
  ret tmp.

(** [s.replace(/:$/, '')] *)
Definition strip_trailing_colon (s : jsstring) : jsstring :=
  match rev s with
  | c :: r => if c =? c_colon then rev r else s
  | [] => s
  end.

(** The block of virtual-showcase and runway that turns [reference] into
    an absolute URL: kept if [new URL] accepts it, else built from the
    request headers. *)
Definition reference_url (req : Request) (reference : value)
  : M (option jsstring) :=
  if negb (truthy reference) then ret None
  else
    match (if stringifiable reference
           then URL_href h (to_string h reference) else None) with
    | Some href => ret (Some href)
    | None =>
        proto <-
          match header_truthy req "x-forwarded-proto" with
          | Some p => ret p
          | None =>
              match header_truthy req "x-forwarded-protocol" with
              | Some p => ret p
              | None =>
                  match header_truthy req "referer" with
                  | Some r =>
                      match URL_protocol h r with
                      | Some pr => ret (strip_trailing_colon pr)
                      | None => throw h InvalidURL
                      end
                  | None => ret (lit "http")
                  end
              end
          end ;;
        let host :=
          match header_truthy req "host" with
          | Some x => x
          | None => lit "localhost:3000"
          end in
        match reference with
        | VStr s =>
            let refPath := if startsWith s (lit "/") then s else lit "/" ++ s in
            ret (Some (proto ++ lit "://" ++ host ++ refPath))
        | _ => throw h NotCallable
        end
    end.

(** The optional worker arguments of virtual-showcase and runway. *)
Definition model_attrs_args (modelConfig : value) : list jsstring :=
  if truthy modelConfig && (0 <? keys_length modelConfig)%nat
  then [lit "--model-attrs"; JSON_stringify h false modelConfig]
  else [].

Definition reference_args (referenceUrl : option jsstring) : list jsstring :=
  match referenceUrl with
  | Some (c :: u) => [lit "--reference"; c :: u]
  | _ => []
  end.

(** A success response that carries a client reference to an artifact;
    the [URIError] of [encodeURIComponent] escapes the [close] callback. *)
Definition respond_artifact (key : string) (path : jsstring)
           (rest : list (jsstring * value)) : M Response :=
  match normalizeForBrowser path with
  | Some url =>
      ret (json_response 200
             (fld "success" (VBool true) :: fld key (VStr url) :: rest))
  | None => uncaught h URIMalformed
  end.

(** The failure envelope of a worker that ran and exited with [code]. *)
Definition script_failed (code : option Z) (stdout stderr : jsstring)
  : Response :=
  json_response 500
    [fld "success" (VBool false);
     fld "error" (VStr (lit "Script failed (code " ++ string_of_code code
                        ++ lit ")"));
     fld "raw_stdout" (VStr stdout);
     fld "raw_stderr" (VStr stderr)].

Definition catch_message (e : exn) : M Response :=
  ret (json_response 500
         [fld "success" (VBool false); fld "error" (VStr (exn_message e))]).
End SharedByRoutes.

(** ** src/app/api/virtual-showcase/route.ts *)
Module VirtualShowcase.
Section Route.
Variable h : Host.

Definition getPythonExecutable : M jsstring :=
  w <- existsSync (winVenv h) ;;
  if w then ret (winVenv h)
  else
    p <- existsSync (posixVenv h) ;;
    if p then ret (posixVenv h)
    else
      match env_truthy h "PYTHON_PATH" with
      | Some py => ret py
      | None => ret (platform_default h)
      end.

(** The three patterns of the [close] callback, tried in order. *)
Definition saved_match (combined : jsstring) : option (option jsstring) :=
  match_or (regex_match re_showcase_saved combined)
    (match_or (regex_match (re_saved_image_under "renders") combined)
              (regex_match (re_saved_image_under "output") combined)).

(** [proc.on('close', (code) => ...)] *)
Definition on_close (design : value) (code : option Z)
           (stdout stderr : jsstring) : M Response :=
  let combined := stdout ++ [c_lf] ++ stderr in
  match code with
  | Some 0%Z =>
      match capture1 (saved_match combined) with
      | Some m1 =>
          respond_artifact h "imageUrl" (trim m1)
            [fld "message" (VStr (lit "Virtual showcase generated successfully"))]
      | None =>
          id <- ToString_in_callback h (get_prop design "design_id") ;;
          let fallback := path_join h [lit "output"; id ++ lit "_showcase.png"] in
          ex <- existsSync (path_join h [cwd h; fallback]) ;;
          if ex then
            respond_artifact h "imageUrl" fallback
              [fld "message" (VStr (lit "Virtual showcase generated (fallback)"))]
          else
            ret (json_response 200
                   [fld "success" (VBool true);
                    fld "message"
                      (VStr (lit "Virtual showcase script finished but no image parsed"));
                    fld "raw_stdout" (VStr stdout);
                    fld "raw_stderr" (VStr stderr)])
      end
  | _ => ret (script_failed code stdout stderr)
  end.

Definition POST (req : Request) : M Response :=
  try_catch
    (body <- request_json req ;;
     let b := nullish_or body (VObj []) in
     let design := get_prop b "design" in
     let modelConfig := get_prop b "modelConfig" in
     let reference := get_prop b "reference" in
     if negb (truthy design) || negb (truthy (get_prop design "design_id"))
     then ret (json_response 400
                 [fld "success" (VBool false);
                  fld "error" (VStr (lit "missing design or design.design_id"))])
     else
       ensureTempDir h ;;;
       id <- ToString h (get_prop design "design_id") ;;
       let designPath :=
         path_join h [cwd h; lit "temp"; id ++ lit ".design.json"] in
       writeFile h designPath (JSON_stringify h true design) ;;;
       referenceUrl <- reference_url h req reference ;;
       python <- getPythonExecutable ;;
       let args :=
         [path_join h [lit "scripts"; lit "agent3_virtual_showcase_demo.py"];
          lit "--design"; designPath; lit "--out-dir"; lit "output"]
         ++ model_attrs_args h modelConfig
         ++ reference_args referenceUrl in
       r <- spawn h python args ;;
       match r with
       | SpawnError msg =>
           ret (json_response 500
                  [fld "success" (VBool false);
                   fld "error" (VStr (lit "spawn error: " ++ msg))])
       | Closed code out err =>
           on_close design code (List.concat out) (List.concat err)
       end)
    catch_message.
End Route.
End VirtualShowcase.

(** ** src/app/api/runway/route.ts *)
Module Runway.
Section Route.
Variable h : Host.

Definition getPythonExecutable : M jsstring :=
  w <- existsSync (winVenv h) ;;
  if w then ret (winVenv h)
  else
    p <- existsSync (posixVenv h) ;;
    if p then ret (posixVenv h)
    else
      match env_truthy h "PYTHON_PATH" with
      | Some py => ret py
      | None => ret (platform_default h)
      end.

Definition saved_match (combined : jsstring) : option (option jsstring) :=
  match_or (regex_match re_runway_saved combined)
    (match_or (regex_match (re_saved_video_under "output") combined)
              (regex_match (re_saved_video_under "renders") combined)).

Definition on_close (design : value) (code : option Z)
           (stdout stderr : jsstring) : M Response :=
  let combined := stdout ++ [c_lf] ++ stderr in
  match code with
  | Some 0%Z =>
      match capture1 (saved_match combined) with
      | Some m1 =>
          respond_artifact h "videoUrl" (trim m1)
            [fld "duration" (VStr (lit "6s"));
             fld "message" (VStr (lit "Runway video generated successfully"))]
      | None =>
          id <- ToString_in_callback h (get_prop design "design_id") ;;
          let fallback := path_join h [lit "output"; id ++ lit "_runway.mp4"] in
          ex <- existsSync (path_join h [cwd h; fallback]) ;;
          if ex then
            respond_artifact h "videoUrl" fallback
              [fld "duration" (VStr (lit "6s"));
               fld "message" (VStr (lit "Runway generated (fallback)"))]
          else
            ret (json_response 200
                   [fld "success" (VBool true);
                    fld "message"
                      (VStr (lit "Runway script finished but no mp4 path found"));
                    fld "raw_stdout" (VStr stdout);
                    fld "raw_stderr" (VStr stderr)])
      end
  | _ => ret (script_failed code stdout stderr)
  end.

Definition POST (req : Request) : M Response :=
  try_catch
    (body <- request_json req ;;
     let b := nullish_or body (VObj []) in
     let design := get_prop b "design" in
     let modelConfig := get_prop b "modelConfig" in
     let reference := get_prop b "reference" in
     if negb (truthy design) || negb (truthy (get_prop design "design_id"))
     then ret (json_response 400
                 [fld "success" (VBool false);
                  fld "error" (VStr (lit "missing design or design.design_id"))])
     else
       referenceUrl <- reference_url h req reference ;;
       ensureTempDir h ;;;
       id <- ToString h (get_prop design "design_id") ;;
       let designPath :=
         path_join h [cwd h; lit "temp"; id ++ lit ".design.json"] in
       writeFile h designPath (JSON_stringify h true design) ;;;
       python <- getPythonExecutable ;;
       let args :=
         [path_join h [lit "scripts"; lit "agent3_runway_demo.py"];
          lit "--design"; designPath; lit "--out-dir"; lit "output"]
         ++ model_attrs_args h modelConfig
         ++ reference_args referenceUrl in
       r <- spawn h python args ;;
       match r with
       | SpawnError msg =>
           ret (json_response 500
                  [fld "success" (VBool false);
                   fld "error" (VStr (lit "spawn error: " ++ msg))])
       | Closed code out err =>
           on_close design code (List.concat out) (List.concat err)
       end)
    catch_message.
End Route.
End Runway.

(** ** src/app/api/flatlay-render/route.ts *)
Module FlatlayRender.
Section Route.
Variable h : Host.

Definition getPythonExecutable : jsstring :=
  match env_truthy h "PYTHON_PATH" with
  | Some py => py
  | None => platform_default h
  end.

Definition on_close (code : option Z) (stdout stderr : jsstring)
  : M Response :=
  let combined := stdout ++ [c_lf] ++ stderr in
  let m := regex_match re_flatlay_saved combined in
  match code, capture1 m with
  | Some 0%Z, Some m1 =>
      respond_artifact h "imageUrl" (trim m1)
        [fld "message" (VStr (lit "Flatlay render generated successfully"))]
  | Some 0%Z, None =>
      ret (json_response 500
             [fld "success" (VBool false);
              fld "error" (VStr (lit "Could not parse script output"));
              fld "raw_stdout" (VStr stdout);
              fld "raw_stderr" (VStr stderr)])
  | _, _ => ret (script_failed code stdout stderr)
  end.

Definition POST (req : Request) : M Response :=
  try_catch
    (body <- request_json req ;;
     (if is_nullish body then throw h (NullProperty body) else ret tt) ;;;
     let design := get_prop body "design" in
     if negb (truthy design)
     then ret (json_response 400
                 [fld "success" (VBool false);
                  fld "error" (VStr (lit "missing design"))])
     else
       tempDir <- ensureTempDir h ;;
       now <- Date_now h ;;
       let designPath :=
         path_join h [tempDir;
                      lit "design_" ++ string_of_Z now ++ lit ".json"] in
       writeFile h designPath (JSON_stringify h true design) ;;;
       let pythonPath := getPythonExecutable in
       let script := path_join h [cwd h; lit "scripts"; lit "render_utils.py"] in
       let args :=
         [script; lit "--input"; designPath; lit "--variant"; lit "flatlay"] in
       r <- spawn h pythonPath args ;;
       match r with
       | SpawnError msg =>
           ret (json_response 500
                  [fld "success" (VBool false);
                   fld "error" (VStr (lit "spawn error: " ++ msg))])
       | Closed code out err =>
           on_close code (List.concat out) (List.concat err)
       end)
    (catch_message).
End Route.
End FlatlayRender.

(** ** src/app/api/apply-change/route.ts *)
Module ApplyChange.
Section Route.
Variable h : Host.

Definition getPythonExecutable : M jsstring :=
  w <- existsSync (winVenv h) ;;
  if w then ret (winVenv h)
  else
    p <- existsSync (posixVenv h) ;;
    if p then ret (posixVenv h)
    else ret (platform_default h).

(** The [raw_stdout] and [raw_stderr] fields of every failure of the
    [close] callback. *)
Definition raw_fields (stdout stderr : jsstring) : list (jsstring * value) :=
  [fld "raw_stdout" (VStr (slice0 2000 stdout));
   fld "raw_stderr" (VStr (slice0 8000 stderr))].

Definition candidatePaths (modifiedPath : jsstring) : list jsstring :=
  (if path_isAbsolute h modifiedPath then [modifiedPath] else [])
  ++ [path_join h [cwd h; modifiedPath];
      path_join h [cwd h; lit "scripts"; modifiedPath];
      path_join h [cwd h; lit "temp"; modifiedPath];
      path_join h [cwd h; lit "output"; modifiedPath];
      path_join h [cwd h; replace_backslashes modifiedPath]].

(** The loop that keeps the first candidate that exists. *)
Fixpoint first_existing (ps : list jsstring) : M (option jsstring) :=
  match ps with
  | [] => ret None
  | p :: rest =>
      ex <- existsSync p ;;
      if ex then ret (Some p) else first_existing rest
  end.

Definition parse_json (text : jsstring) : M value :=
  fun st =>
    match JSON_parse h text with
    | inl v => (Ok v, st)
    | inr e => (Throw e, st)
    end.

Definition on_close (code : option Z) (stdout stderr : jsstring)
  : M Response :=
  match code with
  | Some 0%Z =>
      match capture1 (regex_match re_wrote stdout) with
      | Some w =>
          let modifiedPath := strip_quotes (trim w) in
          finalPath <- first_existing (candidatePaths modifiedPath) ;;
          match finalPath with
          | Some (c :: p) =>
              let finalPath := c :: p in
              try_catch
                (data <- readFileSync h finalPath ;;
                 updatedDesign <- parse_json (utf8_decode data) ;;
                 ret (json_response 200
                        [fld "success" (VBool true);
                         fld "design" updatedDesign;
                         fld "message" (VStr (lit "Design updated successfully"))]))
                (fun err =>
                   ret (json_response 500
                          ([fld "success" (VBool false);
                            fld "error"
                              (VStr (lit "Failed to read/parse updated design file"));
                            fld "details" (VStr (exn_to_string err));
                            fld "finalPath" (VStr finalPath)]
                           ++ raw_fields stdout stderr)))
          | _ =>
              ret (json_response 500
                     ([fld "success" (VBool false);
                       fld "error"
                         (VStr (lit "Python reported Wrote: path but file not found"));
                       fld "reportedPath" (VStr modifiedPath);
                       fld "tried"
                         (VArr (map VStr (firstn 10 (candidatePaths modifiedPath))))]
                      ++ raw_fields stdout stderr))
          end
      | None =>
          try_catch
            (parsed <- parse_json (trim stdout) ;;
             ret (json_response 200
                    [fld "success" (VBool true);
                     fld "design" parsed;
                     fld "message" (VStr (lit "Design updated from stdout"))]))
            (fun _ =>
               ret (json_response 500
                      ([fld "success" (VBool false);
                        fld "error"
                          (VStr (lit "Could not find written file path and stdout was not parseable JSON"))]
                       ++ raw_fields stdout stderr)))
      end
  | _ =>
      ret (json_response 500
             ([fld "success" (VBool false);
               fld "error" (VStr (lit "Python script exited with code "
                                  ++ string_of_code code))]
              ++ raw_fields stdout stderr))
  end.

Definition POST (req : Request) : M Response :=
  try_catch
    (body <- request_json req ;;
     (if is_nullish body then throw h (NullDestructure body) else ret tt) ;;;
     let design := get_prop body "design" in
     let textChange := get_prop body "textChange" in
     if negb (truthy design) || negb (truthy textChange)
     then ret (json_response 400
                 [fld "success" (VBool false);
                  fld "error" (VStr (lit "Missing design or textChange"))])
     else
       let tempDir := path_join h [cwd h; lit "temp"] in
       mkdir h tempDir ;;;
       t1 <- Date_now h ;;
       let designPath :=
         path_join h [tempDir; lit "design_" ++ string_of_Z t1 ++ lit ".json"] in
       t2 <- Date_now h ;;
       let changePath :=
         path_join h [tempDir; lit "change_" ++ string_of_Z t2 ++ lit ".txt"] in
       writeFile h designPath (JSON_stringify h true design) ;;;
       text <- ToString h textChange ;;
       writeFile h changePath text ;;;
       pythonCmd <- getPythonExecutable ;;
       let scriptPath :=
         path_join h [cwd h; lit "scripts"; lit "apply_text_change.py"] in
       r <- spawn h pythonCmd [scriptPath; designPath; changePath] ;;
       match r with
       | SpawnError msg =>
           ret (json_response 500
                  [fld "success" (VBool false);
                   fld "error" (VStr (lit "Failed to spawn python: " ++ msg))])
       | Closed code out err =>
           on_close code (List.concat out) (List.concat err)
       end)
    (fun err =>
       ret (json_response 500
              [fld "success" (VBool false);
               fld "error" (VStr (exn_to_string err))])).
End Route.
End ApplyChange.

(** ** src/app/api/asset/route.ts *)
Module Asset.
(** [ALLOWED_DIRS] *)
Definition ALLOWED_DIRS : list jsstring :=
  [lit "renders"; lit "output"; lit "public"].

(** [ALLOWED_DIRS.has(x)] *)
Definition allowed (x : jsstring) : bool := existsb (str_eqb x) ALLOWED_DIRS.

(** The decode step of [GET]: the [path] parameter with backslashes turned
    into slashes and leading slashes removed. *)
Definition requested_of (rawPath : jsstring) : jsstring :=
  strip_leading_slashes (replace_backslashes rawPath).

Definition firstSegment (requested : jsstring) : jsstring :=
  hd [] (split c_slash requested).

Definition reject (status : N) (message : string) : Response :=
  json_response status
    [fld "success" (VBool false); fld "error" (VStr (lit message))].

Section Route.
Variable h : Host.

Definition GET (req : Request) : M Response :=
  try_catch
    (match searchParams_get (req_url req) (lit "path") with
     | None | Some [] => ret (reject 400 "Missing path param")
     | Some rawPath =>
         let requested := requested_of rawPath in
         if includes requested (lit "..")
         then ret (reject 400 "Invalid path")
         else if negb (allowed (firstSegment requested))
         then ret (reject 403 "Folder not allowed")
         else
           let abs := path_resolve h (path_join h [cwd h; requested]) in
           let projectRoot := path_resolve h (cwd h) in
           if negb (startsWith abs (projectRoot ++ path_sep h))
              && negb (str_eqb abs projectRoot)
           then ret (reject 400 "Invalid resolved path")
           else
             ex <- existsSync abs ;;
             if negb ex
             then ret (json_response 404
                         [fld "success" (VBool false);
                          fld "error" (VStr (lit "File not found"));
                          fld "path" (VStr requested)])
             else
               data <- readFileSync h abs ;;
               let contentType :=
                 match mime_getType h abs with
                 | Some (c :: t) => c :: t
                 | _ => lit "application/octet-stream"
                 end in
               ret {| status := 200;
                      headers := [(lit "Content-Type", contentType);
                                  (lit "Cache-Control", lit "no-cache")];
                      payload := RawBody data |}
     end)
    (catch_message).
End Route.
End Asset.

(* ================================================================== *)
(** * A POSIX host, for running the handlers on concrete requests *)
(* ================================================================== *)

Module Posix.
(** [normalizeString] of Node's [path]: the segments with the empty and
    [.] ones dropped and [..] resolved; the accumulator is reversed. *)
Definition push_segment (allowAbove : bool) (acc : list jsstring)
           (seg : jsstring) : list jsstring :=
  if str_eqb seg [] || str_eqb seg (lit ".") then acc
  else if str_eqb seg (lit "..") then
    match acc with
    | last :: rest => if str_eqb last (lit "..") then seg :: acc else rest
    | [] => if allowAbove then [seg] else []
    end
  else seg :: acc.

Definition normalizeString (allowAbove : bool) (p : jsstring) : jsstring :=
  join_with (lit "/")
    (rev (fold_left (push_segment allowAbove) (split c_slash p) [])).

Definition isAbsolute (p : jsstring) : bool := startsWith p (lit "/").

Definition ends_with_slash (p : jsstring) : bool :=
  match rev p with
  | c :: _ => c =? c_slash
  | [] => false
  end.

(** [path.posix.normalize] *)
Definition normalize (p : jsstring) : jsstring :=
  match p with
  | [] => lit "."
  | _ =>
      match normalizeString (negb (isAbsolute p)) p with
      | [] => if isAbsolute p then lit "/"
              else if ends_with_slash p then lit "./" else lit "."
      | body =>
          (if isAbsolute p then lit "/" else [])
          ++ body ++ (if ends_with_slash p then lit "/" else [])
      end
  end.

(** [path.posix.join] *)
Definition join (parts : list jsstring) : jsstring :=
  match filter (fun x => negb (str_eqb x [])) parts with
  | [] => lit "."
  | ps => normalize (join_with (lit "/") ps)
  end.

(** [path.posix.resolve(p)] in a process whose working directory is
    [cwd], an absolute path. *)
Definition resolve (cwd p : jsstring) : jsstring :=
  let full := if isAbsolute p then p
              else match p with [] => cwd | _ => cwd ++ lit "/" ++ p end in
  lit "/" ++ normalizeString false full.

(** [path.posix.dirname] *)
Definition dirname (p : jsstring) : jsstring :=
  match p with
  | [] => lit "."
  | _ =>
      let r := drop_while (fun c => negb (c =? c_slash))
                          (drop_while (fun c => c =? c_slash) (rev p)) in
      match rev r with
      | (_ :: _ :: _) as up_to_slash =>
          if isAbsolute p && (List.length up_to_slash =? 2)%nat then lit "//"
          else removelast up_to_slash
      | _ => if isAbsolute p then lit "/" else lit "."
      end
  end.

(** [JSON.stringify]: compact, or indented by two spaces. Finite numbers
    are rendered by [num]. *)
Definition hex4 (c : N) : jsstring :=
  let d n := if n <? 10 then 48 + n else 87 + n in
  [d (c / 4096); d ((c / 256) mod 16); d ((c / 16) mod 16); d (c mod 16)].

Fixpoint quote_units (s : jsstring) : jsstring :=
  match s with
  | [] => []
  | c :: s' =>
      let lone_high :=
        is_high_surrogate c
        && negb (match s' with d :: _ => is_low_surrogate d | [] => false end) in
      if c =? c_dquote then lit "\" ++ [c_dquote] ++ quote_units s'
      else if c =? c_backslash then lit "\\" ++ quote_units s'
      else if c =? 8 then lit "\b" ++ quote_units s'
      else if c =? 9 then lit "\t" ++ quote_units s'
      else if c =? 10 then lit "\n" ++ quote_units s'
      else if c =? 12 then lit "\f" ++ quote_units s'
      else if c =? 13 then lit "\r" ++ quote_units s'
      else if (c <? 32) || lone_high then lit "\u" ++ hex4 c ++ quote_units s'
      else if is_high_surrogate c then
        match s' with
        | d :: s'' => c :: d :: quote_units s''
        | [] => [c]
        end
      else if is_low_surrogate c then lit "\u" ++ hex4 c ++ quote_units s'
      else c :: quote_units s'
  end.

Definition quote (s : jsstring) : jsstring :=
  [c_dquote] ++ quote_units s ++ [c_dquote].

Definition is_undefined (v : value) : bool :=
  match v with VUndefined => true | _ => false end.

Section Stringify.
Variable num : float -> jsstring.
Variable pretty : bool.

Definition newline (depth : nat) : jsstring :=
  if pretty then c_lf :: repeat c_space (2 * depth) else [].

Definition wrap (open close : N) (depth : nat) (items : list jsstring)
  : jsstring :=
  match items with
  | [] => [open; close]
  | _ =>
      [open] ++ newline (S depth)
      ++ join_with (lit "," ++ newline (S depth)) items
      ++ newline depth ++ [close]
  end.

Fixpoint stringify_at (depth : nat) (v : value) : jsstring :=
  match v with
  | VUndefined | VNull => lit "null"
  | VBool true => lit "true"
  | VBool false => lit "false"
  | VNum f =>
      if PrimFloat.is_nan f || PrimFloat.is_infinity f then lit "null"
      else num f
  | VStr s => quote s
  | VArr xs => wrap 91 93 depth (map (stringify_at (S depth)) xs)
  | VObj fields =>
      wrap 123 125 depth
        ((fix members (l : list (jsstring * value)) : list jsstring :=
            match l with
            | [] => []
            | (k, x) :: rest =>
                if is_undefined x then members rest
                else (quote k ++ (if pretty then lit ": " else lit ":")
                      ++ stringify_at (S depth) x) :: members rest
            end) fields)
  end.
End Stringify.

(** Number::toString: the shortest decimal that reads back as the
    number, the nearest to it if there are several, laid out with or
    without an exponent. The arithmetic is exact, on integers. *)
Section Numbers.
Local Open Scope Z_scope.

(** A positive rational, as numerator and denominator. *)
Definition ratio : Type := (Z * Z)%type.

Definition scaled (z : Z) (base exponent : Z) : ratio :=
  if (0 <=? exponent)%Z then (z * base ^ exponent, 1)%Z
  else (z, base ^ (- exponent))%Z.

Definition ratio_compare (a b : ratio) : comparison :=
  (fst a * snd b ?= fst b * snd a)%Z.

Definition ratio_floor (a : ratio) : Z := (fst a / snd a)%Z.

Definition ratio_mul (a b : ratio) : ratio := (fst a * fst b, snd a * snd b)%Z.

Definition ratio_add (a b : ratio) : ratio :=
  (fst a * snd b + fst b * snd a, snd a * snd b)%Z.

Definition digits_of (z : Z) : jsstring := string_of_Z z.

(** The integer [n] with [10^(n-1) <= x < 10^n]. *)
Definition decimal_exponent (x : ratio) : Z :=
  let a := Z.of_nat (List.length (digits_of (fst x))) in
  let b := Z.of_nat (List.length (digits_of (snd x))) in
  match ratio_compare x (scaled 1 10 (a - b)) with
  | Lt => (a - b)%Z
  | _ => (a - b + 1)%Z
  end.

(** The decimal [s * 10^(n-k)] with [k] digits nearest to [m * 2^e] among
    those that round to it, if there is one: its digits and [n]. *)
Definition candidate (m e n k : Z) : option (jsstring * Z) :=
  let x := scaled m 2 e in
  let below := if (m =? 2 ^ 52)%Z && (-1074 <? e)%Z then 1%Z else 2%Z in
  let low := scaled (4 * m - below) 2 (e - 2) in
  let high := scaled (4 * m + 2) 2 (e - 2) in
  let inside (c : ratio) : bool :=
    match ratio_compare low c, ratio_compare c high with
    | Lt, Lt => true
    | Gt, _ | _, Gt => false
    | _, _ => Z.even m
    end in
  let unit := scaled 1 10 (n - k) in
  let s := ratio_floor (ratio_mul x (snd unit, fst unit)) in
  let value (s : Z) : ratio := ratio_mul (s, 1%Z) unit in
  let found (s : Z) : option (jsstring * Z) :=
    let ds := digits_of s in
    Some (ds, (n + Z.of_nat (List.length ds) - k)%Z) in
  match inside (value s) && (0 <? s)%Z, inside (value (s + 1)) with
  | true, true =>
      match ratio_compare (ratio_mul (2%Z, 1%Z) x)
                          (ratio_add (value s) (value (s + 1))) with
      | Lt => found s
      | Gt => found (s + 1)%Z
      | Eq => if Z.even s then found s else found (s + 1)%Z
      end
  | true, false => found s
  | false, true => found (s + 1)%Z
  | false, false => None
  end.

Fixpoint shortest (m e n : Z) (ks : list Z) : jsstring * Z :=
  match ks with
  | [] => (digits_of m, n)
  | k :: rest =>
      match candidate m e n k with
      | Some r => r
      | None => shortest m e n rest
      end
  end.

Definition strip_zeros (ds : jsstring) : jsstring :=
  match rev (drop_while (N.eqb 48) (rev ds)) with
  | [] => [48%N]
  | ds' => ds'
  end.

Definition zeros (n : Z) : jsstring := repeat 48%N (Z.to_nat n).

(** The layout of Number::toString for the digits [ds] and the exponent
    [n]: the value is [0.ds * 10^n]. *)
Definition layout (ds : jsstring) (n : Z) : jsstring :=
  let k := Z.of_nat (List.length ds) in
  if (k <=? n)%Z && (n <=? 21)%Z then ds ++ zeros (n - k)
  else if (0 <? n)%Z && (n <=? 21)%Z
  then firstn (Z.to_nat n) ds ++ lit "." ++ skipn (Z.to_nat n) ds
  else if (-6 <? n)%Z && (n <=? 0)%Z then lit "0." ++ zeros (- n) ++ ds
  else
    let exponent :=
      (if (n - 1 <? 0)%Z then lit "-" else lit "+")
      ++ digits_of (Z.abs (n - 1)) in
    match ds with
    | [d] => [d] ++ lit "e" ++ exponent
    | d :: more => [d] ++ lit "." ++ more ++ lit "e" ++ exponent
    | [] => []
    end.

(** Number::toString *)
Definition render_number (f : float) : jsstring :=
  match Prim2SF f with
  | S754_zero _ => lit "0"
  | S754_nan => lit "NaN"
  | S754_infinity false => lit "Infinity"
  | S754_infinity true => lit "-Infinity"
  | S754_finite sign m e =>
      let n := decimal_exponent (scaled (Zpos m) 2 e) in
      let '(ds, n') :=
        shortest (Zpos m) e n (map Z.of_nat (seq 1 17)) in
      (if sign then lit "-" else []) ++ layout (strip_zeros ds) n'
  end.
End Numbers.

(** A worker of the examples: what it prints, how it exits, and the files
    it leaves. *)
Definition worker : Type :=
  jsstring -> list jsstring -> filesystem -> worker_result * filesystem.

(** [mime.getType]: the type of the extension, which is what follows the
    last dot of the last segment of the path, in lower case (here for ASCII
    letters). Of the extensions [mime] knows, the table holds those of the
    files the examples serve and a few more. *)
Definition ascii_lower (c : N) : N := if is_upper c then c + 32 else c.

Definition mime_types : list (jsstring * jsstring) :=
  [(lit "png", lit "image/png");
   (lit "jpg", lit "image/jpeg");
   (lit "jpeg", lit "image/jpeg");
   (lit "jpe", lit "image/jpeg");
   (lit "gif", lit "image/gif");
   (lit "webp", lit "image/webp");
   (lit "svg", lit "image/svg+xml");
   (lit "mp4", lit "video/mp4");
   (lit "json", lit "application/json");
   (lit "pdf", lit "application/pdf");
   (lit "txt", lit "text/plain");
   (lit "html", lit "text/html");
   (lit "htm", lit "text/html");
   (lit "css", lit "text/css")].

Definition mime_of (p : jsstring) : option jsstring :=
  let last :=
    map ascii_lower
        (rev (take_until (fun c => (c =? c_slash) || (c =? c_backslash))
                         (rev p))) in
  let ext := rev (take_until (N.eqb c_dot) (rev last)) in
  let hasPath := (List.length last <? List.length p)%nat in
  let hasDot := (S (List.length ext) <? List.length last)%nat in
  if hasDot || negb hasPath
  then
    match find (fun kv => str_eqb (fst kv) ext) mime_types with
    | Some kv => Some (snd kv)
    | None => None
    end
  else None.

(** The scheme of an absolute URL: an ASCII letter, then letters, digits,
    [+], [-] or [.], up to the first colon. *)
Definition scheme_unit (c : N) : bool :=
  is_alpha c || is_digit c || (c =? c_plus) || (c =? 45) || (c =? c_dot).

Definition scheme_of (s : jsstring) : option jsstring :=
  match s with
  | c :: _ =>
      let sch := take_until (fun x => negb (scheme_unit x)) s in
      if is_alpha c && startsWith s (sch ++ [c_colon])
      then Some (sch ++ [c_colon]) else None
  | [] => None
  end.

(** The messages of V8 and of libuv for the errors of the handlers. *)
Definition nullish_name (v : value) : jsstring :=
  match v with
  | VNull => lit "null"
  | _ => lit "undefined"
  end.

Definition message_of (f : failure) : jsstring :=
  match f with
  | ENOENT p => lit "ENOENT: no such file or directory, open '" ++ p ++ lit "'"
  | EISDIR _ => lit "EISDIR: illegal operation on a directory, read"
  | EISDIR_open p =>
      lit "EISDIR: illegal operation on a directory, open '" ++ p ++ lit "'"
  | EEXIST p => lit "EEXIST: file already exists, mkdir '" ++ p ++ lit "'"
  | ENOTDIR p => lit "ENOTDIR: not a directory, open '" ++ p ++ lit "'"
  | NullProperty base =>
      lit "Cannot read properties of " ++ nullish_name base
      ++ lit " (reading 'design')"
  | NullDestructure base =>
      lit "Cannot destructure property 'design' of 'body' as it is "
      ++ nullish_name base ++ lit "."
  | NotCallable => lit "reference.startsWith is not a function"
  | NotPrimitive => lit "Cannot convert object to primitive value"
  | InvalidURL => lit "Invalid URL"
  | URIMalformed => lit "URI malformed"
  end.

Fixpoint assoc {A} (k : jsstring) (l : list (jsstring * A)) : option A :=
  match l with
  | [] => None
  | (k', v) :: rest => if str_eqb k' k then Some v else assoc k rest
  end.

(** The host of the examples: a POSIX machine with working directory
    [/app], the environment variables [vars], and the worker [w]. Of the
    runtime's builtins it parses the JSON texts listed in [docs] and no
    other, and takes a string with a scheme for an absolute URL that
    serializes to itself. *)
Definition host (vars : list (jsstring * jsstring)) (w : worker)
           (docs : list (jsstring * value)) : Host :=
  {| cwd := lit "/app";
     win32 := false;
     env := fun name => assoc name vars;
     path_join := join;
     path_resolve := resolve (lit "/app");
     path_isAbsolute := isAbsolute;
     path_dirname := dirname;
     path_sep := lit "/";
     number_to_string := render_number;
     JSON_stringify := fun pretty v => stringify_at render_number pretty 0 v;
     JSON_parse := fun text =>
       match assoc text docs with
       | Some v => inl v
       | None => inr (Exn (lit "SyntaxError") (lit "Unexpected token"))
       end;
     URL_href := fun s => match scheme_of s with Some _ => Some s | None => None end;
     URL_protocol := scheme_of;
     mime_getType := mime_of;
     failure_message := message_of;
     tick := Z.succ;
     run_worker := w |}.

(** A file system given by its entries. *)
Definition disk (entries : list (jsstring * node)) : filesystem :=
  fun p => assoc p entries.

Definition boot (entries : list (jsstring * node)) : state :=
  State (disk entries) 1700000000000 [].

(** A request for [url] with the parsed JSON [body] and no headers. *)
Definition request (url : string) (body : value) : Request :=
  {| req_url := lit url; req_json := inl body; req_header := fun _ => None |}.
End Posix.

(** ** Workers, hosts and requests of the examples *)
Module Examples.
(** A worker that cannot be started. *)
Definition absent : Posix.worker :=
  fun _ _ disk => (SpawnError (lit "spawn python3 ENOENT"), disk).

(** A worker that prints [out] and [err], each as one chunk, writes no
    file and exits with [code]. *)
Definition prints (code : Z) (out err : jsstring) : Posix.worker :=
  fun _ _ disk => (Closed (Some code) [out] [err], disk).

(** The project directory before any job has run. *)
Definition project : list (jsstring * node) :=
  [(lit "/app", Dir); (lit "/app/scripts", Dir); (lit "/app/output", Dir)].

(** The project directory with a POSIX virtual environment in it. *)
Definition project_with_venv : list (jsstring * node) :=
  project ++ [(lit "/app/scripts/venv/bin/python", File [])].

Definition design_with_id : value :=
  VObj [fld "design_id" (VStr (lit "abc123"));
        fld "design_text" (VStr (lit "olive linen"))].

Definition design_without_id : value :=
  VObj [fld "design_text" (VStr (lit "olive linen"))].

(** A worker that prints [out], leaves the files [files] and exits with
    code 0. *)
Definition leaves (out : jsstring) (files : list (jsstring * node))
  : Posix.worker :=
  fun _ _ disk =>
    (Closed (Some 0%Z) [out] [],
     fun p => match Posix.assoc p files with Some n => Some n | None => disk p end).

(** The design the change worker writes. *)
Definition updated_design : value :=
  VObj [fld "design_id" (VStr (lit "42"));
        fld "design_text" (VStr (lit "olive linen"))].

Definition updated_text : jsstring :=
  Posix.stringify_at Posix.render_number false 0 updated_design.

(** An output of 2001 code units. *)
Definition long_output : jsstring := repeat 120 (N.to_nat 2001).

Definition change_request : value :=
  VObj [fld "design" design_with_id;
        fld "textChange" (VStr (lit "make it olive"))].

Definition post (route : string) (body : value) : Request :=
  Posix.request ("http://localhost:3000/api/" ++ route) body.

Definition get_asset (query : string) : Request :=
  Posix.request ("http://localhost:3000/api/assets?" ++ query) VNull.
End Examples.

(* ================================================================== *)
(** * Notions the specification uses *)
(* ================================================================== *)

(** A well-formed string: code units below 2^16, every surrogate paired. *)
Fixpoint well_formed (s : jsstring) : bool :=
  match s with
  | [] => true
  | c :: s' =>
      if is_high_surrogate c then
        match s' with
        | d :: s'' => is_low_surrogate d && well_formed s''
        | [] => false
        end
      else negb (is_low_surrogate c) && (c <? 0x10000) && well_formed s'
  end.

(** A relative path: no drive-letter prefix and no leading separator. *)
Definition has_drive_prefix (p : jsstring) : bool :=
  match p with
  | c :: d :: _ => is_alpha c && (d =? c_colon)
  | _ => false
  end.

Definition is_relative (p : jsstring) : bool :=
  negb (has_drive_prefix p)
  && negb (startsWith p [c_slash]) && negb (startsWith p [c_backslash]).

(** A string that matches [^https?://]. *)
Definition matches_http (p : jsstring) : bool :=
  startsWith p (lit "http://") || startsWith p (lit "https://").

(** The code units of an encoded component: unescaped ones and the percent
    sign of an escape. *)
Definition url_safe (c : N) : bool := uri_unescaped c || (c =? c_percent).

(** The prefix of every client reference. *)
Definition reference_prefix : jsstring := lit "/api/assets?path=".

(** A path has a parent-directory segment. *)
Definition has_dotdot_segment (p : jsstring) : Prop :=
  In (lit "..") (split c_slash p).

(** Worker selection as the specification words it: a ladder of rungs, the
    first available one chosen. *)
Inductive rung : Type := VenvWindows | VenvPosix | EnvOverride | PlatformDefault.

Definition rung_choice (h : Host) (disk : filesystem) (r : rung)
  : option jsstring :=
  match r with
  | VenvWindows =>
      match disk (winVenv h) with Some _ => Some (winVenv h) | None => None end
  | VenvPosix =>
      match disk (posixVenv h) with Some _ => Some (posixVenv h) | None => None end
  | EnvOverride => env_truthy h "PYTHON_PATH"
  | PlatformDefault => Some (platform_default h)
  end.

Fixpoint first_available (h : Host) (disk : filesystem) (ladder : list rung)
  : option jsstring :=
  match ladder with
  | [] => None
  | r :: rest =>
      match rung_choice h disk r with
      | Some exe => Some exe
      | None => first_available h disk rest
      end
  end.

(** A request body that lacks [design] or [design.design_id]. *)
Definition lacks_design_id (body : value) : Prop :=
  get_prop body "design" = VUndefined
  \/ get_prop (get_prop body "design") "design_id" = VUndefined.

(** The first truthy candidate, else the default. *)
Fixpoint first_truthy (candidates : list value) (default : value) : value :=
  match candidates with
  | [] => default
  | v :: rest => if truthy v then v else first_truthy rest default
  end.

(** The validation errors of the handlers. *)
Definition missing_design_id : Response :=
  json_response 400
    [fld "success" (VBool false);
     fld "error" (VStr (lit "missing design or design.design_id"))].



(** The fields of the backend schema that have a default: the output key,
    the input keys read for it, and the default. *)
Definition defaulted_fields : list (string * list string * string) :=
  [("age_range", ["ageRange"; "age_range"], "25-32");
   ("body_type", ["bodyType"; "body_type"], "slim");
   ("skin_tone", ["skinTone"; "skin_tone"], "medium");
   ("pose", ["pose"], "standing");
   ("framing", ["framing"], "full-body, studio frame, no close-ups")]%string.

(** The answers of the render handlers to a worker that exited with code 0
    and left nothing they recognise. *)
Definition could_not_parse (stdout stderr : jsstring) : Response :=
  json_response 500
    [fld "success" (VBool false);
     fld "error" (VStr (lit "Could not parse script output"));
     fld "raw_stdout" (VStr stdout);
     fld "raw_stderr" (VStr stderr)].

Definition finished_without_artifact (message : string)
           (stdout stderr : jsstring) : Response :=
  json_response 200
    [fld "success" (VBool true);
     fld "message" (VStr (lit message));
     fld "raw_stdout" (VStr stdout);
     fld "raw_stderr" (VStr stderr)].

(** The conventional fallback file of a render job. *)
Definition fallback_file (h : Host) (design : value) (suffix : string)
  : jsstring :=
  path_join h [cwd h;
               path_join h [lit "output";
                            to_string h (get_prop design "design_id")
                            ++ lit suffix]].

(** The handler spawned a worker. *)
Definition is_spawn (e : effect) : bool :=
  match e with ESpawn _ _ => true | _ => false end.

Definition spawned (t : list effect) : Prop := existsb is_spawn t = true.

Definition unspawned (st : state) : Prop := existsb is_spawn (trace st) = false.

(** A specification of a computation: run from a state that satisfies [P],
    it returns a value that satisfies [Q] with the final state, or raises
    an exception in a state that satisfies [E]. *)
Definition triple {A} (P : state -> Prop) (m : M A)
           (Q : A -> state -> Prop) (E : state -> Prop) : Prop :=
  forall st, P st ->
    match m st with
    | (Ok a, st') => Q a st'
    | (Throw _, st') => E st'
    | (Uncaught _, st') => E st'
    end.

(** A computation that spawns no worker. *)
Definition quiet {A} (m : M A) : Prop :=
  triple unspawned m (fun _ => unspawned) unspawned.

(** The failure envelope of apply-change for a worker that exited with
    [code]. *)
Definition python_exited (code : option Z) (stdout stderr : jsstring)
  : Response :=
  json_response 500
    ([fld "success" (VBool false);
      fld "error" (VStr (lit "Python script exited with code "
                         ++ string_of_code code))]
     ++ ApplyChange.raw_fields stdout stderr).

(** The design a request carries ([undefined] when the body is not JSON). *)
Definition design_of (req : Request) : value :=
  match req_json req with
  | inl body => get_prop body "design"
  | inr _ => VUndefined
  end.

(** The handler spawned a worker and, when it answers, no file is at [p]. *)
Definition answered_without (p : jsstring) (st : state) : Prop :=
  spawned (trace st) /\ fs st p = None.

(** The worker of the host ends with a [close] event carrying [code], after
    the chunks [out] and [err], whatever it is asked to run. *)
Definition worker_closes (h : Host) (code : option Z)
           (out err : list jsstring) : Prop :=
  forall cmd args disk, fst (run_worker h cmd args disk) = Closed code out err.

(* ================================================================== *)
(** * The trends route, the front end's asset URLs and the server *)
(* ================================================================== *)

(** ** src/app/api/trends/route.ts *)
Module Trends.
(** An array literal of strings. *)
Definition strings (l : list string) : value :=
  VArr (map (fun s => VStr (lit s)) l).

#[local] Set Warnings "-inexact-float".

Definition combo (name : string) (weight : float) : value :=
  VObj [fld "combo" (VStr (lit name)); fld "weight" (VNum weight)].

Definition trend_entry (kind canonical : string) (count score : float) : value :=
  VObj [fld "trend_id" (VStr (lit kind ++ lit ":" ++ lit canonical));
        fld "type" (VStr (lit kind));
        fld "canonical" (VStr (lit canonical));
        fld "count" (VNum count);
        fld "score" (VNum score)].

(** [fallbackData] *)
Definition fallbackData : value :=
  VObj [
    fld "generated_at" (VStr (lit "2025-09-24T12:24:33.444177+00:00"));
    fld "records_count" (VNum 1410);
    fld "top_by_category" (VObj [
      fld "colors" (strings ["brown"; "white"; "grey"; "cream"; "black"; "red";
                             "olive"; "beige"; "blue"; "pink"]%string);
      fld "fabrics" (strings ["cotton"; "silk"; "linen"; "satin"; "chiffon";
                              "lace"; "denim"; "rayon"; "chikankari"; "crepe"]%string);
      fld "prints" (strings ["embroidery"; "solids / minimalist"; "florals";
                             "bandhani"; "ikat"; "block print"; "geometric";
                             "paisley"; "polka dot"; "floral"]%string);
      fld "silhouettes" (strings ["Draped/Flowing"; "A-line"; "Tailored";
                                  "Fit-and-flare"; "sheath"; "Bodycon/Fitted";
                                  "anarkali"; "Oversized/Baggy"; "slip dress";
                                  "asymmetric"]%string);
      fld "sleeves" (strings ["Full sleeves"; "Sleeveless/Tank"; "short sleeve";
                              "3/4th sleeves"; "kimono sleeve"; "bell sleeve"]%string);
      fld "necklines" (strings ["Crew neck"; "V-neck"; "Collared"; "Halter";
                                "Square neck"; "Sweetheart neck"; "Off-shoulder";
                                "Asymmetrical/One-shoulder"; "Cowl neck"]%string);
      fld "garment_types" (strings ["dress"; "kurta"; "kurta-set"; "coord set";
                                    "top"; "shirt"; "lehenga"; "sari"; "jacket";
                                    "skirt"]%string);
      fld "lengths" (strings ["Full-length"; "Midi"; "Mini"; "Ankle-length";
                              "Maxi"; "Cropped"; "Knee-length"]%string)]);
    fld "top_combos" (VArr [
      combo "color:brown | color:white" 329;
      combo "color:grey | color:white" 260;
      combo "color:white | garment:dress" 240;
      combo "color:white | print:solids / minimalist" 239;
      combo "color:red | color:white" 199]);
    fld "trend_entries" (VArr [
      trend_entry "fabric" "cotton" 282 1.18;
      trend_entry "print" "embroidery" 285 1.12;
      trend_entry "print" "solids / minimalist" 397 1.11;
      trend_entry "color" "brown" 580 1.09;
      trend_entry "color" "white" 804 1.05])].

(** [NextResponse.json(v)] *)
Definition json_of (v : value) : Response :=
  {| status := 200; headers := []; payload := JsonBody v |}.

Section Route.
Variable h : Host.

(** [readFile(p, 'utf-8')] of [fs/promises]: the file decoded as UTF-8. *)
Definition readFile (p : jsstring) : M jsstring :=
  data <- readFileSync h p ;; ret (utf8_decode data).

Definition GET (req : Request) : M Response :=
  try_catch
    (let filePath := path_join h [cwd h; lit "trends_index.json"] in
     fileContent <- readFile filePath ;;
     trendData <- ApplyChange.parse_json h fileContent ;;
     ret (json_of trendData))
    (fun _ => ret (json_of fallbackData)).
End Route.
End Trends.

(** ** src/app/page.tsx: from a backend path to a URL for the browser *)

(** [s.replace(/\/$/, '')] *)
Definition strip_trailing_slash (s : jsstring) : jsstring :=
  match rev s with
  | c :: r => if c =? c_slash then rev r else s
  | [] => s
  end.

(** [/^https?:\/\//i] without its anchor, and [r.test(s)] for a pattern
    anchored at the start of the string. *)
Definition re_http_scheme : regex :=
  rseq [rlit true "http"; ROpt (rlit true "s"); rlit true "://"].

Definition test_at_start (r : regex) (s : jsstring) : bool :=
  match rmatch r s None (fun _ _ => Some tt) with
  | Some _ => true
  | None => false
  end.

(** [s.indexOf(sub)]; [None] is -1. *)
Fixpoint indexOf (s sub : jsstring) : option nat :=
  if startsWith s sub then Some 0%nat
  else match s with
       | [] => None
       | _ :: s' => option_map S (indexOf s' sub)
       end.

Module FrontEnd.
Section Page.
(** [process.env.NEXT_PUBLIC_API_BASE_URL] and [window.location.origin] *)
Variable NEXT_PUBLIC_API_BASE_URL : option jsstring.
Variable origin : jsstring.

Definition PY_BACKEND : jsstring :=
  strip_trailing_slash
    (match NEXT_PUBLIC_API_BASE_URL with
     | Some (c :: s) => c :: s
     | _ => []
     end).

Definition API_BASE : jsstring := PY_BACKEND.

Definition allowedPrefixes : list jsstring :=
  [lit "renders/"; lit "output/"; lit "temp/"; lit "public/"].

(** The loop of [toAssetsUrl] over the prefixes: for the first prefix (in
    the order of the list) that occurs in the path, the path from its first
    occurrence on, leading slashes removed. *)
Fixpoint from_first_prefix (normalized : jsstring) (prefixes : list jsstring)
  : option jsstring :=
  match prefixes with
  | [] => None
  | pref :: rest =>
      match indexOf normalized pref with
      | Some idx => Some (strip_leading_slashes (skipn idx normalized))
      | None => from_first_prefix normalized rest
      end
  end.

(** [toAssetsUrl]: the outer [None] is the [URIError] of
    [encodeURIComponent], [Some None] is [null]. *)
Definition toAssetsUrl (backendPath : option jsstring)
  : option (option jsstring) :=
  match backendPath with
  | None | Some [] => Some None
  | Some backendPath =>
      if test_at_start re_http_scheme backendPath then Some (Some backendPath)
      else
        let normalized := trim (replace_backslashes backendPath) in
        if startsWith normalized (lit "/api/assets")
           || startsWith normalized (lit "/assets")
        then Some (Some normalized)
        else
          match from_first_prefix normalized allowedPrefixes with
          | Some rel =>
              option_map
                (fun encoded =>
                   Some (match API_BASE with
                         | _ :: _ => API_BASE ++ lit "/assets/" ++ encoded
                         | [] => lit "/assets/" ++ encoded
                         end))
                (encodeURIComponent rel)
          | None =>
              Some (Some (match API_BASE with
                          | _ :: _ =>
                              API_BASE ++ lit "/" ++ strip_leading_slashes normalized
                          | [] => lit "/" ++ strip_leading_slashes normalized
                          end))
          end
  end.

(** [withCacheBuster], with the reading [now] of [Date.now()]. *)
Definition withCacheBuster (now : Z) (url : option jsstring) : option jsstring :=
  match url with
  | None | Some [] => None
  | Some url =>
      if includes url (lit "?")
      then Some (url ++ lit "&t=" ++ string_of_Z now)
      else Some (url ++ lit "?t=" ++ string_of_Z now)
  end.

(** [toAbsoluteUrl] *)
Definition toAbsoluteUrl (rel : option jsstring) : option jsstring :=
  match rel with
  | None | Some [] => None
  | Some rel =>
      if startsWith rel (lit "http://") || startsWith rel (lit "https://")
      then Some rel
      else Some (origin ++ (if startsWith rel (lit "/") then [] else lit "/")
                        ++ rel)
  end.
End Page.
End FrontEnd.

(** ** server.ts *)
Module Server.
(** An entry of [os.networkInterfaces()]. *)
Record NetworkInterfaceInfo : Type := {
  address : jsstring;
  family : jsstring;
  internal : bool
}.

(** The inner loop of [getLanIp] over the entries of one interface. *)
Fixpoint first_external (iface : list NetworkInterfaceInfo) : option jsstring :=
  match iface with
  | [] => None
  | net :: rest =>
      if str_eqb (family net) (lit "IPv4") && negb (internal net)
      then Some (address net)
      else first_external rest
  end.

(** [getLanIp] over the interfaces in key order; an interface whose value
    is [undefined] is [None]. *)
Fixpoint getLanIp (nets : list (jsstring * option (list NetworkInterfaceInfo)))
  : option jsstring :=
  match nets with
  | [] => None
  | (_, None) :: rest => getLanIp rest
  | (_, Some iface) :: rest =>
      match first_external iface with
      | Some a => Some a
      | None => getLanIp rest
      end
  end.
End Server.

(* ================================================================== *)
(** * Notions for the further properties *)
(* ================================================================== *)

(** A computation whose effects all satisfy [ok], and that leaves the file
    system and the clock as they are. *)
Definition touches {A} (ok : effect -> bool) (m : M A) : Prop :=
  forall st,
    fs (snd (m st)) = fs st
    /\ clock (snd (m st)) = clock st
    /\ exists t, trace (snd (m st)) = trace st ++ t /\ forallb ok t = true.

(** An effect that only looks at the file system. *)
Definition is_read (e : effect) : bool :=
  match e with
  | EExists _ | EReadFile _ => true
  | _ => false
  end.

Definition read_only {A} (m : M A) : Prop := touches is_read m.

(** The worker of the host cannot be started: the [error] event with
    [message], whatever it is asked to run. *)
Definition worker_fails (h : Host) (message : jsstring) : Prop :=
  forall cmd args disk, fst (run_worker h cmd args disk) = SpawnError message.

(** The absolute path the asset route resolves a requested path to, and
    the [Content-Type] it gives the file there. *)
Definition asset_path (h : Host) (requested : jsstring) : jsstring :=
  path_resolve h (path_join h [cwd h; requested]).

Definition content_type (h : Host) (abs : jsstring) : jsstring :=
  match mime_getType h abs with
  | Some (c :: t) => c :: t
  | _ => lit "application/octet-stream"
  end.

(** A requested path that passes the checks of the asset route: no [..]
    in it, a first segment on the allow-list, and a resolved path that is
    the project root or starts with the root and a separator. *)
Definition servable (h : Host) (requested : jsstring) : Prop :=
  includes requested (lit "..") = false
  /\ Asset.allowed (Asset.firstSegment requested) = true
  /\ (startsWith (asset_path h requested) (path_resolve h (cwd h) ++ path_sep h)
      = true
      \/ asset_path h requested = path_resolve h (cwd h)).

(** The answers of the handlers to an exception raised before the worker
    is spawned: the render handlers give its message, apply-change its
    rendering as a string. *)
Definition failed_with (message : jsstring) : Response :=
  json_response 500
    [fld "success" (VBool false); fld "error" (VStr message)].

(** The handler spawned a worker and, when it answers, the file system
    satisfies [F]. *)
Definition answered_on (F : filesystem -> Prop) (st : state) : Prop :=
  spawned (trace st) /\ F (fs st).

(** Something is at [p]. *)
Definition on_disk (disk : filesystem) (p : jsstring) : bool :=
  match disk p with
  | Some _ => true
  | None => false
  end.

(** The conventional artifact of a render job, relative to the project. *)
Definition fallback_path (h : Host) (design : value) (suffix : string)
  : jsstring :=
  path_join h [lit "output";
               to_string h (get_prop design "design_id") ++ lit suffix].

(** A success response that carries the reference [url] under [key]. *)
Definition artifact_response (key : string) (url : jsstring)
           (rest : list (jsstring * value)) : Response :=
  json_response 200 (fld "success" (VBool true) :: fld key (VStr url) :: rest).

(** The answers of apply-change once the worker has exited with code 0. *)
Definition design_updated (message : string) (design : value) : Response :=
  json_response 200
    [fld "success" (VBool true);
     fld "design" design;
     fld "message" (VStr (lit message))].

Definition design_unreadable (details finalPath stdout stderr : jsstring)
  : Response :=
  json_response 500
    ([fld "success" (VBool false);
      fld "error" (VStr (lit "Failed to read/parse updated design file"));
      fld "details" (VStr details);
      fld "finalPath" (VStr finalPath)]
     ++ ApplyChange.raw_fields stdout stderr).

Definition written_file_missing (reportedPath : jsstring)
           (tried : list jsstring) (stdout stderr : jsstring) : Response :=
  json_response 500
    ([fld "success" (VBool false);
      fld "error" (VStr (lit "Python reported Wrote: path but file not found"));
      fld "reportedPath" (VStr reportedPath);
      fld "tried" (VArr (map VStr tried))]
     ++ ApplyChange.raw_fields stdout stderr).

Definition no_design_in_output (stdout stderr : jsstring) : Response :=
  json_response 500
    ([fld "success" (VBool false);
      fld "error"
        (VStr (lit "Could not find written file path and stdout was not parseable JSON"))]
     ++ ApplyChange.raw_fields stdout stderr).

(** A computation whose effects all satisfy [ok]. *)
Definition emits {A} (ok : effect -> bool) (m : M A) : Prop :=
  forall st, exists t, trace (snd (m st)) = trace st ++ t /\ forallb ok t = true.

Definition not_spawn (e : effect) : bool := negb (is_spawn e).

(** The effects [t] of a request that ran a job, and the file system
    [final] it ends with: the text [content] is written to [file], then
    the worker is spawned, once, with arguments that satisfy [good], on a
    disk where [file] holds [content]; what follows only looks at the file
    system the worker left. *)
Definition ran_job (h : Host) (file : jsstring) (content : list N)
           (good : list jsstring -> Prop)
           (t : list effect) (final : filesystem) : Prop :=
  exists before cmd args after disk,
    t = before ++ ESpawn cmd args :: after
    /\ forallb not_spawn before = true
    /\ In (EWriteFile file content) before
    /\ disk file = Some (File content)
    /\ good args
    /\ final = snd (run_worker h cmd args disk)
    /\ forallb is_read after = true.

(** The design file of virtual-showcase and runway. *)
Definition design_file (h : Host) (design : value) : jsstring :=
  path_join h [cwd h; lit "temp";
               to_string h (get_prop design "design_id") ++ lit ".design.json"].

(** The states of a job request, [T0] being the trace it starts from:
    before the design is written, between the write and the spawn, and
    once the request is settled (no worker was spawned, or the job ran). *)
Definition preparing (T0 : list effect) (st : state) : Prop :=
  exists before, trace st = T0 ++ before /\ forallb not_spawn before = true.

Definition written (T0 : list effect) (file : jsstring) (content : list N)
           (st : state) : Prop :=
  exists before,
    trace st = T0 ++ before
    /\ forallb not_spawn before = true
    /\ In (EWriteFile file content) before
    /\ fs st file = Some (File content).

Definition running (h : Host) (T0 : list effect) (file : jsstring)
           (content : list N) (good : list jsstring -> Prop) (st : state)
  : Prop :=
  exists t, trace st = T0 ++ t /\ ran_job h file content good t (fs st).

Definition settled (h : Host) (T0 : list effect) (file : jsstring)
           (content : list N) (good : list jsstring -> Prop) (st : state)
  : Prop :=
  exists t,
    trace st = T0 ++ t
    /\ (forallb not_spawn t = true \/ ran_job h file content good t (fs st)).

(** The worker arguments of a render job from the script on: the script,
    the design file after [--design], the output directory, and the
    optional arguments. *)
Definition render_args (h : Host) (script : string) (file : jsstring)
           (args : list jsstring) : Prop :=
  exists optional,
    args = [path_join h [lit "scripts"; lit script];
            lit "--design"; file; lit "--out-dir"; lit "output"] ++ optional.

(** The worker arguments of flatlay-render. *)
Definition flatlay_args (h : Host) (file : jsstring) (args : list jsstring)
  : Prop :=
  args = [path_join h [cwd h; lit "scripts"; lit "render_utils.py"];
          lit "--input"; file; lit "--variant"; lit "flatlay"].

(** An effect by which a render request stages its job: an existence
    probe, the creation of the [temp] directory, or the write of [content]
    to [file]. *)
Definition staging (h : Host) (file : jsstring) (content : list N)
           (e : effect) : bool :=
  match e with
  | EExists _ => true
  | EMkdir p => str_eqb p (path_join h [cwd h; lit "temp"])
  | EWriteFile p data => str_eqb p file && str_eqb data content
  | EReadFile _ | ESpawn _ _ => false
  end.

(** The effects of a request up to its first spawn: all of them when it
    spawns no worker. *)
Fixpoint until_spawn (t : list effect) : list effect :=
  match t with
  | [] => []
  | e :: rest => if is_spawn e then [] else e :: until_spawn rest
  end.

(** A computation whose effects up to its first spawn all satisfy [ok]. *)
Definition stages {A} (ok : effect -> bool) (m : M A) : Prop :=
  forall st,
    exists t,
      trace (snd (m st)) = trace st ++ t
      /\ forallb ok (until_spawn t) = true.

(** The entries of all interfaces, in the order [getLanIp] visits them,
    and the entries it looks for. *)
Definition entries
           (nets : list (jsstring * option (list Server.NetworkInterfaceInfo)))
  : list Server.NetworkInterfaceInfo :=
  flat_map (fun kv => match snd kv with Some iface => iface | None => [] end) nets.

Definition external_ipv4 (net : Server.NetworkInterfaceInfo) : bool :=
  str_eqb (Server.family net) (lit "IPv4") && negb (Server.internal net).

(** What the trends route answers with, by what is at [p]. *)
Definition trends_document (h : Host) (disk : filesystem) (p : jsstring)
  : value :=
  match disk p with
  | Some (File data) =>
      match JSON_parse h (utf8_decode data) with
      | inl document => document
      | inr _ => Trends.fallbackData
      end
  | _ => Trends.fallbackData
  end.

(** What a pattern matches: [recognises r s cap cap'] when [r] matches
    exactly the string [s], the capture of group 1 going from [cap] to
    [cap'] on the way. *)
Inductive recognises
  : regex -> jsstring -> option jsstring -> option jsstring -> Prop :=
| rec_eps cap : recognises REps [] cap cap
| rec_unit p c cap : p c = true -> recognises (RUnit p) [c] cap cap
| rec_seq r1 r2 a b cap cap1 cap2 :
    recognises r1 a cap cap1 -> recognises r2 b cap1 cap2 ->
    recognises (RSeq r1 r2) (a ++ b) cap cap2
| rec_alt_left r1 r2 a cap cap' :
    recognises r1 a cap cap' -> recognises (RAlt r1 r2) a cap cap'
| rec_alt_right r1 r2 a cap cap' :
    recognises r2 a cap cap' -> recognises (RAlt r1 r2) a cap cap'
| rec_opt_some r a cap cap' :
    recognises r a cap cap' -> recognises (ROpt r) a cap cap'
| rec_opt_none r cap : recognises (ROpt r) [] cap cap
| rec_star p s cap : forallb p s = true -> recognises (RStar p) s cap cap
| rec_group r a cap cap' :
    recognises r a cap cap' -> recognises (RGroup r) a cap (Some a).

(** A string ends in [.png], [.jpg] or [.jpeg], in any letter case, after
    a stem that is not empty. *)
Definition image_path (s : jsstring) : Prop :=
  exists stem ext,
    s = stem ++ c_dot :: ext
    /\ stem <> []
    /\ In (map ascii_upper ext) [lit "PNG"; lit "JPG"; lit "JPEG"].

Definition video_path (s : jsstring) : Prop :=
  exists stem ext,
    s = stem ++ c_dot :: ext /\ stem <> [] /\ map ascii_upper ext = lit "MP4".





(* ================================================================== *)
(** * The handlers on the examples of the specification *)
(* ================================================================== *)

(** A worker that prints one Saved line: the path comes back as a client
    reference. *)
Example showcase_saved_line :
  fst (VirtualShowcase.POST
         (Posix.host [] (Examples.prints 0 (lit "Saved: output/abc123_showcase.png") []) [])
         (Examples.post "virtual-showcase"
            (VObj [fld "design" Examples.design_with_id]))
         (Posix.boot Examples.project))
  = Ok (json_response 200
          [fld "success" (VBool true);
           fld "imageUrl" (VStr (lit "/api/assets?path=output%2Fabc123_showcase.png"));
           fld "message" (VStr (lit "Virtual showcase generated successfully"))]).
Proof. vm_compute. reflexivity. Qed.

(** No Saved line, but the conventional file is on disk: its path comes
    back. *)
Example showcase_fallback_file :
  fst (VirtualShowcase.POST
         (Posix.host []
            (Examples.leaves (lit "done")
               [(lit "/app/output/abc123_showcase.png", File [137; 80; 78; 71])]) [])
         (Examples.post "virtual-showcase"
            (VObj [fld "design" Examples.design_with_id]))
         (Posix.boot Examples.project))
  = Ok (json_response 200
          [fld "success" (VBool true);
           fld "imageUrl" (VStr (lit "/api/assets?path=output%2Fabc123_showcase.png"));
           fld "message" (VStr (lit "Virtual showcase generated (fallback)"))]).
Proof. vm_compute. reflexivity. Qed.

(** The change worker reports the file it wrote: the design in it comes
    back. *)
Example apply_change_wrote_file :
  fst (ApplyChange.POST
         (Posix.host []
            (Examples.leaves (lit "Wrote: temp/design_42.json")
               [(lit "/app/temp/design_42.json",
                 File (utf8_encode Examples.updated_text))])
            [(Examples.updated_text, Examples.updated_design)])
         (Examples.post "apply-change" Examples.change_request)
         (Posix.boot Examples.project))
  = Ok (json_response 200
          [fld "success" (VBool true);
           fld "design" Examples.updated_design;
           fld "message" (VStr (lit "Design updated successfully"))]).
Proof. vm_compute. reflexivity. Qed.

(** The change worker reports a file that is nowhere: the candidates tried
    come back. *)
Example apply_change_wrote_nowhere :
  option_map (fun r => (status r, body_field r "success", body_field r "tried"))
    (match fst (ApplyChange.POST
                  (Posix.host [] (Examples.prints 0 (lit "Wrote: design_42.json") []) [])
                  (Examples.post "apply-change" Examples.change_request)
                  (Posix.boot Examples.project))
     with Ok r => Some r | _ => None end)
  = Some (500, VBool false,
          VArr [VStr (lit "/app/design_42.json");
                VStr (lit "/app/scripts/design_42.json");
                VStr (lit "/app/temp/design_42.json");
                VStr (lit "/app/output/design_42.json");
                VStr (lit "/app/design_42.json")]).
Proof. vm_compute. reflexivity. Qed.

(** A worker that cannot be started. *)
Example runway_spawn_error :
  fst (Runway.POST (Posix.host [] Examples.absent [])
         (Examples.post "runway" (VObj [fld "design" Examples.design_with_id]))
         (Posix.boot Examples.project))
  = Ok (json_response 500
          [fld "success" (VBool false);
           fld "error" (VStr (lit "spawn error: spawn python3 ENOENT"))]).
Proof. vm_compute. reflexivity. Qed.

(** The asset route: a file under an allowed directory, a missing file, a
    directory outside the allow-list. *)
Example asset_served :
  Asset.GET (Posix.host [] Examples.absent [])
    (Examples.get_asset "path=output%2Fabc123_showcase.png&t=1700000000000")
    (Posix.boot (Examples.project
                   ++ [(lit "/app/output/abc123_showcase.png", File [137; 80; 78; 71])]))
  = (Ok {| status := 200;
           headers := [(lit "Content-Type", lit "image/png");
                       (lit "Cache-Control", lit "no-cache")];
           payload := RawBody [137; 80; 78; 71] |},
     State (Posix.disk (Examples.project
                          ++ [(lit "/app/output/abc123_showcase.png",
                               File [137; 80; 78; 71])]))
           1700000000000
           [EExists (lit "/app/output/abc123_showcase.png");
            EReadFile (lit "/app/output/abc123_showcase.png")]).
Proof. reflexivity. Qed.

Example asset_not_found :
  fst (Asset.GET (Posix.host [] Examples.absent [])
         (Examples.get_asset "path=renders%2Fnone.png")
         (Posix.boot Examples.project))
  = Ok (json_response 404
          [fld "success" (VBool false);
           fld "error" (VStr (lit "File not found"));
           fld "path" (VStr (lit "renders/none.png"))]).
Proof. vm_compute. reflexivity. Qed.

Example asset_outside_allow_list :
  Asset.GET (Posix.host [] Examples.absent [])
    (Examples.get_asset "path=scripts%2Frender_utils.py")
    (Posix.boot Examples.project)
  = (Ok (Asset.reject 403 "Folder not allowed"), Posix.boot Examples.project).
Proof. vm_compute. reflexivity. Qed.

(** A [design_id] that cannot be converted to a string: the temp
    directory is made, nothing is written and no worker is spawned. *)
Example showcase_unconvertible_design_id :
  VirtualShowcase.POST (Posix.host [] Examples.absent [])
    (Examples.post "virtual-showcase"
       (VObj [fld "design"
                (VObj [fld "design_id" (VObj [fld "toString" (VNum 1)])])]))
    (Posix.boot Examples.project)
  = (Ok (json_response 500
           [fld "success" (VBool false);
            fld "error"
              (VStr (lit "Cannot convert object to primitive value"))]),
     State (fs_set (Posix.disk Examples.project) (lit "/app/temp") Dir)
           1700000000000
           [EExists (lit "/app/temp"); EMkdir (lit "/app/temp")]).
Proof. vm_compute. reflexivity. Qed.

(** A [textChange] that cannot be converted: apply-change has written the
    design by then, and writes no change file. *)
Example apply_change_unconvertible_text :
  fst (ApplyChange.POST (Posix.host [] Examples.absent [])
         (Examples.post "apply-change"
            (VObj [fld "design" Examples.design_with_id;
                   fld "textChange" (VArr [VObj [fld "toString" VNull]])]))
         (Posix.boot Examples.project))
  = Ok (json_response 500
          [fld "success" (VBool false);
           fld "error"
             (VStr (lit "TypeError: Cannot convert object to primitive value"))])
  /\ map (fun e => match e with EWriteFile p _ => Some p | _ => None end)
         (trace (snd (ApplyChange.POST (Posix.host [] Examples.absent [])
                        (Examples.post "apply-change"
                           (VObj [fld "design" Examples.design_with_id;
                                  fld "textChange"
                                      (VArr [VObj [fld "toString" VNull]])]))
                        (Posix.boot Examples.project))))
     = [None; Some (lit "/app/temp/design_1700000000000.json")].
Proof. split; vm_compute; reflexivity. Qed.

(** Numbers as the host prints them, alone and in a JSON text. *)
Example numbers_rendered :
  map Posix.render_number
      [1.5; 1410; 0x1p60; 1e21; 0x1p-1074; (-0.75); 0x1p-20]%float
  = [lit "1.5"; lit "1410"; lit "1152921504606847000"; lit "1e+21";
     lit "5e-324"; lit "-0.75"; lit "9.5367431640625e-7"]
  /\ Posix.stringify_at Posix.render_number false 0
       (VArr [VNum infinity; VNum nan; VNum 0.5; VNum neg_zero])
     = lit "[null,null,0.5,0]".
Proof. split; vm_compute; reflexivity. Qed.

(** The content type follows the extension of the last segment, whatever
    its letter case. *)
Example mime_by_extension :
  map Posix.mime_of
      [lit "/app/public/LOGO.PNG"; lit "/app/output/look.jpeg";
       lit "/app/output/png"; lit "/app/output/.png"; lit "png";
       lit "/app/renders/v1.2/clip.mp4"; lit "/app/renders/v1.2/notes"]
  = [Some (lit "image/png"); Some (lit "image/jpeg"); None; None;
     Some (lit "image/png"); Some (lit "video/mp4"); None].
Proof. vm_compute. reflexivity. Qed.

(* ================================================================== *)
(** * Strings: basic facts *)
(* ================================================================== *)

Lemma str_eqb_refl (s : jsstring) : str_eqb s s = true.
Proof.
  induction s as [|c s IH]; simpl; [reflexivity|].
  now rewrite N.eqb_refl, IH.
Qed.

Lemma str_eqb_eq (a b : jsstring) : str_eqb a b = true <-> a = b.
Proof.
  split.
  - revert b; induction a as [|x a IH]; intros [|y b] H; simpl in H;
      try discriminate; [reflexivity|].
    apply andb_true_iff in H as [Hxy Hab].
    apply N.eqb_eq in Hxy. apply IH in Hab. now subst.
  - intros <-. apply str_eqb_refl.
Qed.

Lemma startsWith_nil (s : jsstring) : startsWith s [] = true.
Proof. now destruct s. Qed.

Lemma startsWith_includes (s sub : jsstring) :
  startsWith s sub = true -> includes s sub = true.
Proof. intros H. destruct s; cbn [includes]; rewrite H; reflexivity. Qed.

Lemma includes_cons (c : N) (s sub : jsstring) :
  includes s sub = true -> includes (c :: s) sub = true.
Proof. intros H. cbn [includes]. rewrite H. apply orb_true_r. Qed.

Lemma split_nonempty (sep : N) (s : jsstring) : split sep s <> [].
Proof.
  induction s as [|c s IH]; simpl; [discriminate|].
  destruct (c =? sep); [discriminate|].
  destruct (split sep s); [contradiction|discriminate].
Qed.

(** The first segment of a split is a prefix of the string. *)
Lemma split_head_prefix (sep : N) (s : jsstring) :
  startsWith s (hd [] (split sep s)) = true.
Proof.
  induction s as [|c s IH]; simpl; [reflexivity|].
  destruct (c =? sep); simpl; [reflexivity|].
  destruct (split sep s) as [|seg segs] eqn:E.
  - now destruct (split_nonempty sep s E).
  - simpl in *. now rewrite N.eqb_refl, IH.
Qed.

(** Every segment of a split occurs in the string. *)
Lemma split_segment_included (sep : N) (s seg : jsstring) :
  In seg (split sep s) -> includes s seg = true.
Proof.
  induction s as [|c s IH]; cbn [split].
  - intros [<-|[]]. reflexivity.
  - destruct (c =? sep).
    + intros [<-|Hin]; [apply startsWith_includes, startsWith_nil|].
      apply includes_cons, IH, Hin.
    + pose proof (split_head_prefix sep s) as Hhd.
      destruct (split sep s) as [|seg0 segs] eqn:E.
      * now destruct (split_nonempty sep s E).
      * cbn [hd] in Hhd. intros [<-|Hin].
        -- apply startsWith_includes. cbn [startsWith].
           now rewrite N.eqb_refl, Hhd.
        -- apply includes_cons, IH. now right.
Qed.

Lemma dotdot_segment_included (p : jsstring) :
  has_dotdot_segment p -> includes p (lit "..") = true.
Proof. apply split_segment_included. Qed.

(* ================================================================== *)
(** * The Secure Asset Resolver *)
(* ================================================================== *)

Lemma asset_GET_dotdot (h : Host) (req : Request) (st : state)
      (rawPath : jsstring) :
  searchParams_get (req_url req) (lit "path") = Some rawPath ->
  rawPath <> [] ->
  includes (Asset.requested_of rawPath) (lit "..") = true ->
  Asset.GET h req st = (Ok (Asset.reject 400 "Invalid path"), st).
Proof.
  intros Hget Hne Hdots. unfold Asset.GET, try_catch. rewrite Hget.
  destruct rawPath as [|c r]; [contradiction|].
  now rewrite Hdots.
Qed.

Lemma asset_GET_not_allowed (h : Host) (req : Request) (st : state)
      (rawPath : jsstring) :
  searchParams_get (req_url req) (lit "path") = Some rawPath ->
  rawPath <> [] ->
  includes (Asset.requested_of rawPath) (lit "..") = false ->
  Asset.allowed (Asset.firstSegment (Asset.requested_of rawPath)) = false ->
  Asset.GET h req st = (Ok (Asset.reject 403 "Folder not allowed"), st).
Proof.
  intros Hget Hne Hdots Hseg. unfold Asset.GET, try_catch. rewrite Hget.
  destruct rawPath as [|c r]; [contradiction|].
  now rewrite Hdots, Hseg.
Qed.

Lemma requested_of_nil : Asset.requested_of [] = [].
Proof. reflexivity. Qed.

(** C1. An asset request whose [path] parameter, once backslashes are
    slashes and leading slashes are gone, has a [..] segment anywhere is
    answered 400 (Invalid path), and the handler ends in the state it
    started in: no effect is added to the trace, so no file was probed or
    read. *)
Theorem asset_rejects_parent_segments
        (h : Host) (req : Request) (st : state) (rawPath : jsstring) :
  searchParams_get (req_url req) (lit "path") = Some rawPath ->
  has_dotdot_segment (Asset.requested_of rawPath) ->
  Asset.GET h req st = (Ok (Asset.reject 400 "Invalid path"), st)
  /\ status (Asset.reject 400 "Invalid path") = 400
  /\ body_field (Asset.reject 400 "Invalid path") "success" = VBool false.
Proof.
  intros Hget Hseg. split; [|split; reflexivity].
  assert (Hne : rawPath <> []).
  { intros ->. rewrite requested_of_nil in Hseg.
    destruct Hseg as [H|[]]. discriminate H. }
  apply asset_GET_dotdot with (rawPath := rawPath); try assumption.
  now apply dotdot_segment_included.
Qed.

Lemma asset_rejects_parent_segments_witness :
  searchParams_get (req_url (Examples.get_asset "path=output%2F..%2F.env"))
                   (lit "path") = Some (lit "output/../.env")
  /\ has_dotdot_segment (Asset.requested_of (lit "output/../.env"))
  /\ Asset.GET (Posix.host [] Examples.absent [])
               (Examples.get_asset "path=output%2F..%2F.env")
               (Posix.boot Examples.project)
     = (Ok (Asset.reject 400 "Invalid path"), Posix.boot Examples.project).
Proof.
  assert (H1 : searchParams_get
                 (req_url (Examples.get_asset "path=output%2F..%2F.env"))
                 (lit "path") = Some (lit "output/../.env"))
    by (vm_compute; reflexivity).
  assert (H2 : has_dotdot_segment (Asset.requested_of (lit "output/../.env")))
    by (vm_compute; auto).
  split; [exact H1|split; [exact H2|]].
  exact (proj1 (asset_rejects_parent_segments
                  (Posix.host [] Examples.absent []) _
                  (Posix.boot Examples.project) H1 H2)).
Defined.

Lemma allowed_exactly (x : jsstring) :
  Asset.allowed x = true
  <-> x = lit "renders" \/ x = lit "output" \/ x = lit "public".
Proof.
  unfold Asset.allowed, Asset.ALLOWED_DIRS. cbn [existsb].
  rewrite !orb_true_iff, !str_eqb_eq. intuition discriminate.
Qed.

(** C10, as stated, fails: a path whose first segment is [temp] and that
    also holds [..] is answered 400 (Invalid path), not 403. *)
Lemma asset_temp_with_dotdot_is_bad_request :
  searchParams_get
    (req_url (Examples.get_asset "path=temp%2F..%2Foutput%2Flook.png"))
    (lit "path") = Some (lit "temp/../output/look.png")
  /\ Asset.firstSegment (Asset.requested_of (lit "temp/../output/look.png"))
     = lit "temp"
  /\ Asset.GET (Posix.host [] Examples.absent [])
               (Examples.get_asset "path=temp%2F..%2Foutput%2Flook.png")
               (Posix.boot Examples.project)
     = (Ok (Asset.reject 400 "Invalid path"), Posix.boot Examples.project)
  /\ status (Asset.reject 400 "Invalid path") <> 403.
Proof.
  split; [vm_compute; reflexivity|].
  split; [vm_compute; reflexivity|].
  split; [vm_compute; reflexivity|discriminate].
Qed.

(** C10, amended. The allow-list is exactly renders, output and public;
    an asset request whose decoded path has [temp] as first segment and
    holds no [..] is answered 403 (Folder not allowed) in the state the
    handler started in: the file is never probed. *)
Theorem asset_temp_is_forbidden :
  (forall x, Asset.allowed x = true
             <-> x = lit "renders" \/ x = lit "output" \/ x = lit "public")
  /\ (forall (h : Host) (req : Request) (st : state) (rawPath : jsstring),
        searchParams_get (req_url req) (lit "path") = Some rawPath ->
        Asset.firstSegment (Asset.requested_of rawPath) = lit "temp" ->
        includes (Asset.requested_of rawPath) (lit "..") = false ->
        Asset.GET h req st = (Ok (Asset.reject 403 "Folder not allowed"), st)
        /\ status (Asset.reject 403 "Folder not allowed") = 403).
Proof.
  split; [exact allowed_exactly|].
  intros h req st rawPath Hget Hseg Hdots. split; [|reflexivity].
  assert (Hne : rawPath <> []) by (intros ->; discriminate Hseg).
  apply asset_GET_not_allowed with (rawPath := rawPath); try assumption.
  now rewrite Hseg.
Qed.

Lemma asset_temp_is_forbidden_witness :
  searchParams_get
    (req_url (Examples.get_asset "path=temp%2Fabc123.design.json"))
    (lit "path") = Some (lit "temp/abc123.design.json")
  /\ Asset.GET (Posix.host [] Examples.absent [])
               (Examples.get_asset "path=temp%2Fabc123.design.json")
               (Posix.boot (Examples.project
                              ++ [(lit "/app/temp", Dir);
                                  (lit "/app/temp/abc123.design.json", File [])]))
     = (Ok (Asset.reject 403 "Folder not allowed"),
        Posix.boot (Examples.project
                      ++ [(lit "/app/temp", Dir);
                          (lit "/app/temp/abc123.design.json", File [])])).
Proof.
  assert (H1 : searchParams_get
                 (req_url (Examples.get_asset "path=temp%2Fabc123.design.json"))
                 (lit "path") = Some (lit "temp/abc123.design.json"))
    by (vm_compute; reflexivity).
  split; [exact H1|].
  refine (proj1 (proj2 asset_temp_is_forbidden _ _ _ _ H1 _ _));
    vm_compute; reflexivity.
Defined.

(* ================================================================== *)
(** * How a handler can end *)
(* ================================================================== *)

Section Outcome.
Variable h : Host.
Variables (A B : Type).







End Outcome.

Section OutcomeOfOperations.
Variable h : Host.
Variable U : exn -> Prop.












End OutcomeOfOperations.



Section OutcomeOfHandlers.
Variable h : Host.











End OutcomeOfHandlers.

(* ================================================================== *)
(** * Validation of the request body *)
(* ================================================================== *)

Lemma get_prop_nullish_or (body : value) (key : string) :
  get_prop (nullish_or body (VObj [])) key = get_prop body key.
Proof. destruct body; reflexivity. Qed.

Lemma lacks_design_id_falsy (body : value) :
  lacks_design_id body ->
  negb (truthy (get_prop body "design"))
  || negb (truthy (get_prop (get_prop body "design") "design_id")) = true.
Proof.
  intros [H|H]; rewrite H; [reflexivity|]. apply orb_true_r.
Qed.

Lemma runway_validation (h : Host) (req : Request) (st : state) (body : value) :
  req_json req = inl body ->
  lacks_design_id body ->
  Runway.POST h req st = (Ok missing_design_id, st).
Proof.
  intros Hjson Hlack.
  unfold Runway.POST, try_catch, bind, request_json. rewrite Hjson.
  rewrite !get_prop_nullish_or, (lacks_design_id_falsy Hlack). reflexivity.
Qed.




(** C8. A POST to /runway whose body lacks [design] or [design.design_id]
    is answered 400, and the handler ends in the state it started in: the
    file system is untouched (no temp file) and the trace is unchanged (no
    worker spawned). *)
Theorem runway_rejects_missing_design_id
        (h : Host) (req : Request) (st : state) (body : value) :
  req_json req = inl body ->
  lacks_design_id body ->
  Runway.POST h req st = (Ok missing_design_id, st)
  /\ status missing_design_id = 400
  /\ body_field missing_design_id "success" = VBool false.
Proof.
  intros Hjson Hlack. split; [|split; reflexivity].
  now apply runway_validation with (body := body).
Qed.

Lemma runway_rejects_missing_design_id_witness :
  lacks_design_id (VObj [fld "design" Examples.design_without_id])
  /\ Runway.POST (Posix.host [] (Examples.prints 0 [] []) [])
                 (Examples.post "runway"
                    (VObj [fld "design" Examples.design_without_id]))
                 (Posix.boot Examples.project)
     = (Ok missing_design_id, Posix.boot Examples.project).
Proof.
  assert (H : lacks_design_id (VObj [fld "design" Examples.design_without_id]))
    by (right; reflexivity).
  split; [exact H|].
  exact (proj1 (runway_rejects_missing_design_id
                  (Posix.host [] (Examples.prints 0 [] []) [])
                  (Examples.post "runway"
                     (VObj [fld "design" Examples.design_without_id]))
                  (Posix.boot Examples.project) eq_refl H)).
Defined.




(* ================================================================== *)
(** * The model configuration sent to the backend *)
(* ================================================================== *)

Lemma js_or_same (v : value) : js_or v v = v.
Proof. unfold js_or. now destruct (truthy v). Qed.

Lemma js_or_first_truthy (a d : value) : js_or a d = first_truthy [a] d.
Proof. reflexivity. Qed.

Lemma js_or_first_truthy2 (a b d : value) :
  js_or (js_or a b) d = first_truthy [a; b] d.
Proof.
  unfold js_or; cbn [first_truthy].
  destruct (truthy a) eqn:Ea; [now rewrite Ea|reflexivity].
Qed.

Lemma first_truthy_absent (cs : list value) (d : value) :
  Forall (fun v => v = VUndefined) cs -> first_truthy cs d = d.
Proof.
  induction 1 as [|v cs Hv _ IH]; [reflexivity|]. now subst.
Qed.

Lemma first_truthy_is_truthy (cs : list value) (d : value) :
  truthy d = true -> truthy (first_truthy cs d) = true.
Proof.
  intros Hd. induction cs as [|v cs IH]; [exact Hd|].
  cbn [first_truthy]. now destruct (truthy v) eqn:E.
Qed.

(** C9, as stated, fails: a falsy configuration is mapped to the empty
    object, which has none of the six fields; and [gender] has no default,
    so a configuration without it yields no [gender]. *)
Lemma model_config_without_schema :
  normalizeModelConfigForBackend VNull = VObj []
  /\ get_prop (normalizeModelConfigForBackend VNull) "pose" = VUndefined
  /\ get_prop (normalizeModelConfigForBackend
                 (VObj [fld "pose" (VStr (lit "walk"))])) "gender"
     = VUndefined.
Proof. repeat split. Qed.

(** C9, amended. A falsy configuration is mapped to the empty object. A
    truthy one is mapped to an object with exactly the fields gender,
    age_range, body_type, skin_tone, pose and framing, in this order;
    each of the last five holds the first truthy of its input spellings,
    else its default, so it holds the default when the input has none of
    them, and it is never empty. *)
Theorem model_config_schema (m : value) :
  (truthy m = false -> normalizeModelConfigForBackend m = VObj [])
  /\ (truthy m = true ->
      normalizeModelConfigForBackend m =
        VObj [fld "gender" (get_prop m "gender");
              fld "age_range"
                (first_truthy [get_prop m "ageRange"; get_prop m "age_range"]
                              (VStr (lit "25-32")));
              fld "body_type"
                (first_truthy [get_prop m "bodyType"; get_prop m "body_type"]
                              (VStr (lit "slim")));
              fld "skin_tone"
                (first_truthy [get_prop m "skinTone"; get_prop m "skin_tone"]
                              (VStr (lit "medium")));
              fld "pose" (first_truthy [get_prop m "pose"]
                                       (VStr (lit "standing")));
              fld "framing"
                (first_truthy [get_prop m "framing"]
                   (VStr (lit "full-body, studio frame, no close-ups")))]
      /\ Forall (fun '(out, sources, default) =>
                   truthy (get_prop (normalizeModelConfigForBackend m) out) = true
                   /\ (Forall (fun k => get_prop m k = VUndefined) sources ->
                       get_prop (normalizeModelConfigForBackend m) out
                       = VStr (lit default)))
                defaulted_fields).
Proof.
  split; intros Hm; unfold normalizeModelConfigForBackend; rewrite Hm;
    cbn [negb]; [reflexivity|].
  rewrite js_or_same, !js_or_first_truthy2, !js_or_first_truthy.
  split; [reflexivity|].
  unfold defaulted_fields.
  repeat apply Forall_cons; try apply Forall_nil.
  all: split; [apply first_truthy_is_truthy; reflexivity|].
  all: intros Habs; apply first_truthy_absent.
  all: repeat match goal with
              | H : Forall _ (_ :: _) |- _ => inversion H; clear H; subst
              end.
  all: repeat constructor; assumption.
Qed.

Lemma model_config_schema_witness :
  truthy (VObj [fld "gender" (VStr (lit "female"));
                fld "bodyType" (VStr (lit "athletic"))]) = true
  /\ get_prop (normalizeModelConfigForBackend
                 (VObj [fld "gender" (VStr (lit "female"));
                        fld "bodyType" (VStr (lit "athletic"))])) "age_range"
     = VStr (lit "25-32")
  /\ get_prop (normalizeModelConfigForBackend
                 (VObj [fld "gender" (VStr (lit "female"));
                        fld "bodyType" (VStr (lit "athletic"))])) "body_type"
     = VStr (lit "athletic").
Proof.
  split; [reflexivity|].
  destruct (proj2 (model_config_schema
                     (VObj [fld "gender" (VStr (lit "female"));
                            fld "bodyType" (VStr (lit "athletic"))]))
                  eq_refl) as [E _].
  rewrite E. split; reflexivity.
Defined.

(* ================================================================== *)
(** * Worker selection *)
(* ================================================================== *)

Lemma venv_then_env_ladder (h : Host) (st : state) :
  exists exe,
    first_available h (fs st)
      [VenvWindows; VenvPosix; EnvOverride; PlatformDefault] = Some exe
    /\ fst (VirtualShowcase.getPythonExecutable h st) = Ok exe
    /\ fst (Runway.getPythonExecutable h st) = Ok exe.
Proof.
  unfold VirtualShowcase.getPythonExecutable, Runway.getPythonExecutable,
    bind, existsSync, ret, log.
  cbn [first_available rung_choice fs].
  destruct (fs st (winVenv h)); cbn [fs fst]; [eexists; repeat split|].
  destruct (fs st (posixVenv h)); cbn [fs fst]; [eexists; repeat split|].
  destruct (env_truthy h "PYTHON_PATH"); eexists; repeat split.
Qed.

Lemma venv_only_ladder (h : Host) (st : state) :
  exists exe,
    first_available h (fs st) [VenvWindows; VenvPosix; PlatformDefault] = Some exe
    /\ fst (ApplyChange.getPythonExecutable h st) = Ok exe.
Proof.
  unfold ApplyChange.getPythonExecutable, bind, existsSync, ret, log.
  cbn [first_available rung_choice fs].
  destruct (fs st (winVenv h)); cbn [fs fst]; [eexists; repeat split|].
  destruct (fs st (posixVenv h)); eexists; repeat split.
Qed.

Lemma env_only_ladder (h : Host) (disk : filesystem) :
  first_available h disk [EnvOverride; PlatformDefault]
  = Some (FlatlayRender.getPythonExecutable h).
Proof.
  unfold FlatlayRender.getPythonExecutable. cbn [first_available rung_choice].
  now destruct (env_truthy h "PYTHON_PATH").
Qed.

(** C4, as stated, fails for two of the four handlers. With a virtual
    environment on disk the specified ladder picks its interpreter, but
    flatlay-render answers [python3]; with [PYTHON_PATH] set and no virtual
    environment the ladder picks the override, but apply-change answers
    [python3]. *)
Lemma ladder_not_followed_by_every_handler :
  first_available (Posix.host [] Examples.absent [])
    (Posix.disk Examples.project_with_venv)
    [VenvWindows; VenvPosix; EnvOverride; PlatformDefault]
  = Some (lit "/app/scripts/venv/bin/python")
  /\ FlatlayRender.getPythonExecutable (Posix.host [] Examples.absent [])
     = lit "python3"
  /\ first_available
       (Posix.host [(lit "PYTHON_PATH", lit "/opt/py/bin/python3")]
                   Examples.absent [])
       (Posix.disk Examples.project)
       [VenvWindows; VenvPosix; EnvOverride; PlatformDefault]
     = Some (lit "/opt/py/bin/python3")
  /\ fst (ApplyChange.getPythonExecutable
            (Posix.host [(lit "PYTHON_PATH", lit "/opt/py/bin/python3")]
                        Examples.absent [])
            (Posix.boot Examples.project))
     = Ok (lit "python3").
Proof. repeat split; vm_compute; reflexivity. Qed.

(** C4, amended. virtual-showcase and runway pick the first available of:
    the Windows venv interpreter, the POSIX venv interpreter, a non-empty
    [PYTHON_PATH], the platform default. apply-change picks among the two
    venv interpreters and the platform default (it does not read
    [PYTHON_PATH]); flatlay-render picks a non-empty [PYTHON_PATH], else the
    platform default (it does not look for a venv). The platform default is
    [py] on Windows and [python3] elsewhere. *)
Theorem worker_selection_per_handler (h : Host) (st : state) :
  (exists exe,
      first_available h (fs st)
        [VenvWindows; VenvPosix; EnvOverride; PlatformDefault] = Some exe
      /\ fst (VirtualShowcase.getPythonExecutable h st) = Ok exe
      /\ fst (Runway.getPythonExecutable h st) = Ok exe)
  /\ (exists exe,
         first_available h (fs st)
           [VenvWindows; VenvPosix; PlatformDefault] = Some exe
         /\ fst (ApplyChange.getPythonExecutable h st) = Ok exe)
  /\ first_available h (fs st) [EnvOverride; PlatformDefault]
     = Some (FlatlayRender.getPythonExecutable h)
  /\ platform_default h = (if win32 h then lit "py" else lit "python3").
Proof.
  split; [apply venv_then_env_ladder|].
  split; [apply venv_only_ladder|].
  split; [apply env_only_ladder|reflexivity].
Qed.

(* ================================================================== *)
(** * The codec between a client reference and the asset resolver *)
(* ================================================================== *)

Ltac arith := zify; Z.to_euclidean_division_equations; lia.

Ltac decide_tests :=
  repeat match goal with
         | |- context [?a <=? ?b] =>
             destruct (N.leb_spec a b); try (exfalso; arith)
         | |- context [?a <? ?b] =>
             destruct (N.ltb_spec a b); try (exfalso; arith)
         | |- context [?a =? ?b] =>
             destruct (N.eqb_spec a b); try (exfalso; arith)
         end;
  cbn [andb orb negb].

Lemma hex_value_digit (n : N) : n < 16 -> hex_value (hex_digit n) = Some n.
Proof.
  intros Hn. unfold hex_value, hex_digit, is_digit, in_range.
  decide_tests; f_equal; arith.
Qed.

Lemma percent_decode_escape (b : N) (rest : jsstring) :
  b < 256 ->
  percent_decode (percent_escape b ++ rest) = b :: percent_decode rest.
Proof.
  intros Hb. unfold percent_escape. cbn [app percent_decode].
  rewrite N.eqb_refl.
  rewrite !hex_value_digit by arith.
  f_equal. arith.
Qed.

Lemma percent_decode_escapes (bs : list N) (rest : jsstring) :
  Forall (fun b => b < 256) bs ->
  percent_decode (flat_map percent_escape bs ++ rest) = bs ++ percent_decode rest.
Proof.
  induction 1 as [|b bs Hb _ IH]; [reflexivity|].
  cbn [flat_map]. rewrite <- app_assoc, percent_decode_escape by assumption.
  now rewrite IH.
Qed.

Lemma utf8_bytes_are_octets (v : N) :
  v < 0x110000 -> Forall (fun b => b < 256) (utf8_bytes v).
Proof.
  intros Hv. unfold utf8_bytes.
  decide_tests; repeat constructor; arith.
Qed.

Lemma percent_decode_code_point (v : N) (rest : jsstring) :
  v < 0x110000 ->
  percent_decode (escape_code_point v ++ rest) = utf8_bytes v ++ percent_decode rest.
Proof.
  intros Hv. apply percent_decode_escapes, utf8_bytes_are_octets, Hv.
Qed.

Lemma utf8_lead_ascii (b : N) : b < 0x80 -> utf8_lead b = (utf8_init, [b]).
Proof. intros. unfold utf8_lead. now decide_tests. Qed.

Lemma utf8_lead_two (q : N) :
  2 <= q < 32 -> utf8_lead (0xC0 + q) = (Utf8State q 1 0 0x80 0xBF, []).
Proof.
  intros. unfold utf8_lead, in_range. decide_tests.
  repeat f_equal; arith.
Qed.

Lemma utf8_lead_three (q : N) :
  q < 16 ->
  utf8_lead (0xE0 + q)
  = (Utf8State q 2 0 (if q =? 0 then 0xA0 else 0x80)
                     (if q =? 13 then 0x9F else 0xBF), []).
Proof.
  intros. unfold utf8_lead, in_range. decide_tests;
    repeat f_equal; arith.
Qed.

Lemma utf8_lead_four (q : N) :
  q < 5 ->
  utf8_lead (0xF0 + q)
  = (Utf8State q 3 0 (if q =? 0 then 0x90 else 0x80)
                     (if q =? 4 then 0x8F else 0xBF), []).
Proof.
  intros. unfold utf8_lead, in_range. decide_tests;
    repeat f_equal; arith.
Qed.

(** A continuation octet inside the bounds of the open sequence. *)
Lemma utf8_step_continue (cp needed seen lo hi r : N) :
  needed <> 0 -> r < 64 -> lo <= 0x80 + r <= hi ->
  utf8_step (Utf8State cp needed seen lo hi) (0x80 + r)
  = if seen + 1 =? needed then (utf8_init, [cp * 64 + r])
    else (Utf8State (cp * 64 + r) needed (seen + 1) 0x80 0xBF, []).
Proof.
  intros Hn Hr Hb. unfold utf8_step, in_range.
  cbn [u_needed u_lower u_upper u_cp u_seen].
  destruct (N.eqb_spec needed 0); [contradiction|].
  replace ((0x80 + r) mod 64) with r by arith.
  destruct (N.leb_spec lo (0x80 + r)); [|exfalso; arith].
  destruct (N.leb_spec (0x80 + r) hi); [|exfalso; arith].
  reflexivity.
Qed.

Lemma utf8_step_more (cp needed seen lo hi r : N) :
  needed <> 0 -> seen + 1 <> needed -> r < 64 -> lo <= 0x80 + r <= hi ->
  utf8_step (Utf8State cp needed seen lo hi) (0x80 + r)
  = (Utf8State (cp * 64 + r) needed (seen + 1) 0x80 0xBF, []).
Proof.
  intros Hn Hs Hr Hb. rewrite utf8_step_continue by assumption.
  now destruct (N.eqb_spec (seen + 1) needed).
Qed.

Lemma utf8_step_last (cp needed seen lo hi r : N) :
  needed <> 0 -> seen + 1 = needed -> r < 64 -> lo <= 0x80 + r <= hi ->
  utf8_step (Utf8State cp needed seen lo hi) (0x80 + r)
  = (utf8_init, [cp * 64 + r]).
Proof.
  intros Hn Hs Hr Hb. rewrite utf8_step_continue by assumption.
  now destruct (N.eqb_spec (seen + 1) needed).
Qed.

(** The decoder reads back the octets of a scalar value. *)
Lemma utf8_decode_bytes (v : N) (bs : list N) :
  v < 0x110000 -> is_high_surrogate v = false -> is_low_surrogate v = false ->
  utf8_decode_from utf8_init (utf8_bytes v ++ bs)
  = v :: utf8_decode_from utf8_init bs.
Proof.
  unfold is_high_surrogate, is_low_surrogate, in_range.
  intros Hv Hh Hl.
  assert (Hs : v < 0xD800 \/ 0xDFFF < v).
  { revert Hh Hl. decide_tests; intros; try discriminate; arith. }
  clear Hh Hl.
  unfold utf8_bytes.
  destruct (N.ltb_spec v 0x80).
  { cbn [app utf8_decode_from]. unfold utf8_step at 1. cbn [utf8_init u_needed N.eqb].
    now rewrite utf8_lead_ascii. }
  destruct (N.ltb_spec v 0x800).
  { cbn [app utf8_decode_from]. unfold utf8_step at 1. cbn [utf8_init u_needed N.eqb].
    rewrite utf8_lead_two by arith. cbn [app utf8_decode_from].
    rewrite utf8_step_last; [|discriminate|reflexivity|arith|arith].
    cbn [app]. f_equal. arith. }
  destruct (N.ltb_spec v 0x10000).
  { cbn [app utf8_decode_from]. unfold utf8_step at 1. cbn [utf8_init u_needed N.eqb].
    rewrite utf8_lead_three by arith. cbn [app utf8_decode_from].
    rewrite utf8_step_more;
      [|discriminate|discriminate|arith|decide_tests; arith].
    cbn [app utf8_decode_from].
    rewrite utf8_step_last; [|discriminate|reflexivity|arith|arith].
    cbn [app]. f_equal. arith. }
  cbn [app utf8_decode_from]. unfold utf8_step at 1. cbn [utf8_init u_needed N.eqb].
  rewrite utf8_lead_four by arith. cbn [app utf8_decode_from].
  rewrite utf8_step_more;
    [|discriminate|discriminate|arith|decide_tests; arith].
  cbn [app utf8_decode_from].
  rewrite utf8_step_more; [|discriminate|discriminate|arith|arith].
  cbn [app utf8_decode_from].
  rewrite utf8_step_last; [|discriminate|reflexivity|arith|arith].
  cbn [app]. f_equal. arith.
Qed.

Lemma uri_unescaped_cases (c : N) :
  uri_unescaped c = true ->
  65 <= c <= 90 \/ 97 <= c <= 122 \/ 48 <= c <= 57
  \/ In c [45; 95; 46; 33; 126; 42; 39; 40; 41].
Proof.
  unfold uri_unescaped, is_alpha, is_upper, is_lower, is_digit, in_range.
  rewrite !orb_true_iff, !andb_true_iff, !N.leb_le.
  intros [[[H|H]|H]|H]; auto.
  right; right; right.
  apply existsb_exists in H as (x & Hin & Hx).
  apply N.eqb_eq in Hx. now subst.
Qed.

Lemma uri_unescaped_ascii (c : N) :
  uri_unescaped c = true ->
  c < 0x80 /\ c <> c_percent /\ c <> c_hash /\ c <> c_amp /\ c <> c_plus
  /\ c <> c_equals /\ c <> c_question.
Proof.
  intros H. apply uri_unescaped_cases in H.
  unfold c_percent, c_hash, c_amp, c_plus, c_equals, c_question.
  cbn [In] in H. lia.
Qed.

Lemma percent_decode_unescaped (c : N) (rest : jsstring) :
  uri_unescaped c = true ->
  percent_decode (c :: rest) = c :: percent_decode rest.
Proof.
  intros H. apply uri_unescaped_ascii in H as (Hlt & Hpc & _).
  cbn [percent_decode].
  destruct (N.eqb_spec c c_percent); [contradiction|].
  unfold utf8_bytes. destruct (N.ltb_spec c 0x80); [reflexivity|lia].
Qed.

(** The code point of a surrogate pair, and back. *)
Lemma pair_code_point_range (c d : N) :
  is_high_surrogate c = true -> is_low_surrogate d = true ->
  0x10000 <= pair_code_point c d < 0x110000
  /\ utf16_units (pair_code_point c d) = [c; d].
Proof.
  unfold is_high_surrogate, is_low_surrogate, in_range, pair_code_point.
  intros Hc Hd.
  apply andb_true_iff in Hc as [Hc1 Hc2]. apply andb_true_iff in Hd as [Hd1 Hd2].
  apply N.leb_le in Hc1, Hc2, Hd1, Hd2.
  split; [arith|].
  unfold utf16_units.
  destruct (N.ltb_spec ((c - 0xD800) * 0x400 + (d - 0xDC00) + 0x10000) 0x10000);
    [exfalso; arith|].
  f_equal; [arith|f_equal; arith].
Qed.

Lemma not_surrogate_above (v : N) :
  0x10000 <= v -> is_high_surrogate v = false /\ is_low_surrogate v = false.
Proof.
  intros Hv. unfold is_high_surrogate, is_low_surrogate, in_range.
  split; decide_tests; reflexivity.
Qed.

(** Strong induction on a string, by its length. *)
Lemma string_length_ind (P : jsstring -> Prop) :
  (forall s, (forall t, (List.length t < List.length s)%nat -> P t) -> P s) ->
  forall s, P s.
Proof.
  intros Hstep s.
  assert (H : forall n t, (List.length t < n)%nat -> P t).
  { induction n as [|n IH]; intros t Ht; [lia|].
    apply Hstep. intros u Hu. apply IH. lia. }
  apply (H (S (List.length s))). lia.
Qed.

(** On a well-formed string [encodeURIComponent] does not throw, and the
    octets behind its escapes decode to the code points of the string. *)
Lemma encodeURIComponent_decodes (s : jsstring) :
  well_formed s = true ->
  exists e,
    encodeURIComponent s = Some e
    /\ utf8_decode_from utf8_init (percent_decode e) = code_points s.
Proof.
  induction s as [s IH] using string_length_ind. intros Hwf.
  destruct s as [|c s']; [now exists []|].
  cbn [encodeURIComponent well_formed code_points] in *.
  destruct (is_high_surrogate c) eqn:Hh.
  - (* a surrogate pair *)
    destruct s' as [|d s'']; [discriminate|].
    apply andb_true_iff in Hwf as [Hd Hwf].
    destruct (IH s'') as (e & He & Hdec); [cbn; lia|exact Hwf|].
    assert (Hu : uri_unescaped c = false).
    { destruct (uri_unescaped c) eqn:E; [|reflexivity].
      apply uri_unescaped_ascii in E as [E _].
      revert Hh. unfold is_high_surrogate, in_range. decide_tests. discriminate. }
    assert (Hl : is_low_surrogate c = false).
    { revert Hh. unfold is_high_surrogate, is_low_surrogate, in_range.
      decide_tests; intros; try discriminate; reflexivity. }
    rewrite Hu, Hl, Hd, He. cbn [option_map].
    destruct (pair_code_point_range c d Hh Hd) as [Hv _].
    eexists; split; [reflexivity|].
    rewrite percent_decode_code_point by lia.
    destruct (not_surrogate_above (proj1 Hv)) as [Hvh Hvl].
    rewrite utf8_decode_bytes by (lia || assumption).
    now rewrite Hdec.
  - apply andb_true_iff in Hwf as [Hc Hwf].
    apply andb_true_iff in Hc as [Hl Hlt].
    apply negb_true_iff in Hl. apply N.ltb_lt in Hlt.
    destruct (IH s') as (e & He & Hdec); [cbn; lia|exact Hwf|].
    rewrite Hl, He. cbn [option_map].
    destruct (uri_unescaped c) eqn:Hu.
    + eexists; split; [reflexivity|].
      rewrite percent_decode_unescaped by assumption.
      pose proof (uri_unescaped_ascii c Hu) as [Hlt' _].
      replace (c :: percent_decode e) with (utf8_bytes c ++ percent_decode e).
      * rewrite utf8_decode_bytes by (lia || assumption). now rewrite Hdec.
      * unfold utf8_bytes. now destruct (N.ltb_spec c 0x80); [|lia].
    + eexists; split; [reflexivity|].
      rewrite percent_decode_code_point by lia.
      rewrite utf8_decode_bytes by (lia || assumption).
      now rewrite Hdec.
Qed.

(** The code points of a well-formed string spell it back in UTF-16. *)
Lemma code_points_utf16 (s : jsstring) :
  well_formed s = true -> flat_map utf16_units (code_points s) = s.
Proof.
  induction s as [s IH] using string_length_ind. intros Hwf.
  destruct s as [|c s']; [reflexivity|].
  cbn [well_formed code_points] in *.
  destruct (is_high_surrogate c) eqn:Hh.
  - destruct s' as [|d s'']; [discriminate|].
    apply andb_true_iff in Hwf as [Hd Hwf]. rewrite Hd.
    cbn [flat_map].
    rewrite (proj2 (pair_code_point_range c d Hh Hd)).
    rewrite IH; [reflexivity|cbn; lia|exact Hwf].
  - apply andb_true_iff in Hwf as [Hc Hwf].
    apply andb_true_iff in Hc as [Hl Hlt].
    apply negb_true_iff in Hl. apply N.ltb_lt in Hlt.
    rewrite Hl. cbn [flat_map]. unfold utf16_units at 1.
    destruct (N.ltb_spec c 0x10000); [|lia].
    rewrite IH; [reflexivity|cbn; lia|exact Hwf].
Qed.

(** Decoding inverts [encodeURIComponent]. *)
Lemma encodeURIComponent_round_trip (s : jsstring) :
  well_formed s = true ->
  exists e, encodeURIComponent s = Some e /\ utf8_decode (percent_decode e) = s.
Proof.
  intros Hwf. destruct (encodeURIComponent_decodes s Hwf) as (e & He & Hdec).
  exists e. split; [exact He|].
  unfold utf8_decode. rewrite Hdec. now apply code_points_utf16.
Qed.

Lemma hex_digit_safe (n : N) : n < 16 -> url_safe (hex_digit n) = true.
Proof.
  intros Hn. unfold url_safe, uri_unescaped, is_alpha, is_upper, is_lower,
    is_digit, in_range, hex_digit.
  destruct (N.ltb_spec n 10).
  - replace ((48 <=? 48 + n) && (48 + n <=? 57)) with true;
      [now rewrite !orb_true_r|].
    symmetry. apply andb_true_iff. split; apply N.leb_le; lia.
  - replace ((65 <=? 55 + n) && (55 + n <=? 90)) with true; [reflexivity|].
    symmetry. apply andb_true_iff. split; apply N.leb_le; lia.
Qed.

Lemma escape_code_point_safe (v : N) :
  v < 0x110000 -> Forall (fun c => url_safe c = true) (escape_code_point v).
Proof.
  intros Hv. unfold escape_code_point.
  pose proof (utf8_bytes_are_octets Hv) as Hb.
  induction Hb as [|b bs Hb _ IH]; [constructor|].
  cbn [flat_map]. apply Forall_app. split; [|exact IH].
  unfold percent_escape. repeat constructor.
  - apply hex_digit_safe. arith.
  - apply hex_digit_safe. arith.
Qed.

Lemma encodeURIComponent_safe (s : jsstring) :
  well_formed s = true ->
  forall e, encodeURIComponent s = Some e -> Forall (fun c => url_safe c = true) e.
Proof.
  induction s as [s IH] using string_length_ind. intros Hwf e He.
  destruct s as [|c s'].
  { injection He as <-. constructor. }
  cbn [encodeURIComponent well_formed] in *.
  destruct (uri_unescaped c) eqn:Hu.
  - assert (Hwf' : well_formed s' = true).
    { destruct (is_high_surrogate c) eqn:Hh.
      - apply uri_unescaped_ascii in Hu as [Hu _]. revert Hh.
        unfold is_high_surrogate, in_range. decide_tests. discriminate.
      - now apply andb_true_iff in Hwf as [_ Hwf]. }
    destruct (encodeURIComponent s') as [e'|] eqn:He'; [|discriminate].
    injection He as <-. constructor.
    + unfold url_safe. now rewrite Hu.
    + apply (IH s'); [cbn; lia|exact Hwf'|exact He'].
  - destruct (is_high_surrogate c) eqn:Hh.
    + destruct s' as [|d s'']; [discriminate|].
      apply andb_true_iff in Hwf as [Hd Hwf].
      destruct (is_low_surrogate c); [discriminate|]. rewrite Hd in He.
      destruct (encodeURIComponent s'') as [e'|] eqn:He'; [|discriminate].
      injection He as <-. apply Forall_app. split.
      * apply escape_code_point_safe.
        apply (pair_code_point_range c d Hh Hd).
      * apply (IH s''); [cbn; lia|exact Hwf|exact He'].
    + apply andb_true_iff in Hwf as [Hc Hwf].
      apply andb_true_iff in Hc as [Hl Hlt].
      apply negb_true_iff in Hl. apply N.ltb_lt in Hlt. rewrite Hl in He.
      destruct (encodeURIComponent s') as [e'|] eqn:He'; [|discriminate].
      injection He as <-. apply Forall_app. split.
      * apply escape_code_point_safe. lia.
      * apply (IH s'); [cbn; lia|exact Hwf|exact He'].
Qed.

Lemma url_safe_not_delimiter (c : N) :
  url_safe c = true ->
  c <> c_hash /\ c <> c_amp /\ c <> c_plus /\ c <> c_equals /\ c <> c_question.
Proof.
  unfold url_safe. intros H. apply orb_true_iff in H as [H|H].
  - apply uri_unescaped_ascii in H. tauto.
  - apply N.eqb_eq in H. subst c. repeat split; discriminate.
Qed.

(** Scanning a string that holds no delimiter. *)
Lemma take_until_none (p : N -> bool) (s : jsstring) :
  Forall (fun c => p c = false) s -> take_until p s = s.
Proof.
  induction 1 as [|c s Hc _ IH]; [reflexivity|].
  cbn [take_until]. now rewrite Hc, IH.
Qed.

Lemma take_until_app (p : N -> bool) (a b : jsstring) :
  forallb (fun c => negb (p c)) a = true ->
  take_until p (a ++ b) = a ++ take_until p b.
Proof.
  induction a as [|c a IH]; intros H; [reflexivity|].
  cbn [forallb] in H. apply andb_true_iff in H as [Hc Ha].
  apply negb_true_iff in Hc. cbn [app take_until]. now rewrite Hc, IH.
Qed.

Lemma split_none (sep : N) (s : jsstring) :
  Forall (fun c => c <> sep) s -> split sep s = [s].
Proof.
  induction 1 as [|c s Hc _ IH]; [reflexivity|].
  cbn [split]. destruct (N.eqb_spec c sep); [contradiction|]. now rewrite IH.
Qed.

Lemma plus_to_space_none (s : jsstring) :
  Forall (fun c => c <> c_plus) s -> plus_to_space s = s.
Proof.
  induction 1 as [|c s Hc _ IH]; [reflexivity|].
  unfold plus_to_space in *. cbn [map].
  destruct (N.eqb_spec c c_plus); [contradiction|]. now rewrite IH.
Qed.

Lemma safe_forall (e : jsstring) (d : N) :
  Forall (fun c => url_safe c = true) e ->
  (forall c, url_safe c = true -> c <> d) ->
  Forall (fun c => c <> d) e.
Proof. intros He Hd. eapply Forall_impl; [|exact He]. exact Hd. Qed.

Lemma drop_until_app (p : N -> bool) (a b : jsstring) :
  forallb (fun c => negb (p c)) a = true ->
  drop_until p (a ++ b) = drop_until p b.
Proof.
  induction a as [|c a IH]; intros H; [reflexivity|].
  cbn [forallb] in H. apply andb_true_iff in H as [Hc Ha].
  apply negb_true_iff in Hc. cbn [app drop_until]. now rewrite Hc, IH.
Qed.

(** An origin (scheme, host, port) holds neither [?] nor [#]. *)
Lemma origin_scanned (origin : jsstring) :
  forallb (fun c => negb (c =? c_question) && negb (c =? c_hash)) origin = true ->
  forallb (fun c => negb (c_hash =? c)) origin = true
  /\ forallb (fun c => negb (c_question =? c)) origin = true.
Proof.
  intros H. rewrite forallb_forall in H.
  split; apply forallb_forall; intros c Hc; specialize (H c Hc);
    apply andb_true_iff in H as [Hq Hh]; now rewrite N.eqb_sym.
Qed.

(** The asset route reads back the encoded component of a client
    reference, requested from any origin. *)
Lemma searchParams_get_reference (origin e : jsstring) :
  forallb (fun c => negb (c =? c_question) && negb (c =? c_hash)) origin = true ->
  Forall (fun c => url_safe c = true) e ->
  searchParams_get (origin ++ reference_prefix ++ e) (lit "path")
  = Some (utf8_decode (percent_decode e)).
Proof.
  intros Horigin He.
  destruct (origin_scanned origin Horigin) as [Hoh Hoq].
  assert (Hhash : Forall (fun c => (c_hash =? c) = false) e).
  { eapply Forall_impl; [|exact He]. intros c Hc.
    apply N.eqb_neq. intros <-. now apply url_safe_not_delimiter in Hc. }
  assert (Hamp : Forall (fun c => c <> c_amp) e).
  { apply safe_forall; [exact He|].
    intros c Hc. now apply url_safe_not_delimiter in Hc. }
  assert (Hplus : Forall (fun c => c <> c_plus) e).
  { apply safe_forall; [exact He|].
    intros c Hc. now apply url_safe_not_delimiter in Hc. }
  unfold searchParams_get, url_query.
  rewrite (take_until_app _ _ _ Hoh).
  rewrite take_until_app by reflexivity.
  rewrite (take_until_none _ Hhash).
  rewrite (drop_until_app _ _ _ Hoq).
  change (drop_until (N.eqb c_question) (reference_prefix ++ e))
    with (Some (lit "path=" ++ e)).
  unfold form_parse.
  rewrite split_none.
  2:{ apply Forall_app. split; [|exact Hamp].
      repeat constructor; discriminate. }
  change (filter _ [lit "path=" ++ e]) with [lit "path=" ++ e].
  cbn [map find].
  unfold form_pair.
  change (take_until (N.eqb c_equals) (lit "path=" ++ e)) with (lit "path").
  change (drop_until (N.eqb c_equals) (lit "path=" ++ e)) with (Some e).
  change (form_component (lit "path")) with (lit "path").
  cbn [fst snd]. rewrite str_eqb_refl. cbn [option_map snd].
  unfold form_component. now rewrite plus_to_space_none.
Qed.

(** Well-formedness survives the rewriting steps of [normalizeForBrowser]. *)
Lemma not_surrogate_below (c : N) :
  c < 0xD800 -> is_high_surrogate c = false /\ is_low_surrogate c = false.
Proof.
  intros Hc. unfold is_high_surrogate, is_low_surrogate, in_range.
  split; decide_tests; reflexivity.
Qed.

Lemma well_formed_tail (c : N) (s : jsstring) :
  c < 0xD800 -> well_formed (c :: s) = well_formed s.
Proof.
  intros Hc. cbn [well_formed].
  destruct (not_surrogate_below Hc) as [-> ->].
  destruct (N.ltb_spec c 0x10000); [reflexivity|lia].
Qed.

Lemma well_formed_replace_backslashes (s : jsstring) :
  well_formed (replace_backslashes s) = well_formed s.
Proof.
  induction s as [s IH] using string_length_ind.
  destruct s as [|c s']; [reflexivity|].
  unfold replace_backslashes in *. cbn [map].
  destruct (N.eqb_spec c c_backslash) as [->|Hc].
  - rewrite !well_formed_tail by (unfold c_slash, c_backslash; lia).
    apply IH. cbn; lia.
  - cbn [well_formed]. destruct (is_high_surrogate c) eqn:Hh.
    + destruct s' as [|d s'']; [reflexivity|]. cbn [map].
      destruct (N.eqb_spec d c_backslash) as [->|Hd].
      * now destruct (not_surrogate_below (c := c_backslash)) as [_ ->];
          [unfold c_backslash; lia|];
          destruct (not_surrogate_below (c := c_slash)) as [_ ->];
          [unfold c_slash; lia|].
      * f_equal. apply IH. cbn; lia.
    + f_equal. apply IH. cbn; lia.
Qed.

Lemma well_formed_strip_drive_letter (s : jsstring) :
  well_formed s = true -> well_formed (strip_drive_letter s) = true.
Proof.
  intros Hwf. unfold strip_drive_letter.
  destruct s as [|c [|d rest]]; try assumption.
  destruct (is_alpha c && (d =? c_colon)) eqn:E; [|assumption].
  apply andb_true_iff in E as [Hc Hd]. apply N.eqb_eq in Hd. subst d.
  assert (c < 0xD800).
  { revert Hc. unfold is_alpha, is_upper, is_lower, in_range.
    decide_tests; intros; try discriminate; lia. }
  rewrite !well_formed_tail in Hwf by (unfold c_colon; lia). exact Hwf.
Qed.

Lemma well_formed_strip_leading_slashes (s : jsstring) :
  well_formed s = true -> well_formed (strip_leading_slashes s) = true.
Proof.
  unfold strip_leading_slashes.
  induction s as [|c s IH]; intros Hwf; [reflexivity|].
  cbn [drop_while]. destruct (N.eqb_spec c c_slash) as [->|]; [|exact Hwf].
  apply IH. now rewrite well_formed_tail in Hwf by (unfold c_slash; lia).
Qed.

(** On a relative path the stripping steps do nothing. *)
Lemma replace_backslashes_idempotent (s : jsstring) :
  replace_backslashes (replace_backslashes s) = replace_backslashes s.
Proof.
  unfold replace_backslashes. rewrite map_map. apply map_ext. intros c.
  destruct (N.eqb_spec c c_backslash); [reflexivity|].
  now destruct (N.eqb_spec c c_backslash).
Qed.

Lemma relative_not_stripped (p : jsstring) :
  is_relative p = true ->
  strip_leading_slashes (strip_drive_letter (replace_backslashes p))
  = replace_backslashes p
  /\ strip_leading_slashes (replace_backslashes p) = replace_backslashes p.
Proof.
  unfold is_relative, has_drive_prefix. intros H.
  apply andb_true_iff in H as [H Hb]. apply andb_true_iff in H as [Hd Hs].
  apply negb_true_iff in Hd, Hs, Hb.
  destruct p as [|c p']; [split; reflexivity|].
  cbn [startsWith] in Hs, Hb. rewrite startsWith_nil, andb_true_r in Hs, Hb.
  apply N.eqb_neq in Hs, Hb.
  assert (Hlead : strip_leading_slashes (replace_backslashes (c :: p'))
                  = replace_backslashes (c :: p')).
  { unfold strip_leading_slashes, replace_backslashes. cbn [map drop_while].
    destruct (N.eqb_spec c c_backslash); [contradiction|].
    now destruct (N.eqb_spec c c_slash). }
  split; [|exact Hlead].
  assert (Hdrive : strip_drive_letter (replace_backslashes (c :: p'))
                   = replace_backslashes (c :: p')).
  { unfold strip_drive_letter, replace_backslashes. cbn [map].
    destruct (N.eqb_spec c c_backslash); [contradiction|].
    destruct p' as [|d p'']; [reflexivity|]. cbn [map].
    destruct (N.eqb_spec d c_backslash) as [->|].
    - now rewrite andb_false_r.
    - now rewrite Hd. }
  now rewrite Hdrive.
Qed.

(** C3, as stated, fails: [normalizeForBrowser] has no pass-through, an
    https URL comes back wrapped and encoded. *)
Lemma normalizeForBrowser_wraps_absolute_url :
  matches_http (lit "https://cdn.example.com/looks/a.png") = true
  /\ normalizeForBrowser (lit "https://cdn.example.com/looks/a.png")
     = Some (lit "/api/assets?path=https%3A%2F%2Fcdn.example.com%2Flooks%2Fa.png")
  /\ normalizeForBrowser (lit "https://cdn.example.com/looks/a.png")
     <> Some (lit "https://cdn.example.com/looks/a.png").
Proof.
  split; [reflexivity|]. split; [vm_compute; reflexivity|].
  vm_compute. discriminate.
Qed.

(** What [normalizeForBrowser] returns on a well-formed string. *)
Lemma normalizeForBrowser_encodes (p : jsstring) :
  well_formed p = true ->
  exists e,
    encodeURIComponent
      (strip_leading_slashes (strip_drive_letter (replace_backslashes p)))
    = Some e
    /\ normalizeForBrowser p = Some (reference_prefix ++ e)
    /\ Forall (fun c => url_safe c = true) e
    /\ utf8_decode (percent_decode e)
       = strip_leading_slashes (strip_drive_letter (replace_backslashes p)).
Proof.
  intros Hwf.
  assert (Hwf' : well_formed (strip_leading_slashes
                                (strip_drive_letter (replace_backslashes p)))
                 = true).
  { apply well_formed_strip_leading_slashes, well_formed_strip_drive_letter.
    now rewrite well_formed_replace_backslashes. }
  destruct (encodeURIComponent_round_trip _ Hwf') as (e & He & Hdec).
  exists e. unfold normalizeForBrowser. rewrite He. cbn [option_map].
  repeat split; try assumption.
  now apply (encodeURIComponent_safe _ Hwf').
Qed.

(** C3, amended. For every well-formed string, whether it matches
    ^https?:// or not, [normalizeForBrowser] replaces backslashes with
    slashes, strips a leading drive-letter prefix, strips leading slashes,
    URL-encodes the remainder (letters, digits and - _ . ! ~ * ' ( ) kept,
    every other code point as the percent-escapes of its UTF-8 octets, so
    that decoding gives the remainder back) and returns
    /api/assets?path=<encoded>; a string that matches ^https?:// is never
    returned unchanged. *)
Theorem normalizeForBrowser_always_wraps (p : jsstring) :
  well_formed p = true ->
  exists e,
    encodeURIComponent
      (strip_leading_slashes (strip_drive_letter (replace_backslashes p)))
    = Some e
    /\ normalizeForBrowser p = Some (lit "/api/assets?path=" ++ e)
    /\ Forall (fun c => url_safe c = true) e
    /\ utf8_decode (percent_decode e)
       = strip_leading_slashes (strip_drive_letter (replace_backslashes p))
    /\ (matches_http p = true -> normalizeForBrowser p <> Some p).
Proof.
  intros Hwf.
  destruct (normalizeForBrowser_encodes p Hwf) as (e & He & Hn & Hsafe & Hdec).
  exists e. repeat split; try assumption.
  intros Hm Heq. rewrite Hn in Heq. injection Heq as Heq.
  rewrite <- Heq in Hm. discriminate Hm.
Qed.

Lemma normalizeForBrowser_always_wraps_witness :
  well_formed (lit "C:\renders\look 1.png") = true
  /\ normalizeForBrowser (lit "C:\renders\look 1.png")
     = Some (lit "/api/assets?path=renders%2Flook%201.png").
Proof.
  split; [reflexivity|].
  destruct (normalizeForBrowser_always_wraps (lit "C:\renders\look 1.png") eq_refl)
    as (e & He & Hn & _).
  rewrite Hn. f_equal. f_equal.
  vm_compute in He. now injection He as <-.
Defined.

(** C6. For every relative path [p] (a well-formed string without a
    drive-letter prefix or a leading separator), [normalizeForBrowser]
    yields a reference from which the decode step of the asset route
    (the [path] parameter of the query of the request URL, URL-decoded,
    backslashes turned into slashes, leading slashes stripped) recovers [p]
    with its slashes normalized, whatever the origin the reference is
    requested from. The round trip holds whether or not [p] has a [..]
    segment. *)
Theorem client_reference_round_trip (origin p : jsstring) :
  well_formed p = true ->
  is_relative p = true ->
  forallb (fun c => negb (c =? c_question) && negb (c =? c_hash)) origin = true ->
  exists reference,
    normalizeForBrowser p = Some reference
    /\ option_map Asset.requested_of
         (searchParams_get (origin ++ reference) (lit "path"))
       = Some (replace_backslashes p).
Proof.
  intros Hwf Hrel Horigin.
  destruct (normalizeForBrowser_encodes p Hwf) as (e & _ & Hn & Hsafe & Hdec).
  destruct (relative_not_stripped p Hrel) as [Hstrip Hlead].
  exists (reference_prefix ++ e). split; [exact Hn|].
  rewrite (searchParams_get_reference origin Horigin Hsafe). cbn [option_map].
  rewrite Hdec, Hstrip. unfold Asset.requested_of.
  now rewrite replace_backslashes_idempotent, Hlead.
Qed.

Lemma client_reference_round_trip_witness :
  well_formed (lit "output\abc123_showcase (1).png") = true
  /\ is_relative (lit "output\abc123_showcase (1).png") = true
  /\ exists reference,
       normalizeForBrowser (lit "output\abc123_showcase (1).png") = Some reference
       /\ option_map Asset.requested_of
            (searchParams_get (lit "http://localhost:3000" ++ reference)
                              (lit "path"))
          = Some (lit "output/abc123_showcase (1).png").
Proof.
  split; [reflexivity|]. split; [reflexivity|].
  exact (client_reference_round_trip (lit "http://localhost:3000")
           (lit "output\abc123_showcase (1).png") eq_refl eq_refl eq_refl).
Defined.

(* ================================================================== *)
(** * Specifications of the handlers around the spawn *)
(* ================================================================== *)

Section Triples.
Context {A B : Type}.

Lemma triple_ret (P : state -> Prop) (a : A) (Q : A -> state -> Prop)
      (E : state -> Prop) :
  (forall st, P st -> Q a st) -> triple P (ret a) Q E.
Proof. intros H st HP. now apply H. Qed.

Lemma triple_bind (P : state -> Prop) (m : M A) (k : A -> M B)
      (Q1 : A -> state -> Prop) (Q : B -> state -> Prop) (E : state -> Prop) :
  triple P m Q1 E -> (forall a, triple (Q1 a) (k a) Q E) ->
  triple P (bind m k) Q E.
Proof.
  intros Hm Hk st HP. unfold bind. specialize (Hm st HP).
  destruct (m st) as [[a|e|e] st']; try assumption. now apply Hk.
Qed.

Lemma triple_try_catch (P : state -> Prop) (m : M A) (handler : exn -> M A)
      (Q : A -> state -> Prop) (E : state -> Prop) :
  triple P m Q E -> (forall e, triple E (handler e) Q E) ->
  triple P (try_catch m handler) Q E.
Proof.
  intros Hm Hh st HP. unfold try_catch. specialize (Hm st HP).
  destruct (m st) as [[a|e|e] st']; try assumption. now apply Hh.
Qed.

Lemma triple_assume (phi : Prop) (P : state -> Prop) (m : M A)
      (Q : A -> state -> Prop) (E : state -> Prop) :
  (phi -> triple P m Q E) -> triple (fun st => phi /\ P st) m Q E.
Proof. intros H st [Hphi HP]. now apply H. Qed.

Lemma triple_consequence (P P' : state -> Prop) (m : M A)
      (Q Q' : A -> state -> Prop) (E E' : state -> Prop) :
  (forall st, P' st -> P st) ->
  (forall a st, Q a st -> Q' a st) ->
  (forall st, E st -> E' st) ->
  triple P m Q E -> triple P' m Q' E'.
Proof.
  intros HP HQ HE Hm st Hst. specialize (Hm st (HP st Hst)).
  destruct (m st) as [[a|e|e] st']; auto.
Qed.
End Triples.

Lemma unspawned_log (e : effect) (st : state) :
  is_spawn e = false -> unspawned st -> unspawned (log e st).
Proof.
  unfold unspawned, log. cbn [trace]. intros He Hst.
  now rewrite existsb_app, Hst; cbn; rewrite He.
Qed.

(** The operations of the host, the spawn apart, are quiet. *)
Lemma quiet_ret {A} (a : A) : quiet (ret a).
Proof. now apply triple_ret. Qed.

Lemma quiet_bind {A B} (m : M A) (k : A -> M B) :
  quiet m -> (forall a, quiet (k a)) -> quiet (bind m k).
Proof. intros Hm Hk. eapply triple_bind; [exact Hm|exact Hk]. Qed.

Lemma quiet_try_catch {A} (m : M A) (handler : exn -> M A) :
  quiet m -> (forall e, quiet (handler e)) -> quiet (try_catch m handler).
Proof. intros Hm Hh. apply triple_try_catch; assumption. Qed.

Lemma quiet_throw {A} (h : Host) (f : failure) : quiet (@throw h A f).
Proof. intros st Hst. exact Hst. Qed.

Lemma quiet_uncaught {A} (h : Host) (f : failure) : quiet (@uncaught h A f).
Proof. intros st Hst. exact Hst. Qed.

Lemma quiet_existsSync (p : jsstring) : quiet (existsSync p).
Proof. intros st Hst. now apply unspawned_log. Qed.

Lemma quiet_mkdir (h : Host) (p : jsstring) : quiet (mkdir h p).
Proof.
  intros st Hst. unfold mkdir.
  destruct (fs st p) as [[|]|]; now apply (unspawned_log (EMkdir p)).
Qed.

Lemma quiet_writeFile (h : Host) (p text : jsstring) : quiet (writeFile h p text).
Proof.
  intros st Hst. unfold writeFile.
  pose proof (unspawned_log (EWriteFile p (utf8_encode text)) eq_refl Hst) as H.
  destruct (fs st p) as [[|]|]; destruct (fs st (path_dirname h p)) as [[|]|];
    exact H.
Qed.

Lemma quiet_readFileSync (h : Host) (p : jsstring) : quiet (readFileSync h p).
Proof.
  intros st Hst. unfold readFileSync.
  destruct (fs st p) as [[|]|]; now apply (unspawned_log (EReadFile p)).
Qed.

Lemma quiet_Date_now (h : Host) : quiet (Date_now h).
Proof. intros st Hst. exact Hst. Qed.

Lemma quiet_ToString (h : Host) (v : value) : quiet (ToString h v).
Proof. intros st Hst. unfold ToString. now destruct (stringifiable v). Qed.

Lemma quiet_ToString_in_callback (h : Host) (v : value) :
  quiet (ToString_in_callback h v).
Proof.
  intros st Hst. unfold ToString_in_callback. now destruct (stringifiable v).
Qed.

Create HintDb quiet.

#[local] Hint Resolve quiet_ret quiet_throw quiet_uncaught quiet_existsSync
  quiet_mkdir quiet_writeFile quiet_readFileSync quiet_Date_now
  quiet_ToString quiet_ToString_in_callback : quiet.

Ltac quiet_step :=
  match goal with
  | |- quiet (bind _ _) => apply quiet_bind; [|intros ?]
  | |- quiet (try_catch _ _) => apply quiet_try_catch; [|intros ?]
  | |- quiet (if ?b then _ else _) => destruct b
  | |- quiet (match ?x with _ => _ end) => destruct x
  | |- quiet _ => solve [auto with quiet]
  end.

Lemma quiet_ensureTempDir (h : Host) : quiet (ensureTempDir h).
Proof. unfold ensureTempDir. repeat quiet_step. Qed.

Lemma quiet_reference_url (h : Host) (req : Request) (reference : value) :
  quiet (reference_url h req reference).
Proof. unfold reference_url. repeat quiet_step. Qed.

Lemma quiet_python_showcase (h : Host) : quiet (VirtualShowcase.getPythonExecutable h).
Proof. unfold VirtualShowcase.getPythonExecutable. repeat quiet_step. Qed.

Lemma quiet_python_runway (h : Host) : quiet (Runway.getPythonExecutable h).
Proof. unfold Runway.getPythonExecutable. repeat quiet_step. Qed.

Lemma quiet_python_apply_change (h : Host) : quiet (ApplyChange.getPythonExecutable h).
Proof. unfold ApplyChange.getPythonExecutable. repeat quiet_step. Qed.

#[local] Hint Resolve quiet_ensureTempDir quiet_reference_url
  quiet_python_showcase quiet_python_runway quiet_python_apply_change : quiet.

(** A handler is specified by what it answers once its run has reached a
    condition [C] that needs a spawned worker; what it answers before the
    spawn, and an exception raised before it, meet the specification for
    want of [C]. *)
Section AroundTheSpawn.
Context {A : Type}.
Variable C : state -> Prop.
Hypothesis before_spawn : forall st, unspawned st -> ~ C st.

Lemma triple_quiet {B} (m : M B) :
  quiet m -> triple unspawned m (fun _ => unspawned) (fun st => ~ C st).
Proof.
  intros Hm. eapply triple_consequence; [| |exact before_spawn|exact Hm]; auto.
Qed.

Lemma triple_ret_unspawned (Q : A -> state -> Prop) (a : A) :
  triple unspawned (ret a) (fun r st => C st -> Q r st) (fun st => ~ C st).
Proof.
  apply triple_ret. intros st Hst HC. now destruct (before_spawn Hst).
Qed.

Lemma triple_ret_caught (Q : A -> state -> Prop) (a : A) :
  triple (fun st => ~ C st) (ret a) (fun r st => C st -> Q r st)
         (fun st => ~ C st).
Proof. apply triple_ret. intros st Hst HC. contradiction. Qed.

(** The body of the request, when it is JSON. *)
Lemma triple_request_json (req : Request) (k : value -> M A)
      (Q : A -> state -> Prop) :
  (forall body, req_json req = inl body ->
                triple unspawned (k body) Q (fun st => ~ C st)) ->
  triple unspawned (bind (request_json req) k) Q (fun st => ~ C st).
Proof.
  intros Hk st Hst. unfold bind, request_json.
  destruct (req_json req) as [body|e] eqn:Hjson.
  - now apply (Hk body).
  - now apply before_spawn.
Qed.

(** A conversion to a string, when it returns. *)
Lemma triple_ToString (h : Host) (v : value) (k : jsstring -> M A)
      (Q : A -> state -> Prop) :
  (stringifiable v = true ->
   triple unspawned (k (to_string h v)) Q (fun st => ~ C st)) ->
  triple unspawned (bind (ToString h v) k) Q (fun st => ~ C st).
Proof.
  intros Hk st Hst. unfold bind, ToString.
  destruct (stringifiable v).
  - now apply Hk.
  - now apply before_spawn.
Qed.

(** From a specification to a run. *)
Lemma triple_run (m : M A) (x : A) (st : state) :
  triple unspawned m (fun r st' => C st' -> r = x) (fun st' => ~ C st') ->
  unspawned st ->
  C (snd (m st)) -> fst (m st) = Ok x.
Proof.
  intros Hm Hst. specialize (Hm st Hst).
  destruct (m st) as [[a|e|e] st']; cbn [fst snd]; intros HC.
  - f_equal. now apply Hm.
  - contradiction.
  - contradiction.
Qed.
End AroundTheSpawn.

(** The spawn, on a host whose worker closes with [code]. *)
Lemma triple_spawn (h : Host) (code : option Z) (out err : list jsstring)
      (cmd : jsstring) (args : list jsstring) (P E : state -> Prop) :
  worker_closes h code out err ->
  triple P (spawn h cmd args)
         (fun r _ => r = Closed code out err /\ True) E.
Proof.
  intros Hw st _. unfold spawn. specialize (Hw cmd args (fs st)).
  destruct (run_worker h cmd args (fs st)) as [r disk]. now split.
Qed.

Lemma unspawned_not_spawned :
  forall st, unspawned st -> ~ spawned (trace st).
Proof. unfold unspawned, spawned. congruence. Qed.

Lemma unspawned_not_answered (p : jsstring) :
  forall st, unspawned st -> ~ answered_without p st.
Proof. intros st H [Hsp _]. now apply (unspawned_not_spawned H). Qed.

Ltac run_quiet HB :=
  eapply triple_bind with (Q1 := fun _ => unspawned);
  [apply (triple_quiet _ HB); solve [repeat quiet_step]|intros ?].

Ltac after_spawn Hw :=
  eapply triple_bind; [apply (triple_spawn _ _ _ _ Hw)|intros ?];
  apply triple_assume; intros ->.

(* ================================================================== *)
(** * A worker that exits with a non-zero code *)
(* ================================================================== *)

(** What the [close] callbacks answer to a non-zero code. *)
Lemma flatlay_close_failed (h : Host) (code : option Z) (stdout stderr : jsstring) :
  code <> Some 0%Z ->
  FlatlayRender.on_close h code stdout stderr
  = ret (script_failed code stdout stderr).
Proof.
  intros H. unfold FlatlayRender.on_close.
  destruct code as [[| |]|]; try congruence;
    now destruct (capture1 _).
Qed.

Lemma showcase_close_failed (h : Host) (design : value) (code : option Z)
      (stdout stderr : jsstring) :
  code <> Some 0%Z ->
  VirtualShowcase.on_close h design code stdout stderr
  = ret (script_failed code stdout stderr).
Proof.
  intros H. unfold VirtualShowcase.on_close.
  destruct code as [[| |]|]; try congruence; reflexivity.
Qed.

Lemma runway_close_failed (h : Host) (design : value) (code : option Z)
      (stdout stderr : jsstring) :
  code <> Some 0%Z ->
  Runway.on_close h design code stdout stderr
  = ret (script_failed code stdout stderr).
Proof.
  intros H. unfold Runway.on_close.
  destruct code as [[| |]|]; try congruence; reflexivity.
Qed.

Lemma apply_change_close_failed (h : Host) (code : option Z)
      (stdout stderr : jsstring) :
  code <> Some 0%Z ->
  ApplyChange.on_close h code stdout stderr
  = ret (python_exited code stdout stderr).
Proof.
  intros H. unfold ApplyChange.on_close.
  destruct code as [[| |]|]; try congruence; reflexivity.
Qed.

Section NonZeroExit.
Variable h : Host.
Variable code : option Z.
Variables out err : list jsstring.
Hypothesis Hw : worker_closes h code out err.
Hypothesis Hc : code <> Some 0%Z.

Lemma runway_reports_exit (req : Request) :
  triple unspawned (Runway.POST h req)
    (fun r st => spawned (trace st) ->
                 r = script_failed code (List.concat out) (List.concat err))
    (fun st => ~ spawned (trace st)).
Proof.
  unfold Runway.POST.
  apply triple_try_catch; [|intros e; apply triple_ret_caught].
  apply triple_request_json; [exact unspawned_not_spawned|intros body _].
  cbv zeta.
  destruct (negb _ || negb _);
    [apply (triple_ret_unspawned _ unspawned_not_spawned)|].
  do 5 run_quiet unspawned_not_spawned.
  after_spawn Hw.
  rewrite runway_close_failed by assumption.
  now apply triple_ret.
Qed.

Lemma showcase_reports_exit (req : Request) :
  triple unspawned (VirtualShowcase.POST h req)
    (fun r st => spawned (trace st) ->
                 r = script_failed code (List.concat out) (List.concat err))
    (fun st => ~ spawned (trace st)).
Proof.
  unfold VirtualShowcase.POST.
  apply triple_try_catch; [|intros e; apply triple_ret_caught].
  apply triple_request_json; [exact unspawned_not_spawned|intros body _].
  cbv zeta.
  destruct (negb _ || negb _);
    [apply (triple_ret_unspawned _ unspawned_not_spawned)|].
  do 5 run_quiet unspawned_not_spawned.
  after_spawn Hw.
  rewrite showcase_close_failed by assumption.
  now apply triple_ret.
Qed.

Lemma flatlay_reports_exit (req : Request) :
  triple unspawned (FlatlayRender.POST h req)
    (fun r st => spawned (trace st) ->
                 r = script_failed code (List.concat out) (List.concat err))
    (fun st => ~ spawned (trace st)).
Proof.
  unfold FlatlayRender.POST.
  apply triple_try_catch; [|intros e; apply triple_ret_caught].
  apply triple_request_json; [exact unspawned_not_spawned|intros body _].
  run_quiet unspawned_not_spawned. cbv zeta.
  destruct (negb _);
    [apply (triple_ret_unspawned _ unspawned_not_spawned)|].
  do 3 run_quiet unspawned_not_spawned.
  after_spawn Hw.
  rewrite flatlay_close_failed by assumption.
  now apply triple_ret.
Qed.

Lemma apply_change_reports_exit (req : Request) :
  triple unspawned (ApplyChange.POST h req)
    (fun r st => spawned (trace st) ->
                 r = python_exited code (List.concat out) (List.concat err))
    (fun st => ~ spawned (trace st)).
Proof.
  unfold ApplyChange.POST.
  apply triple_try_catch; [|intros e; apply triple_ret_caught].
  apply triple_request_json; [exact unspawned_not_spawned|intros body _].
  run_quiet unspawned_not_spawned. cbv zeta.
  destruct (negb _ || negb _);
    [apply (triple_ret_unspawned _ unspawned_not_spawned)|].
  do 7 run_quiet unspawned_not_spawned.
  after_spawn Hw.
  rewrite apply_change_close_failed by assumption.
  now apply triple_ret.
Qed.
End NonZeroExit.

(** C7, as stated, fails for apply-change: the worker exits with code 137
    after printing 2001 code units, and the envelope carries the first 2000
    of them, not the captured output. *)
Lemma apply_change_truncates_output :
  List.length Examples.long_output = 2001%nat
  /\ fst (ApplyChange.POST
            (Posix.host [] (Examples.prints 137 Examples.long_output []) [])
            (Examples.post "apply-change" Examples.change_request)
            (Posix.boot Examples.project))
     = Ok (json_response 500
             [fld "success" (VBool false);
              fld "error" (VStr (lit "Python script exited with code 137"));
              fld "raw_stdout" (VStr (slice0 2000 Examples.long_output));
              fld "raw_stderr" (VStr [])])
  /\ slice0 2000 Examples.long_output <> Examples.long_output.
Proof.
  split; [vm_compute; reflexivity|].
  split; [vm_compute; reflexivity|].
  intros H. apply (f_equal (@List.length N)) in H. vm_compute in H. discriminate H.
Qed.

(** C7, amended. When a handler has spawned its worker and the worker ends
    with a non-zero exit code (or with none, killed by a signal), the
    response has status 500 and [success: false]; flatlay-render,
    virtual-showcase and runway attach the whole captured stdout and stderr
    (the concatenation of every chunk received); apply-change attaches the
    first 2000 code units of stdout and the first 8000 of stderr. *)
Theorem nonzero_exit_is_reported
        (h : Host) (code : option Z) (out err : list jsstring)
        (req : Request) (st : state) :
  worker_closes h code out err ->
  code <> Some 0%Z ->
  unspawned st ->
  let stdout := List.concat out in
  let stderr := List.concat err in
  (spawned (trace (snd (FlatlayRender.POST h req st))) ->
     fst (FlatlayRender.POST h req st) = Ok (script_failed code stdout stderr))
  /\ (spawned (trace (snd (VirtualShowcase.POST h req st))) ->
      fst (VirtualShowcase.POST h req st) = Ok (script_failed code stdout stderr))
  /\ (spawned (trace (snd (Runway.POST h req st))) ->
      fst (Runway.POST h req st) = Ok (script_failed code stdout stderr))
  /\ (spawned (trace (snd (ApplyChange.POST h req st))) ->
      fst (ApplyChange.POST h req st) = Ok (python_exited code stdout stderr))
  /\ (status (script_failed code stdout stderr) = 500
      /\ body_field (script_failed code stdout stderr) "success" = VBool false
      /\ body_field (script_failed code stdout stderr) "raw_stdout" = VStr stdout
      /\ body_field (script_failed code stdout stderr) "raw_stderr" = VStr stderr)
  /\ (status (python_exited code stdout stderr) = 500
      /\ body_field (python_exited code stdout stderr) "success" = VBool false
      /\ body_field (python_exited code stdout stderr) "raw_stdout"
         = VStr (slice0 2000 stdout)
      /\ body_field (python_exited code stdout stderr) "raw_stderr"
         = VStr (slice0 8000 stderr)).
Proof.
  intros Hw Hc Hst stdout stderr.
  split; [apply (@triple_run _ (fun s => spawned (trace s)));
          [now apply flatlay_reports_exit|exact Hst]|].
  split; [apply (@triple_run _ (fun s => spawned (trace s)));
          [now apply showcase_reports_exit|exact Hst]|].
  split; [apply (@triple_run _ (fun s => spawned (trace s)));
          [now apply runway_reports_exit|exact Hst]|].
  split; [apply (@triple_run _ (fun s => spawned (trace s)));
          [now apply apply_change_reports_exit|exact Hst]|].
  split; repeat split.
Qed.

Lemma nonzero_exit_is_reported_witness :
  worker_closes
    (Posix.host [] (Examples.prints 137 (lit "step 1 of 4") (lit "Killed")) [])
    (Some 137%Z) [lit "step 1 of 4"] [lit "Killed"]
  /\ unspawned (Posix.boot Examples.project)
  /\ fst (Runway.POST
            (Posix.host [] (Examples.prints 137 (lit "step 1 of 4") (lit "Killed")) [])
            (Examples.post "runway" (VObj [fld "design" Examples.design_with_id]))
            (Posix.boot Examples.project))
     = Ok (script_failed (Some 137%Z) (lit "step 1 of 4") (lit "Killed")).
Proof.
  assert (Hw : worker_closes
                 (Posix.host [] (Examples.prints 137 (lit "step 1 of 4")
                                                 (lit "Killed")) [])
                 (Some 137%Z) [lit "step 1 of 4"] [lit "Killed"])
    by (intros cmd args disk; reflexivity).
  assert (Hst : unspawned (Posix.boot Examples.project)) by reflexivity.
  split; [exact Hw|]. split; [exact Hst|].
  refine (proj1 (proj2 (proj2
            (nonzero_exit_is_reported
               (Examples.post "runway" (VObj [fld "design" Examples.design_with_id]))
               Hw _ Hst))) _).
  - discriminate.
  - vm_compute. reflexivity.
Defined.

(* ================================================================== *)
(** * A worker that exits with code 0 and leaves no recognisable artifact *)
(* ================================================================== *)

Lemma design_of_body (req : Request) (body : value) :
  req_json req = inl body ->
  get_prop (nullish_or body (VObj [])) "design" = design_of req.
Proof. intros H. unfold design_of. now rewrite H, get_prop_nullish_or. Qed.

Lemma flatlay_close_unparsed (h : Host) (stdout stderr : jsstring) :
  capture1 (regex_match re_flatlay_saved (stdout ++ [c_lf] ++ stderr)) = None ->
  FlatlayRender.on_close h (Some 0%Z) stdout stderr
  = ret (could_not_parse stdout stderr).
Proof. intros H. unfold FlatlayRender.on_close. now rewrite H. Qed.

(** The [close] callbacks of virtual-showcase and runway probe the
    fallback file; the answer depends on what the probe finds. *)
Lemma showcase_close_unparsed (h : Host) (design : value)
      (stdout stderr : jsstring) (P : state -> Prop) :
  stringifiable (get_prop design "design_id") = true ->
  capture1 (VirtualShowcase.saved_match (stdout ++ [c_lf] ++ stderr)) = None ->
  triple P (VirtualShowcase.on_close h design (Some 0%Z) stdout stderr)
    (fun r st =>
       fs st (fallback_file h design "_showcase.png") = None ->
       r = finished_without_artifact
             "Virtual showcase script finished but no image parsed" stdout stderr)
    (fun st => fs st (fallback_file h design "_showcase.png") <> None).
Proof.
  intros Hid Hm st _. unfold VirtualShowcase.on_close. rewrite Hm.
  unfold bind, ToString_in_callback, existsSync. rewrite Hid. cbn [ret].
  fold (fallback_file h design "_showcase.png").
  destruct (fs st (fallback_file h design "_showcase.png")) eqn:Hf.
  - unfold respond_artifact. destruct (normalizeForBrowser _);
      cbn [ret uncaught log fs]; congruence.
  - cbn [ret]. reflexivity.
Qed.

Lemma runway_close_unparsed (h : Host) (design : value)
      (stdout stderr : jsstring) (P : state -> Prop) :
  stringifiable (get_prop design "design_id") = true ->
  capture1 (Runway.saved_match (stdout ++ [c_lf] ++ stderr)) = None ->
  triple P (Runway.on_close h design (Some 0%Z) stdout stderr)
    (fun r st =>
       fs st (fallback_file h design "_runway.mp4") = None ->
       r = finished_without_artifact
             "Runway script finished but no mp4 path found" stdout stderr)
    (fun st => fs st (fallback_file h design "_runway.mp4") <> None).
Proof.
  intros Hid Hm st _. unfold Runway.on_close. rewrite Hm.
  unfold bind, ToString_in_callback, existsSync. rewrite Hid. cbn [ret].
  fold (fallback_file h design "_runway.mp4").
  destruct (fs st (fallback_file h design "_runway.mp4")) eqn:Hf.
  - unfold respond_artifact. destruct (normalizeForBrowser _);
      cbn [ret uncaught log fs]; congruence.
  - cbn [ret]. reflexivity.
Qed.

Section ExitZero.
Variable h : Host.
Variables out err : list jsstring.
Hypothesis Hw : worker_closes h (Some 0%Z) out err.

Lemma flatlay_reports_unparsed (req : Request) :
  capture1 (regex_match re_flatlay_saved (List.concat out ++ [c_lf] ++ List.concat err)) = None ->
  triple unspawned (FlatlayRender.POST h req)
    (fun r st => spawned (trace st) -> r = could_not_parse (List.concat out) (List.concat err))
    (fun st => ~ spawned (trace st)).
Proof.
  intros Hm. unfold FlatlayRender.POST.
  apply triple_try_catch; [|intros e; apply triple_ret_caught].
  apply triple_request_json; [exact unspawned_not_spawned|intros body _].
  run_quiet unspawned_not_spawned. cbv zeta.
  destruct (negb _);
    [apply (triple_ret_unspawned _ unspawned_not_spawned)|].
  do 3 run_quiet unspawned_not_spawned.
  after_spawn Hw.
  rewrite flatlay_close_unparsed by assumption.
  now apply triple_ret.
Qed.

Lemma showcase_reports_unparsed (req : Request) :
  capture1 (VirtualShowcase.saved_match (List.concat out ++ [c_lf] ++ List.concat err)) = None ->
  triple unspawned (VirtualShowcase.POST h req)
    (fun r st =>
       answered_without (fallback_file h (design_of req) "_showcase.png") st ->
       r = finished_without_artifact
             "Virtual showcase script finished but no image parsed"
             (List.concat out) (List.concat err))
    (fun st =>
       ~ answered_without (fallback_file h (design_of req) "_showcase.png") st).
Proof.
  intros Hm. unfold VirtualShowcase.POST.
  apply triple_try_catch; [|intros e; apply triple_ret_caught].
  apply triple_request_json; [apply unspawned_not_answered|intros body Hbody].
  cbv zeta. rewrite (design_of_body req Hbody).
  destruct (negb _ || negb _);
    [apply (triple_ret_unspawned _ (@unspawned_not_answered _))|].
  run_quiet (@unspawned_not_answered
               (fallback_file h (design_of req) "_showcase.png")).
  apply triple_ToString; [apply unspawned_not_answered|intros Hid].
  do 3 run_quiet (@unspawned_not_answered
                    (fallback_file h (design_of req) "_showcase.png")).
  after_spawn Hw.
  eapply triple_consequence;
    [| | |apply (showcase_close_unparsed h _ _ _ (fun _ => True) Hid Hm)].
  - auto.
  - intros r st Hr [_ Hf]. auto.
  - intros st Hf [_ Hf']. contradiction.
Qed.

Lemma runway_reports_unparsed (req : Request) :
  capture1 (Runway.saved_match (List.concat out ++ [c_lf] ++ List.concat err)) = None ->
  triple unspawned (Runway.POST h req)
    (fun r st =>
       answered_without (fallback_file h (design_of req) "_runway.mp4") st ->
       r = finished_without_artifact
             "Runway script finished but no mp4 path found"
             (List.concat out) (List.concat err))
    (fun st =>
       ~ answered_without (fallback_file h (design_of req) "_runway.mp4") st).
Proof.
  intros Hm. unfold Runway.POST.
  apply triple_try_catch; [|intros e; apply triple_ret_caught].
  apply triple_request_json; [apply unspawned_not_answered|intros body Hbody].
  cbv zeta. rewrite (design_of_body req Hbody).
  destruct (negb _ || negb _);
    [apply (triple_ret_unspawned _ (@unspawned_not_answered _))|].
  do 2 run_quiet (@unspawned_not_answered
                    (fallback_file h (design_of req) "_runway.mp4")).
  apply triple_ToString; [apply unspawned_not_answered|intros Hid].
  do 2 run_quiet (@unspawned_not_answered
                    (fallback_file h (design_of req) "_runway.mp4")).
  after_spawn Hw.
  eapply triple_consequence;
    [| | |apply (runway_close_unparsed h _ _ _ (fun _ => True) Hid Hm)].
  - auto.
  - intros r st Hr [_ Hf]. auto.
  - intros st Hf [_ Hf']. contradiction.
Qed.
End ExitZero.

(** C2, as stated, fails for virtual-showcase: the worker exits with code
    0, prints no Saved marker, the fallback file is not on disk, and the
    response says [success: true] with status 200. *)
Lemma showcase_reports_success_without_artifact :
  capture1 (VirtualShowcase.saved_match (lit "Render complete" ++ [c_lf] ++ []))
  = None
  /\ fs (snd (VirtualShowcase.POST
                (Posix.host [] (Examples.prints 0 (lit "Render complete") []) [])
                (Examples.post "virtual-showcase"
                   (VObj [fld "design" Examples.design_with_id]))
                (Posix.boot Examples.project)))
        (lit "/app/output/abc123_showcase.png") = None
  /\ fst (VirtualShowcase.POST
            (Posix.host [] (Examples.prints 0 (lit "Render complete") []) [])
            (Examples.post "virtual-showcase"
               (VObj [fld "design" Examples.design_with_id]))
            (Posix.boot Examples.project))
     = Ok (finished_without_artifact
             "Virtual showcase script finished but no image parsed"
             (lit "Render complete") [])
  /\ body_field (finished_without_artifact
                   "Virtual showcase script finished but no image parsed"
                   (lit "Render complete") []) "success" = VBool true.
Proof. repeat split; vm_compute; reflexivity. Qed.

(** C2, amended. When a handler has spawned its worker, the worker exits
    with code 0 and no Saved marker is recognised in the captured output:
    flatlay-render reports a failure (status 500, success false, the
    captured output attached; it has no fallback file); virtual-showcase
    and runway, when their fallback file is not on disk, answer with status
    200 and [success: true], no artifact URL, a message, and the captured
    output attached. *)
Theorem exit_zero_without_artifact
        (h : Host) (out err : list jsstring) (req : Request) (st : state) :
  worker_closes h (Some 0%Z) out err ->
  unspawned st ->
  let stdout := List.concat out in
  let stderr := List.concat err in
  (capture1 (regex_match re_flatlay_saved (stdout ++ [c_lf] ++ stderr)) = None ->
   spawned (trace (snd (FlatlayRender.POST h req st))) ->
     fst (FlatlayRender.POST h req st) = Ok (could_not_parse stdout stderr))
  /\ (capture1 (VirtualShowcase.saved_match (stdout ++ [c_lf] ++ stderr)) = None ->
      answered_without (fallback_file h (design_of req) "_showcase.png")
                       (snd (VirtualShowcase.POST h req st)) ->
        fst (VirtualShowcase.POST h req st)
        = Ok (finished_without_artifact
                "Virtual showcase script finished but no image parsed"
                stdout stderr))
  /\ (capture1 (Runway.saved_match (stdout ++ [c_lf] ++ stderr)) = None ->
      answered_without (fallback_file h (design_of req) "_runway.mp4")
                       (snd (Runway.POST h req st)) ->
        fst (Runway.POST h req st)
        = Ok (finished_without_artifact
                "Runway script finished but no mp4 path found" stdout stderr))
  /\ (status (could_not_parse stdout stderr) = 500
      /\ body_field (could_not_parse stdout stderr) "success" = VBool false
      /\ body_field (could_not_parse stdout stderr) "raw_stdout" = VStr stdout
      /\ body_field (could_not_parse stdout stderr) "raw_stderr" = VStr stderr)
  /\ (forall message,
        status (finished_without_artifact message stdout stderr) = 200
        /\ body_field (finished_without_artifact message stdout stderr) "success"
           = VBool true
        /\ body_field (finished_without_artifact message stdout stderr) "imageUrl"
           = VUndefined
        /\ body_field (finished_without_artifact message stdout stderr) "videoUrl"
           = VUndefined
        /\ body_field (finished_without_artifact message stdout stderr) "raw_stdout"
           = VStr stdout
        /\ body_field (finished_without_artifact message stdout stderr) "raw_stderr"
           = VStr stderr).
Proof.
  intros Hw Hst stdout stderr.
  split.
  { intros Hm. apply (@triple_run _ (fun s => spawned (trace s)));
      [now apply flatlay_reports_unparsed|exact Hst]. }
  split.
  { intros Hm. apply (@triple_run _ (answered_without _));
      [now apply showcase_reports_unparsed|exact Hst]. }
  split.
  { intros Hm. apply (@triple_run _ (answered_without _));
      [now apply runway_reports_unparsed|exact Hst]. }
  split; [repeat split|]. intros message. repeat split.
Qed.

Lemma exit_zero_without_artifact_witness :
  worker_closes
    (Posix.host [] (Examples.prints 0 (lit "Render complete") []) [])
    (Some 0%Z) [lit "Render complete"] [[]]
  /\ unspawned (Posix.boot Examples.project)
  /\ fst (Runway.POST
            (Posix.host [] (Examples.prints 0 (lit "Render complete") []) [])
            (Examples.post "runway" (VObj [fld "design" Examples.design_with_id]))
            (Posix.boot Examples.project))
     = Ok (finished_without_artifact
             "Runway script finished but no mp4 path found"
             (lit "Render complete") []).
Proof.
  assert (Hw : worker_closes
                 (Posix.host [] (Examples.prints 0 (lit "Render complete") []) [])
                 (Some 0%Z) [lit "Render complete"] [[]])
    by (intros cmd args disk; reflexivity).
  assert (Hst : unspawned (Posix.boot Examples.project)) by reflexivity.
  split; [exact Hw|]. split; [exact Hst|].
  refine (proj1 (proj2 (proj2
            (exit_zero_without_artifact
               (Examples.post "runway" (VObj [fld "design" Examples.design_with_id]))
               Hw Hst))) _ _).
  - vm_compute. reflexivity.
  - split; vm_compute; reflexivity.
Defined.

(* ================================================================== *)
(** * Further properties of the handlers and of the front end *)
(* ================================================================== *)
(* ================================================================== *)
(** * Computations that only look at the file system *)
(* ================================================================== *)

Section Touches.
Variable ok : effect -> bool.

Lemma touches_ret {A} (a : A) : touches ok (ret a).
Proof.
  intros st. cbn. repeat split. exists []. now rewrite app_nil_r.
Qed.

Lemma touches_bind {A B} (m : M A) (k : A -> M B) :
  touches ok m -> (forall a, touches ok (k a)) -> touches ok (bind m k).
Proof.
  intros Hm Hk st. unfold bind. specialize (Hm st).
  destruct (m st) as [[a|e|e] st1]; cbn [snd] in *; try exact Hm.
  destruct Hm as (Hfs & Hclock & t1 & Ht1 & Hok1).
  destruct (Hk a st1) as (Hfs' & Hclock' & t2 & Ht2 & Hok2).
  repeat split; try congruence.
  exists (t1 ++ t2). split.
  - now rewrite Ht2, Ht1, app_assoc.
  - now rewrite forallb_app, Hok1, Hok2.
Qed.

Lemma touches_try_catch {A} (m : M A) (handler : exn -> M A) :
  touches ok m -> (forall e, touches ok (handler e)) ->
  touches ok (try_catch m handler).
Proof.
  intros Hm Hh st. unfold try_catch. specialize (Hm st).
  destruct (m st) as [[a|e|e] st1]; cbn [snd] in *; try exact Hm.
  destruct Hm as (Hfs & Hclock & t1 & Ht1 & Hok1).
  destruct (Hh e st1) as (Hfs' & Hclock' & t2 & Ht2 & Hok2).
  repeat split; try congruence.
  exists (t1 ++ t2). split.
  - now rewrite Ht2, Ht1, app_assoc.
  - now rewrite forallb_app, Hok1, Hok2.
Qed.

Lemma touches_throw {A} (h : Host) (f : failure) : touches ok (@throw h A f).
Proof. intros st. cbn. repeat split. exists []. now rewrite app_nil_r. Qed.

Lemma touches_uncaught {A} (h : Host) (f : failure) :
  touches ok (@uncaught h A f).
Proof. intros st. cbn. repeat split. exists []. now rewrite app_nil_r. Qed.

Lemma touches_ToString (h : Host) (v : value) : touches ok (ToString h v).
Proof.
  unfold ToString. destruct (stringifiable v);
    [apply touches_ret | apply touches_throw].
Qed.

Lemma touches_ToString_in_callback (h : Host) (v : value) :
  touches ok (ToString_in_callback h v).
Proof.
  unfold ToString_in_callback. destruct (stringifiable v);
    [apply touches_ret | apply touches_uncaught].
Qed.

Lemma touches_existsSync (p : jsstring) :
  ok (EExists p) = true -> touches ok (existsSync p).
Proof.
  intros Hp st. cbn. repeat split. exists [EExists p]. cbn. now rewrite Hp.
Qed.

Lemma touches_readFileSync (h : Host) (p : jsstring) :
  ok (EReadFile p) = true -> touches ok (readFileSync h p).
Proof.
  intros Hp st. unfold readFileSync.
  destruct (fs st p) as [[|]|]; cbn; repeat split;
    exists [EReadFile p]; cbn; now rewrite Hp.
Qed.

Lemma touches_parse_json (h : Host) (text : jsstring) :
  touches ok (ApplyChange.parse_json h text).
Proof.
  intros st. unfold ApplyChange.parse_json.
  destruct (JSON_parse h text); cbn; repeat split;
    exists []; now rewrite app_nil_r.
Qed.
End Touches.

Ltac touches_step :=
  match goal with
  | |- touches _ (bind _ _) => apply touches_bind; [|intros ?]
  | |- touches _ (try_catch _ _) => apply touches_try_catch; [|intros ?]
  | |- touches _ (ret _) => apply touches_ret
  | |- touches _ (throw _ _) => apply touches_throw
  | |- touches _ (uncaught _ _) => apply touches_uncaught
  | |- touches _ (ToString _ _) => apply touches_ToString
  | |- touches _ (ToString_in_callback _ _) => apply touches_ToString_in_callback
  | |- touches _ (existsSync _) => apply touches_existsSync; reflexivity
  | |- touches _ (readFileSync _ _) => apply touches_readFileSync; reflexivity
  | |- touches _ (ApplyChange.parse_json _ _) => apply touches_parse_json
  | |- touches _ (if ?b then _ else _) => destruct b
  | |- touches _ (match ?x with _ => _ end) => destruct x
  end.

(* ================================================================== *)
(** * The asset route on the disk *)
(* ================================================================== *)

(** X1. An asset request without a [path] parameter, or with an empty one,
    is answered 400 (Missing path param) in the state the handler started
    in. *)
Theorem asset_missing_path_param (h : Host) (req : Request) (st : state) :
  searchParams_get (req_url req) (lit "path") = None
  \/ searchParams_get (req_url req) (lit "path") = Some [] ->
  Asset.GET h req st = (Ok (Asset.reject 400 "Missing path param"), st).
Proof.
  intros [H|H]; unfold Asset.GET, try_catch; now rewrite H.
Qed.

Lemma asset_missing_path_param_witness :
  Asset.GET (Posix.host [] Examples.absent [])
            (Examples.get_asset "file=output%2Flook.png&path=")
            (Posix.boot Examples.project)
  = (Ok (Asset.reject 400 "Missing path param"), Posix.boot Examples.project).
Proof.
  apply asset_missing_path_param. right. vm_compute. reflexivity.
Defined.

(** X2. The asset route only looks at the disk: whatever the request, it
    leaves the file system and the clock as they are, and the effects it
    adds to the trace are existence probes and reads. *)
Theorem asset_route_only_reads (h : Host) (req : Request) :
  read_only (Asset.GET h req).
Proof.
  unfold read_only, Asset.GET, catch_message. repeat touches_step.
Qed.

(** X3. The asset route always answers: no exception leaves the handler,
    and the status is one of 200, 400, 403, 404 and 500. *)
Theorem asset_always_answers (h : Host) (req : Request) (st : state) :
  exists r,
    fst (Asset.GET h req st) = Ok r
    /\ In (status r) [200; 400; 403; 404; 500].
Proof.
  unfold Asset.GET, try_catch, bind, existsSync, readFileSync, catch_message, ret.
  destruct (searchParams_get _ _) as [[|c rawPath]|].
  1,3: eexists; split; [reflexivity|cbn; auto].
  destruct (includes _ _); [eexists; split; [reflexivity|cbn; auto]|].
  destruct (negb (Asset.allowed _)); [eexists; split; [reflexivity|cbn; auto]|].
  destruct (negb _ && negb _); [eexists; split; [reflexivity|cbn; auto]|].
  set (abs := path_resolve h _).
  destruct (fs st abs) as [[data|]|] eqn:Hfs; cbn [negb fs log]; rewrite ?Hfs;
    eexists; (split; [reflexivity|cbn; auto 6]).
Qed.

(** The asset route past its checks. *)
Lemma asset_GET_servable (h : Host) (req : Request) (st : state)
      (rawPath : jsstring) :
  searchParams_get (req_url req) (lit "path") = Some rawPath ->
  servable h (Asset.requested_of rawPath) ->
  Asset.GET h req st
  = try_catch
      (ex <- existsSync (asset_path h (Asset.requested_of rawPath)) ;;
       if negb ex
       then ret (json_response 404
                   [fld "success" (VBool false);
                    fld "error" (VStr (lit "File not found"));
                    fld "path" (VStr (Asset.requested_of rawPath))])
       else
         data <- readFileSync h (asset_path h (Asset.requested_of rawPath)) ;;
         ret {| status := 200;
                headers :=
                  [(lit "Content-Type",
                    content_type h (asset_path h (Asset.requested_of rawPath)));
                   (lit "Cache-Control", lit "no-cache")];
                payload := RawBody data |})
      (catch_message) st.
Proof.
  intros Hget (Hdots & Hallowed & Hroot). unfold Asset.GET. rewrite Hget.
  destruct rawPath as [|c rawPath]; [discriminate Hallowed|].
  rewrite Hdots, Hallowed. cbn [negb].
  fold (asset_path h (Asset.requested_of (c :: rawPath))).
  replace (negb (startsWith _ _) && negb (str_eqb _ _)) with false;
    [reflexivity|].
  symmetry. destruct Hroot as [Hroot|Hroot].
  - now rewrite Hroot.
  - rewrite Hroot, str_eqb_refl. apply andb_false_r.
Qed.

(** X4. A request for a path that passes the checks of the asset route and
    resolves to a file is answered 200 with the octets of the file, the
    content type [mime] gives the path (application/octet-stream when it
    gives none) and [Cache-Control: no-cache]. *)
Theorem asset_serves_file (h : Host) (req : Request) (st : state)
        (rawPath : jsstring) (data : list N) :
  searchParams_get (req_url req) (lit "path") = Some rawPath ->
  servable h (Asset.requested_of rawPath) ->
  fs st (asset_path h (Asset.requested_of rawPath)) = Some (File data) ->
  fst (Asset.GET h req st)
  = Ok {| status := 200;
          headers :=
            [(lit "Content-Type",
              content_type h (asset_path h (Asset.requested_of rawPath)));
             (lit "Cache-Control", lit "no-cache")];
          payload := RawBody data |}.
Proof.
  intros Hget Hok Hfile. rewrite (@asset_GET_servable h req st rawPath Hget Hok).
  unfold try_catch, bind, existsSync, readFileSync.
  rewrite Hfile. cbn [negb log fs]. now rewrite Hfile.
Qed.

Lemma asset_serves_file_witness :
  fst (Asset.GET (Posix.host [] Examples.absent [])
         (Examples.get_asset "path=renders%5Clook%201.bin")
         (Posix.boot (Examples.project
                        ++ [(lit "/app/renders/look 1.bin", File [1; 2; 3])])))
  = Ok {| status := 200;
          headers := [(lit "Content-Type", lit "application/octet-stream");
                      (lit "Cache-Control", lit "no-cache")];
          payload := RawBody [1; 2; 3] |}.
Proof.
  refine (@asset_serves_file (Posix.host [] Examples.absent [])
            (Examples.get_asset "path=renders%5Clook%201.bin")
            (Posix.boot (Examples.project
                           ++ [(lit "/app/renders/look 1.bin", File [1; 2; 3])]))
            (lit "renders\look 1.bin") [1; 2; 3] _ _ _).
  - vm_compute. reflexivity.
  - repeat split; try (vm_compute; reflexivity). left. vm_compute. reflexivity.
  - vm_compute. reflexivity.
Defined.

(** X5. A request for a path that passes the checks and resolves to
    nothing is answered 404 (File not found) with the requested path, after
    one existence probe and no read. *)
Theorem asset_file_not_found (h : Host) (req : Request) (st : state)
        (rawPath : jsstring) :
  searchParams_get (req_url req) (lit "path") = Some rawPath ->
  servable h (Asset.requested_of rawPath) ->
  fs st (asset_path h (Asset.requested_of rawPath)) = None ->
  Asset.GET h req st
  = (Ok (json_response 404
           [fld "success" (VBool false);
            fld "error" (VStr (lit "File not found"));
            fld "path" (VStr (Asset.requested_of rawPath))]),
     log (EExists (asset_path h (Asset.requested_of rawPath))) st).
Proof.
  intros Hget Hok Hfile. rewrite (@asset_GET_servable h req st rawPath Hget Hok).
  unfold try_catch, bind, existsSync. now rewrite Hfile.
Qed.

Lemma asset_file_not_found_witness :
  Asset.GET (Posix.host [] Examples.absent [])
            (Examples.get_asset "path=%2Fpublic%2Flogo.svg")
            (Posix.boot Examples.project)
  = (Ok (json_response 404
           [fld "success" (VBool false);
            fld "error" (VStr (lit "File not found"));
            fld "path" (VStr (lit "public/logo.svg"))]),
     log (EExists (lit "/app/public/logo.svg")) (Posix.boot Examples.project)).
Proof.
  refine (@asset_file_not_found (Posix.host [] Examples.absent [])
            (Examples.get_asset "path=%2Fpublic%2Flogo.svg")
            (Posix.boot Examples.project)
            (lit "/public/logo.svg") _ _ _).
  - vm_compute. reflexivity.
  - repeat split; try (vm_compute; reflexivity). left. vm_compute. reflexivity.
  - vm_compute. reflexivity.
Defined.

(** X6. A request for a path that passes the checks and resolves to a
    directory (an allowed folder itself, say) is answered 500 with the
    message of the read error: the existence probe succeeds and the read
    fails. *)
Theorem asset_directory_fails (h : Host) (req : Request) (st : state)
        (rawPath : jsstring) :
  searchParams_get (req_url req) (lit "path") = Some rawPath ->
  servable h (Asset.requested_of rawPath) ->
  fs st (asset_path h (Asset.requested_of rawPath)) = Some Dir ->
  fst (Asset.GET h req st)
  = Ok (json_response 500
          [fld "success" (VBool false);
           fld "error"
             (VStr (failure_message h
                      (EISDIR (asset_path h (Asset.requested_of rawPath)))))]).
Proof.
  intros Hget Hok Hfile. rewrite (@asset_GET_servable h req st rawPath Hget Hok).
  unfold try_catch, bind, existsSync, readFileSync.
  rewrite Hfile. cbn [negb log fs]. now rewrite Hfile.
Qed.

Lemma asset_directory_fails_witness :
  fst (Asset.GET (Posix.host [] Examples.absent [])
         (Examples.get_asset "path=output")
         (Posix.boot Examples.project))
  = Ok (json_response 500
          [fld "success" (VBool false);
           fld "error"
             (VStr (lit "EISDIR: illegal operation on a directory, read"))]).
Proof.
  refine (@asset_directory_fails (Posix.host [] Examples.absent [])
            (Examples.get_asset "path=output")
            (Posix.boot Examples.project)
            (lit "output") _ _ _).
  - vm_compute. reflexivity.
  - repeat split; try (vm_compute; reflexivity). left. vm_compute. reflexivity.
  - vm_compute. reflexivity.
Defined.

(** X7. Whatever the request, every path the asset route probes or reads
    is the resolution of a requested path that passes its checks: no [..]
    in it, a first segment among renders, output and public, and a
    resolved path at or under the project root. *)
Theorem asset_probes_are_confined (h : Host) (req : Request) (st : state) :
  exists t,
    trace (snd (Asset.GET h req st)) = trace st ++ t
    /\ Forall (fun e => exists requested,
                 servable h requested
                 /\ (e = EExists (asset_path h requested)
                     \/ e = EReadFile (asset_path h requested))) t.
Proof.
  unfold Asset.GET, try_catch, bind, existsSync, readFileSync, catch_message, ret.
  destruct (searchParams_get _ _) as [[|c rawPath]|].
  1,3: exists []; split; [now rewrite app_nil_r|constructor].
  destruct (includes _ _) eqn:Hdots;
    [exists []; split; [now rewrite app_nil_r|constructor]|].
  destruct (Asset.allowed _) eqn:Hallowed; cbn [negb];
    [|exists []; split; [now rewrite app_nil_r|constructor]].
  fold (asset_path h (Asset.requested_of (c :: rawPath))).
  destruct (negb _ && negb _) eqn:Hroot;
    [exists []; split; [now rewrite app_nil_r|constructor]|].
  assert (Hok : servable h (Asset.requested_of (c :: rawPath))).
  { repeat split; try assumption.
    apply andb_false_iff in Hroot as [Hroot|Hroot];
      apply negb_false_iff in Hroot; [now left|right].
    now apply str_eqb_eq. }
  set (abs := asset_path h _) in *.
  destruct (fs st abs) as [[data|]|] eqn:Hfs; cbn [negb fs log]; rewrite ?Hfs;
    cbn [snd trace log].
  - exists [EExists abs; EReadFile abs]. split; [now rewrite <- app_assoc|].
    repeat constructor; eexists; (split; [exact Hok|auto]).
  - exists [EExists abs; EReadFile abs]. split; [now rewrite <- app_assoc|].
    repeat constructor; eexists; (split; [exact Hok|auto]).
  - exists [EExists abs]. split; [reflexivity|].
    repeat constructor; eexists; (split; [exact Hok|auto]).
Qed.

(* ================================================================== *)
(** * Requests the job handlers cannot read *)
(* ================================================================== *)

(** X8. A request whose body is not JSON is answered 500 by every job
    handler, in the state the handler started in: the render handlers
    report the message of the parse error, apply-change reports the error
    rendered as a string (its name, then its message). *)
Theorem unreadable_body_is_reported (h : Host) (req : Request) (st : state)
        (e : exn) :
  req_json req = inr e ->
  FlatlayRender.POST h req st = (Ok (failed_with (exn_message e)), st)
  /\ VirtualShowcase.POST h req st = (Ok (failed_with (exn_message e)), st)
  /\ Runway.POST h req st = (Ok (failed_with (exn_message e)), st)
  /\ ApplyChange.POST h req st = (Ok (failed_with (exn_to_string e)), st).
Proof.
  intros Hjson.
  unfold FlatlayRender.POST, VirtualShowcase.POST, Runway.POST, ApplyChange.POST,
    try_catch, bind, request_json.
  rewrite Hjson. repeat split.
Qed.

Lemma unreadable_body_is_reported_witness :
  ApplyChange.POST (Posix.host [] Examples.absent [])
    {| req_url := lit "http://localhost:3000/api/apply-change";
       req_json := inr (Exn (lit "SyntaxError") (lit "Unexpected end of JSON input"));
       req_header := fun _ => None |}
    (Posix.boot Examples.project)
  = (Ok (failed_with (lit "SyntaxError: Unexpected end of JSON input")),
     Posix.boot Examples.project).
Proof.
  exact (proj2 (proj2 (proj2
           (@unreadable_body_is_reported (Posix.host [] Examples.absent [])
              {| req_url := lit "http://localhost:3000/api/apply-change";
                 req_json := inr (Exn (lit "SyntaxError")
                                      (lit "Unexpected end of JSON input"));
                 req_header := fun _ => None |}
              (Posix.boot Examples.project) _ eq_refl)))).
Defined.

(** X9. A request whose body is the JSON value [null]: virtual-showcase
    and runway read it as an empty object and answer 400 (missing design);
    flatlay-render reads a property of [null] and answers 500 with the
    message of that TypeError; apply-change destructures [null], which
    raises another TypeError, and answers 500 with that error rendered as a
    string. No handler has any effect. *)
Theorem null_body_by_handler (h : Host) (req : Request) (st : state) :
  req_json req = inl VNull ->
  VirtualShowcase.POST h req st = (Ok missing_design_id, st)
  /\ Runway.POST h req st = (Ok missing_design_id, st)
  /\ FlatlayRender.POST h req st
     = (Ok (failed_with (exn_message (error_of h (NullProperty VNull)))), st)
  /\ ApplyChange.POST h req st
     = (Ok (failed_with (exn_to_string (error_of h (NullDestructure VNull)))),
        st)
  /\ exn_name (error_of h (NullProperty VNull)) = lit "TypeError"
  /\ exn_name (error_of h (NullDestructure VNull)) = lit "TypeError".
Proof.
  intros Hjson.
  unfold FlatlayRender.POST, VirtualShowcase.POST, Runway.POST, ApplyChange.POST,
    try_catch, bind, request_json.
  rewrite Hjson. repeat split.
Qed.

Lemma null_body_by_handler_witness :
  FlatlayRender.POST (Posix.host [] Examples.absent [])
    (Examples.post "flatlay-render" VNull) (Posix.boot Examples.project)
  = (Ok (failed_with (lit "Cannot read properties of null (reading 'design')")),
     Posix.boot Examples.project)
  /\ ApplyChange.POST (Posix.host [] Examples.absent [])
       (Examples.post "apply-change" VNull) (Posix.boot Examples.project)
     = (Ok (failed_with
              (lit "TypeError: Cannot destructure property 'design' of 'body' as it is null.")),
        Posix.boot Examples.project).
Proof.
  split.
  - exact (proj1 (proj2 (proj2
             (@null_body_by_handler (Posix.host [] Examples.absent [])
                (Examples.post "flatlay-render" VNull)
                (Posix.boot Examples.project) eq_refl)))).
  - exact (proj1 (proj2 (proj2 (proj2
             (@null_body_by_handler (Posix.host [] Examples.absent [])
                (Examples.post "apply-change" VNull)
                (Posix.boot Examples.project) eq_refl))))).
Defined.

(* ================================================================== *)
(** * A worker that cannot be started *)
(* ================================================================== *)

Lemma triple_spawn_fails (h : Host) (message : jsstring)
      (cmd : jsstring) (args : list jsstring) (P E : state -> Prop) :
  worker_fails h message ->
  triple P (spawn h cmd args)
         (fun r _ => r = SpawnError message /\ True) E.
Proof.
  intros Hw st _. unfold spawn. specialize (Hw cmd args (fs st)).
  destruct (run_worker h cmd args (fs st)) as [r disk]. now split.
Qed.

Ltac after_failed_spawn Hw :=
  eapply triple_bind; [apply (triple_spawn_fails _ _ _ _ Hw)|intros ?];
  apply triple_assume; intros ->.

Section WorkerFails.
Variable h : Host.
Variable message : jsstring.
Hypothesis Hw : worker_fails h message.

Lemma runway_reports_spawn_error (req : Request) :
  triple unspawned (Runway.POST h req)
    (fun r st => spawned (trace st) ->
                 r = failed_with (lit "spawn error: " ++ message))
    (fun st => ~ spawned (trace st)).
Proof.
  unfold Runway.POST.
  apply triple_try_catch; [|intros e; apply triple_ret_caught].
  apply triple_request_json; [exact unspawned_not_spawned|intros body _].
  cbv zeta.
  destruct (negb _ || negb _);
    [apply (triple_ret_unspawned _ unspawned_not_spawned)|].
  do 5 run_quiet unspawned_not_spawned.
  after_failed_spawn Hw.
  now apply triple_ret.
Qed.

Lemma showcase_reports_spawn_error (req : Request) :
  triple unspawned (VirtualShowcase.POST h req)
    (fun r st => spawned (trace st) ->
                 r = failed_with (lit "spawn error: " ++ message))
    (fun st => ~ spawned (trace st)).
Proof.
  unfold VirtualShowcase.POST.
  apply triple_try_catch; [|intros e; apply triple_ret_caught].
  apply triple_request_json; [exact unspawned_not_spawned|intros body _].
  cbv zeta.
  destruct (negb _ || negb _);
    [apply (triple_ret_unspawned _ unspawned_not_spawned)|].
  do 5 run_quiet unspawned_not_spawned.
  after_failed_spawn Hw.
  now apply triple_ret.
Qed.

Lemma flatlay_reports_spawn_error (req : Request) :
  triple unspawned (FlatlayRender.POST h req)
    (fun r st => spawned (trace st) ->
                 r = failed_with (lit "spawn error: " ++ message))
    (fun st => ~ spawned (trace st)).
Proof.
  unfold FlatlayRender.POST.
  apply triple_try_catch; [|intros e; apply triple_ret_caught].
  apply triple_request_json; [exact unspawned_not_spawned|intros body _].
  run_quiet unspawned_not_spawned. cbv zeta.
  destruct (negb _);
    [apply (triple_ret_unspawned _ unspawned_not_spawned)|].
  do 3 run_quiet unspawned_not_spawned.
  after_failed_spawn Hw.
  now apply triple_ret.
Qed.

Lemma apply_change_reports_spawn_error (req : Request) :
  triple unspawned (ApplyChange.POST h req)
    (fun r st => spawned (trace st) ->
                 r = failed_with (lit "Failed to spawn python: " ++ message))
    (fun st => ~ spawned (trace st)).
Proof.
  unfold ApplyChange.POST.
  apply triple_try_catch; [|intros e; apply triple_ret_caught].
  apply triple_request_json; [exact unspawned_not_spawned|intros body _].
  run_quiet unspawned_not_spawned. cbv zeta.
  destruct (negb _ || negb _);
    [apply (triple_ret_unspawned _ unspawned_not_spawned)|].
  do 7 run_quiet unspawned_not_spawned.
  after_failed_spawn Hw.
  now apply triple_ret.
Qed.
End WorkerFails.

(** X10. When a handler has spawned its worker and the worker cannot be
    started (the [error] event), the response has status 500 and
    [success: false]; the render handlers report
    [spawn error: <message>], apply-change reports
    [Failed to spawn python: <message>]. *)
Theorem spawn_error_is_reported (h : Host) (message : jsstring)
        (req : Request) (st : state) :
  worker_fails h message ->
  unspawned st ->
  (spawned (trace (snd (FlatlayRender.POST h req st))) ->
     fst (FlatlayRender.POST h req st)
     = Ok (failed_with (lit "spawn error: " ++ message)))
  /\ (spawned (trace (snd (VirtualShowcase.POST h req st))) ->
      fst (VirtualShowcase.POST h req st)
      = Ok (failed_with (lit "spawn error: " ++ message)))
  /\ (spawned (trace (snd (Runway.POST h req st))) ->
      fst (Runway.POST h req st)
      = Ok (failed_with (lit "spawn error: " ++ message)))
  /\ (spawned (trace (snd (ApplyChange.POST h req st))) ->
      fst (ApplyChange.POST h req st)
      = Ok (failed_with (lit "Failed to spawn python: " ++ message))).
Proof.
  intros Hw Hst.
  split; [apply (@triple_run _ (fun s => spawned (trace s)));
          [now apply flatlay_reports_spawn_error|exact Hst]|].
  split; [apply (@triple_run _ (fun s => spawned (trace s)));
          [now apply showcase_reports_spawn_error|exact Hst]|].
  split; [apply (@triple_run _ (fun s => spawned (trace s)));
          [now apply runway_reports_spawn_error|exact Hst]|].
  apply (@triple_run _ (fun s => spawned (trace s)));
    [now apply apply_change_reports_spawn_error|exact Hst].
Qed.

Lemma spawn_error_is_reported_witness :
  worker_fails (Posix.host [] Examples.absent []) (lit "spawn python3 ENOENT")
  /\ unspawned (Posix.boot Examples.project)
  /\ fst (ApplyChange.POST (Posix.host [] Examples.absent [])
            (Examples.post "apply-change" Examples.change_request)
            (Posix.boot Examples.project))
     = Ok (failed_with (lit "Failed to spawn python: spawn python3 ENOENT")).
Proof.
  assert (Hw : worker_fails (Posix.host [] Examples.absent [])
                            (lit "spawn python3 ENOENT"))
    by (intros cmd args disk; reflexivity).
  assert (Hst : unspawned (Posix.boot Examples.project)) by reflexivity.
  split; [exact Hw|]. split; [exact Hst|].
  refine (proj2 (proj2 (proj2
            (@spawn_error_is_reported _ _
               (Examples.post "apply-change" Examples.change_request) _
               Hw Hst))) _).
  vm_compute. reflexivity.
Defined.

(* ================================================================== *)
(** * A worker that exits with code 0 and leaves an artifact *)
(* ================================================================== *)

Lemma unspawned_not_answered_on (F : filesystem -> Prop) :
  forall st, unspawned st -> ~ answered_on F st.
Proof. intros st H [Hsp _]. now apply (unspawned_not_spawned H). Qed.

(** A callback that only looks at the disk answers by what is on it. *)
Lemma triple_answered_on {A} (m : M A) (F : filesystem -> Prop) (x : A)
      (P : state -> Prop) :
  (forall st, fs (snd (m st)) = fs st) ->
  (forall st, F (fs st) -> fst (m st) = Ok x) ->
  triple P m (fun r st => answered_on F st -> r = x)
             (fun st => ~ answered_on F st).
Proof.
  intros Hframe Hrun st _. specialize (Hframe st). specialize (Hrun st).
  destruct (m st) as [[a|e|e] st']; cbn [fst snd] in *.
  - intros [_ HF]. rewrite Hframe in HF. specialize (Hrun HF). congruence.
  - intros [_ HF]. rewrite Hframe in HF. specialize (Hrun HF). discriminate.
  - intros [_ HF]. rewrite Hframe in HF. specialize (Hrun HF). discriminate.
Qed.

Lemma read_only_frame {A} (m : M A) :
  read_only m -> forall st, fs (snd (m st)) = fs st.
Proof. intros H st. apply H. Qed.

Lemma read_only_respond_artifact (h : Host) (key : string) (path : jsstring)
      (rest : list (jsstring * value)) :
  read_only (respond_artifact h key path rest).
Proof. unfold read_only, respond_artifact. repeat touches_step. Qed.

Lemma read_only_flatlay_close (h : Host) (code : option Z)
      (stdout stderr : jsstring) :
  read_only (FlatlayRender.on_close h code stdout stderr).
Proof.
  unfold FlatlayRender.on_close. cbv zeta.
  destruct code as [[| |]|]; try apply touches_ret.
  destruct (capture1 _); [apply read_only_respond_artifact|apply touches_ret].
Qed.

Lemma read_only_showcase_close (h : Host) (design : value) (code : option Z)
      (stdout stderr : jsstring) :
  read_only (VirtualShowcase.on_close h design code stdout stderr).
Proof.
  unfold VirtualShowcase.on_close. cbv zeta.
  destruct code as [[| |]|]; try apply touches_ret.
  destruct (capture1 _); [apply read_only_respond_artifact|].
  apply touches_bind; [apply touches_ToString_in_callback|intros id].
  apply touches_bind; [now apply touches_existsSync|intros [|]].
  - apply read_only_respond_artifact.
  - apply touches_ret.
Qed.

Lemma read_only_runway_close (h : Host) (design : value) (code : option Z)
      (stdout stderr : jsstring) :
  read_only (Runway.on_close h design code stdout stderr).
Proof.
  unfold Runway.on_close. cbv zeta.
  destruct code as [[| |]|]; try apply touches_ret.
  destruct (capture1 _); [apply read_only_respond_artifact|].
  apply touches_bind; [apply touches_ToString_in_callback|intros id].
  apply touches_bind; [now apply touches_existsSync|intros [|]].
  - apply read_only_respond_artifact.
  - apply touches_ret.
Qed.

Section ArtifactLeft.
Variable h : Host.
Variables out err : list jsstring.
Hypothesis Hw : worker_closes h (Some 0%Z) out err.

Lemma flatlay_reports_saved (req : Request) (m1 url : jsstring) :
  capture1 (regex_match re_flatlay_saved
              (List.concat out ++ [c_lf] ++ List.concat err)) = Some m1 ->
  normalizeForBrowser (trim m1) = Some url ->
  triple unspawned (FlatlayRender.POST h req)
    (fun r st =>
       spawned (trace st) ->
       r = artifact_response "imageUrl" url
             [fld "message" (VStr (lit "Flatlay render generated successfully"))])
    (fun st => ~ spawned (trace st)).
Proof.
  intros Hm Hurl. unfold FlatlayRender.POST.
  apply triple_try_catch; [|intros e; apply triple_ret_caught].
  apply triple_request_json; [exact unspawned_not_spawned|intros body _].
  run_quiet unspawned_not_spawned. cbv zeta.
  destruct (negb _);
    [apply (triple_ret_unspawned _ unspawned_not_spawned)|].
  do 3 run_quiet unspawned_not_spawned.
  after_spawn Hw.
  unfold FlatlayRender.on_close. cbv zeta. rewrite Hm.
  unfold respond_artifact. rewrite Hurl.
  now apply triple_ret.
Qed.

Lemma showcase_reports_saved (req : Request) (m1 url : jsstring) :
  capture1 (VirtualShowcase.saved_match
              (List.concat out ++ [c_lf] ++ List.concat err)) = Some m1 ->
  normalizeForBrowser (trim m1) = Some url ->
  triple unspawned (VirtualShowcase.POST h req)
    (fun r st =>
       spawned (trace st) ->
       r = artifact_response "imageUrl" url
             [fld "message" (VStr (lit "Virtual showcase generated successfully"))])
    (fun st => ~ spawned (trace st)).
Proof.
  intros Hm Hurl. unfold VirtualShowcase.POST.
  apply triple_try_catch; [|intros e; apply triple_ret_caught].
  apply triple_request_json; [exact unspawned_not_spawned|intros body _].
  cbv zeta.
  destruct (negb _ || negb _);
    [apply (triple_ret_unspawned _ unspawned_not_spawned)|].
  do 5 run_quiet unspawned_not_spawned.
  after_spawn Hw.
  unfold VirtualShowcase.on_close. cbv zeta. rewrite Hm.
  unfold respond_artifact. rewrite Hurl.
  now apply triple_ret.
Qed.

Lemma runway_reports_saved (req : Request) (m1 url : jsstring) :
  capture1 (Runway.saved_match
              (List.concat out ++ [c_lf] ++ List.concat err)) = Some m1 ->
  normalizeForBrowser (trim m1) = Some url ->
  triple unspawned (Runway.POST h req)
    (fun r st =>
       spawned (trace st) ->
       r = artifact_response "videoUrl" url
             [fld "duration" (VStr (lit "6s"));
              fld "message" (VStr (lit "Runway video generated successfully"))])
    (fun st => ~ spawned (trace st)).
Proof.
  intros Hm Hurl. unfold Runway.POST.
  apply triple_try_catch; [|intros e; apply triple_ret_caught].
  apply triple_request_json; [exact unspawned_not_spawned|intros body _].
  cbv zeta.
  destruct (negb _ || negb _);
    [apply (triple_ret_unspawned _ unspawned_not_spawned)|].
  do 5 run_quiet unspawned_not_spawned.
  after_spawn Hw.
  unfold Runway.on_close. cbv zeta. rewrite Hm.
  unfold respond_artifact. rewrite Hurl.
  now apply triple_ret.
Qed.

(** The close callbacks when the conventional artifact is on disk. *)
Lemma showcase_close_fallback (design : value) (stdout stderr url : jsstring)
      (st : state) :
  stringifiable (get_prop design "design_id") = true ->
  capture1 (VirtualShowcase.saved_match (stdout ++ [c_lf] ++ stderr)) = None ->
  normalizeForBrowser (fallback_path h design "_showcase.png") = Some url ->
  on_disk (fs st) (fallback_file h design "_showcase.png") = true ->
  fst (VirtualShowcase.on_close h design (Some 0%Z) stdout stderr st)
  = Ok (artifact_response "imageUrl" url
          [fld "message" (VStr (lit "Virtual showcase generated (fallback)"))]).
Proof.
  intros Hid Hm Hurl Hdisk. unfold VirtualShowcase.on_close. cbv zeta. rewrite Hm.
  unfold bind, ToString_in_callback, existsSync. rewrite Hid. cbn [ret].
  fold (fallback_file h design "_showcase.png").
  unfold on_disk in Hdisk.
  destruct (fs st (fallback_file h design "_showcase.png")); [|discriminate].
  unfold respond_artifact. fold (fallback_path h design "_showcase.png").
  now rewrite Hurl.
Qed.

Lemma runway_close_fallback (design : value) (stdout stderr url : jsstring)
      (st : state) :
  stringifiable (get_prop design "design_id") = true ->
  capture1 (Runway.saved_match (stdout ++ [c_lf] ++ stderr)) = None ->
  normalizeForBrowser (fallback_path h design "_runway.mp4") = Some url ->
  on_disk (fs st) (fallback_file h design "_runway.mp4") = true ->
  fst (Runway.on_close h design (Some 0%Z) stdout stderr st)
  = Ok (artifact_response "videoUrl" url
          [fld "duration" (VStr (lit "6s"));
           fld "message" (VStr (lit "Runway generated (fallback)"))]).
Proof.
  intros Hid Hm Hurl Hdisk. unfold Runway.on_close. cbv zeta. rewrite Hm.
  unfold bind, ToString_in_callback, existsSync. rewrite Hid. cbn [ret].
  fold (fallback_file h design "_runway.mp4").
  unfold on_disk in Hdisk.
  destruct (fs st (fallback_file h design "_runway.mp4")); [|discriminate].
  unfold respond_artifact. fold (fallback_path h design "_runway.mp4").
  now rewrite Hurl.
Qed.

Lemma showcase_reports_fallback (req : Request) (url : jsstring) :
  capture1 (VirtualShowcase.saved_match
              (List.concat out ++ [c_lf] ++ List.concat err)) = None ->
  normalizeForBrowser (fallback_path h (design_of req) "_showcase.png")
  = Some url ->
  triple unspawned (VirtualShowcase.POST h req)
    (fun r st =>
       answered_on
         (fun disk =>
            on_disk disk (fallback_file h (design_of req) "_showcase.png") = true)
         st ->
       r = artifact_response "imageUrl" url
             [fld "message" (VStr (lit "Virtual showcase generated (fallback)"))])
    (fun st =>
       ~ answered_on
           (fun disk =>
              on_disk disk (fallback_file h (design_of req) "_showcase.png") = true)
           st).
Proof.
  intros Hm Hurl. unfold VirtualShowcase.POST.
  apply triple_try_catch; [|intros e; apply triple_ret_caught].
  apply triple_request_json; [apply unspawned_not_answered_on|intros body Hbody].
  cbv zeta. rewrite (design_of_body req Hbody).
  destruct (negb _ || negb _);
    [apply (triple_ret_unspawned _ (@unspawned_not_answered_on _))|].
  run_quiet (@unspawned_not_answered_on
               (fun disk =>
                  on_disk disk
                    (fallback_file h (design_of req) "_showcase.png") = true)).
  apply triple_ToString; [apply unspawned_not_answered_on|intros Hid].
  do 3 run_quiet (@unspawned_not_answered_on
                    (fun disk =>
                       on_disk disk
                         (fallback_file h (design_of req) "_showcase.png") = true)).
  after_spawn Hw.
  apply triple_answered_on.
  - apply read_only_frame, read_only_showcase_close.
  - intros st Hdisk. now apply showcase_close_fallback.
Qed.

Lemma runway_reports_fallback (req : Request) (url : jsstring) :
  capture1 (Runway.saved_match
              (List.concat out ++ [c_lf] ++ List.concat err)) = None ->
  normalizeForBrowser (fallback_path h (design_of req) "_runway.mp4")
  = Some url ->
  triple unspawned (Runway.POST h req)
    (fun r st =>
       answered_on
         (fun disk =>
            on_disk disk (fallback_file h (design_of req) "_runway.mp4") = true)
         st ->
       r = artifact_response "videoUrl" url
             [fld "duration" (VStr (lit "6s"));
              fld "message" (VStr (lit "Runway generated (fallback)"))])
    (fun st =>
       ~ answered_on
           (fun disk =>
              on_disk disk (fallback_file h (design_of req) "_runway.mp4") = true)
           st).
Proof.
  intros Hm Hurl. unfold Runway.POST.
  apply triple_try_catch; [|intros e; apply triple_ret_caught].
  apply triple_request_json; [apply unspawned_not_answered_on|intros body Hbody].
  cbv zeta. rewrite (design_of_body req Hbody).
  destruct (negb _ || negb _);
    [apply (triple_ret_unspawned _ (@unspawned_not_answered_on _))|].
  do 2 run_quiet (@unspawned_not_answered_on
                    (fun disk =>
                       on_disk disk
                         (fallback_file h (design_of req) "_runway.mp4") = true)).
  apply triple_ToString; [apply unspawned_not_answered_on|intros Hid].
  do 2 run_quiet (@unspawned_not_answered_on
                    (fun disk =>
                       on_disk disk
                         (fallback_file h (design_of req) "_runway.mp4") = true)).
  after_spawn Hw.
  apply triple_answered_on.
  - apply read_only_frame, read_only_runway_close.
  - intros st Hdisk. now apply runway_close_fallback.
Qed.
End ArtifactLeft.

(** X11. When a render handler has spawned its worker, the worker exits
    with code 0 and a Saved marker is recognised in the captured output,
    the response is 200 with [success: true] and, as [imageUrl] (for runway
    [videoUrl], with a [duration] of 6s), the client reference of the
    captured path with the white space around it removed. *)
Theorem recognised_artifact_is_referenced
        (h : Host) (out err : list jsstring) (req : Request) (st : state)
        (m1 url : jsstring) :
  worker_closes h (Some 0%Z) out err ->
  unspawned st ->
  normalizeForBrowser (trim m1) = Some url ->
  let combined := List.concat out ++ [c_lf] ++ List.concat err in
  (capture1 (regex_match re_flatlay_saved combined) = Some m1 ->
   spawned (trace (snd (FlatlayRender.POST h req st))) ->
   fst (FlatlayRender.POST h req st)
   = Ok (artifact_response "imageUrl" url
           [fld "message" (VStr (lit "Flatlay render generated successfully"))]))
  /\ (capture1 (VirtualShowcase.saved_match combined) = Some m1 ->
      spawned (trace (snd (VirtualShowcase.POST h req st))) ->
      fst (VirtualShowcase.POST h req st)
      = Ok (artifact_response "imageUrl" url
              [fld "message"
                 (VStr (lit "Virtual showcase generated successfully"))]))
  /\ (capture1 (Runway.saved_match combined) = Some m1 ->
      spawned (trace (snd (Runway.POST h req st))) ->
      fst (Runway.POST h req st)
      = Ok (artifact_response "videoUrl" url
              [fld "duration" (VStr (lit "6s"));
               fld "message" (VStr (lit "Runway video generated successfully"))])).
Proof.
  intros Hw Hst Hurl combined.
  split.
  { intros Hm. apply (@triple_run _ (fun s => spawned (trace s)));
      [exact (@flatlay_reports_saved h out err Hw req m1 url Hm Hurl)|exact Hst]. }
  split.
  { intros Hm. apply (@triple_run _ (fun s => spawned (trace s)));
      [exact (@showcase_reports_saved h out err Hw req m1 url Hm Hurl)|exact Hst]. }
  intros Hm. apply (@triple_run _ (fun s => spawned (trace s)));
    [exact (@runway_reports_saved h out err Hw req m1 url Hm Hurl)|exact Hst].
Qed.

Lemma recognised_artifact_is_referenced_witness :
  fst (Runway.POST
         (Posix.host []
            (Examples.prints 0 (lit "Saved video:  output/abc123_runway.mp4") [])
            [])
         (Examples.post "runway" (VObj [fld "design" Examples.design_with_id]))
         (Posix.boot Examples.project))
  = Ok (artifact_response "videoUrl"
          (lit "/api/assets?path=output%2Fabc123_runway.mp4")
          [fld "duration" (VStr (lit "6s"));
           fld "message" (VStr (lit "Runway video generated successfully"))]).
Proof.
  refine (proj2 (proj2
            (@recognised_artifact_is_referenced
               (Posix.host []
                  (Examples.prints 0
                     (lit "Saved video:  output/abc123_runway.mp4") []) [])
               [lit "Saved video:  output/abc123_runway.mp4"] [[]]
               (Examples.post "runway"
                  (VObj [fld "design" Examples.design_with_id]))
               (Posix.boot Examples.project)
               (lit "output/abc123_runway.mp4")
               (lit "/api/assets?path=output%2Fabc123_runway.mp4")
               _ _ _)) _ _).
  - intros cmd args disk. reflexivity.
  - reflexivity.
  - vm_compute. reflexivity.
  - vm_compute. reflexivity.
  - vm_compute. reflexivity.
Defined.

(** X12. When virtual-showcase or runway has spawned its worker, the
    worker exits with code 0, no Saved marker is recognised, and the
    conventional artifact ([output/<design_id>_showcase.png], for runway
    [output/<design_id>_runway.mp4]) is on disk when the handler answers,
    the response is 200 with [success: true] and the client reference of
    that path. *)
Theorem fallback_artifact_is_referenced
        (h : Host) (out err : list jsstring) (req : Request) (st : state)
        (url : jsstring) :
  worker_closes h (Some 0%Z) out err ->
  unspawned st ->
  let combined := List.concat out ++ [c_lf] ++ List.concat err in
  (capture1 (VirtualShowcase.saved_match combined) = None ->
   normalizeForBrowser (fallback_path h (design_of req) "_showcase.png")
   = Some url ->
   answered_on
     (fun disk =>
        on_disk disk (fallback_file h (design_of req) "_showcase.png") = true)
     (snd (VirtualShowcase.POST h req st)) ->
   fst (VirtualShowcase.POST h req st)
   = Ok (artifact_response "imageUrl" url
           [fld "message" (VStr (lit "Virtual showcase generated (fallback)"))]))
  /\ (capture1 (Runway.saved_match combined) = None ->
      normalizeForBrowser (fallback_path h (design_of req) "_runway.mp4")
      = Some url ->
      answered_on
        (fun disk =>
           on_disk disk (fallback_file h (design_of req) "_runway.mp4") = true)
        (snd (Runway.POST h req st)) ->
      fst (Runway.POST h req st)
      = Ok (artifact_response "videoUrl" url
              [fld "duration" (VStr (lit "6s"));
               fld "message" (VStr (lit "Runway generated (fallback)"))])).
Proof.
  intros Hw Hst combined.
  split.
  - intros Hm Hurl. apply (@triple_run _ (answered_on _));
      [exact (@showcase_reports_fallback h out err Hw req url Hm Hurl)|exact Hst].
  - intros Hm Hurl. apply (@triple_run _ (answered_on _));
      [exact (@runway_reports_fallback h out err Hw req url Hm Hurl)|exact Hst].
Qed.

Lemma fallback_artifact_is_referenced_witness :
  fst (Runway.POST
         (Posix.host []
            (Examples.leaves (lit "done")
               [(lit "/app/output/abc123_runway.mp4", File [0; 0; 0; 32])]) [])
         (Examples.post "runway" (VObj [fld "design" Examples.design_with_id]))
         (Posix.boot Examples.project))
  = Ok (artifact_response "videoUrl"
          (lit "/api/assets?path=output%2Fabc123_runway.mp4")
          [fld "duration" (VStr (lit "6s"));
           fld "message" (VStr (lit "Runway generated (fallback)"))]).
Proof.
  refine (proj2
            (@fallback_artifact_is_referenced
               (Posix.host []
                  (Examples.leaves (lit "done")
                     [(lit "/app/output/abc123_runway.mp4", File [0; 0; 0; 32])])
                  [])
               [lit "done"] []
               (Examples.post "runway"
                  (VObj [fld "design" Examples.design_with_id]))
               (Posix.boot Examples.project)
               (lit "/api/assets?path=output%2Fabc123_runway.mp4")
               _ _) _ _ _).
  - intros cmd args disk. reflexivity.
  - reflexivity.
  - vm_compute. reflexivity.
  - vm_compute. reflexivity.
  - split; vm_compute; reflexivity.
Defined.

(* ================================================================== *)
(** * The close callback of apply-change *)
(* ================================================================== *)

(** The loop over the candidates keeps the first one that is on disk. *)
Lemma first_existing_finds (ps : list jsstring) (st : state) :
  fst (ApplyChange.first_existing ps st) = Ok (find (on_disk (fs st)) ps)
  /\ fs (snd (ApplyChange.first_existing ps st)) = fs st.
Proof.
  revert st. induction ps as [|p ps IH]; intros st; [now split|].
  cbn [ApplyChange.first_existing find]. unfold bind, existsSync, on_disk at 1.
  destruct (fs st p) as [n|] eqn:Hp.
  - now split.
  - destruct (IH (log (EExists p) st)) as [IH1 IH2]. now split.
Qed.

Lemma read_only_first_existing (ps : list jsstring) :
  read_only (ApplyChange.first_existing ps).
Proof.
  induction ps as [|p ps IH]; [apply touches_ret|].
  cbn [ApplyChange.first_existing].
  apply touches_bind; [now apply touches_existsSync|].
  intros [|]; [apply touches_ret|exact IH].
Qed.

Lemma read_only_apply_change_close (h : Host) (code : option Z)
      (stdout stderr : jsstring) :
  read_only (ApplyChange.on_close h code stdout stderr).
Proof.
  unfold ApplyChange.on_close.
  destruct code as [[| |]|]; try apply touches_ret.
  destruct (capture1 _).
  - apply touches_bind; [apply read_only_first_existing|].
    intros [[|c p]|]; try apply touches_ret.
    unfold read_only. repeat touches_step.
  - unfold read_only. repeat touches_step.
Qed.

(** Every candidate is tried and listed: there are at most six. *)
Lemma candidatePaths_all_listed (h : Host) (modifiedPath : jsstring) :
  firstn 10 (ApplyChange.candidatePaths h modifiedPath)
  = ApplyChange.candidatePaths h modifiedPath.
Proof.
  unfold ApplyChange.candidatePaths.
  now destruct (path_isAbsolute h modifiedPath).
Qed.

Section WrittenDesign.
Variable h : Host.
Variables stdout stderr w : jsstring.
Hypothesis Hm : capture1 (regex_match re_wrote stdout) = Some w.

Lemma apply_change_close_found (st : state) (p : jsstring) :
  find (on_disk (fs st)) (ApplyChange.candidatePaths h (strip_quotes (trim w)))
  = Some p ->
  p <> [] ->
  fst (ApplyChange.on_close h (Some 0%Z) stdout stderr st)
  = match fs st p with
    | Some (File data) =>
        match JSON_parse h (utf8_decode data) with
        | inl v =>
            Ok (json_response 200
                  [fld "success" (VBool true);
                   fld "design" v;
                   fld "message" (VStr (lit "Design updated successfully"))])
        | inr e =>
            Ok (json_response 500
                  ([fld "success" (VBool false);
                    fld "error"
                      (VStr (lit "Failed to read/parse updated design file"));
                    fld "details" (VStr (exn_to_string e));
                    fld "finalPath" (VStr p)]
                   ++ ApplyChange.raw_fields stdout stderr))
        end
    | Some Dir =>
        Ok (json_response 500
              ([fld "success" (VBool false);
                fld "error"
                  (VStr (lit "Failed to read/parse updated design file"));
                fld "details" (VStr (exn_to_string (error_of h (EISDIR p))));
                fld "finalPath" (VStr p)]
               ++ ApplyChange.raw_fields stdout stderr))
    | None =>
        Ok (json_response 500
              ([fld "success" (VBool false);
                fld "error"
                  (VStr (lit "Failed to read/parse updated design file"));
                fld "details" (VStr (exn_to_string (error_of h (ENOENT p))));
                fld "finalPath" (VStr p)]
               ++ ApplyChange.raw_fields stdout stderr))
    end.
Proof.
  intros Hfind Hp. unfold ApplyChange.on_close. rewrite Hm.
  unfold bind at 1.
  destruct (first_existing_finds
              (ApplyChange.candidatePaths h (strip_quotes (trim w))) st)
    as [Hfst Hfs].
  destruct (ApplyChange.first_existing _ st) as [r st1].
  cbn [fst snd] in Hfst, Hfs. subst r. rewrite Hfind.
  destruct p as [|c p]; [contradiction|].
  unfold try_catch, bind, readFileSync. rewrite Hfs.
  destruct (fs st (c :: p)) as [[data|]|]; try reflexivity.
  unfold ApplyChange.parse_json.
  now destruct (JSON_parse h (utf8_decode data)).
Qed.

Lemma apply_change_close_nowhere (st : state) :
  find (on_disk (fs st)) (ApplyChange.candidatePaths h (strip_quotes (trim w)))
  = None ->
  fst (ApplyChange.on_close h (Some 0%Z) stdout stderr st)
  = Ok (json_response 500
          ([fld "success" (VBool false);
            fld "error"
              (VStr (lit "Python reported Wrote: path but file not found"));
            fld "reportedPath" (VStr (strip_quotes (trim w)));
            fld "tried"
              (VArr (map VStr (ApplyChange.candidatePaths h
                                 (strip_quotes (trim w)))))]
           ++ ApplyChange.raw_fields stdout stderr)).
Proof.
  intros Hfind. unfold ApplyChange.on_close. rewrite Hm.
  unfold bind at 1.
  destruct (first_existing_finds
              (ApplyChange.candidatePaths h (strip_quotes (trim w))) st)
    as [Hfst Hfs].
  destruct (ApplyChange.first_existing _ st) as [r st1].
  cbn [fst snd] in Hfst, Hfs. subst r. rewrite Hfind.
  now rewrite candidatePaths_all_listed.
Qed.
End WrittenDesign.

Section ChangeApplied.
Variable h : Host.
Variables out err : list jsstring.
Hypothesis Hw : worker_closes h (Some 0%Z) out err.

(** apply-change answers with what its close callback makes of the disk. *)
Lemma apply_change_reports (req : Request) (F : filesystem -> Prop)
      (x : Response) :
  (forall st, F (fs st) ->
     fst (ApplyChange.on_close h (Some 0%Z) (List.concat out) (List.concat err) st)
     = Ok x) ->
  triple unspawned (ApplyChange.POST h req)
    (fun r st => answered_on F st -> r = x)
    (fun st => ~ answered_on F st).
Proof.
  intros Hclose. unfold ApplyChange.POST.
  apply triple_try_catch; [|intros e; apply triple_ret_caught].
  apply triple_request_json; [apply unspawned_not_answered_on|intros body _].
  run_quiet (@unspawned_not_answered_on F). cbv zeta.
  destruct (negb _ || negb _);
    [apply (triple_ret_unspawned _ (@unspawned_not_answered_on _))|].
  do 7 run_quiet (@unspawned_not_answered_on F).
  after_spawn Hw.
  apply triple_answered_on.
  - apply read_only_frame, read_only_apply_change_close.
  - exact Hclose.
Qed.
End ChangeApplied.

(** X13. When apply-change has spawned its worker, the worker exits with
    code 0 and prints a Wrote marker, the handler answers with the design
    parsed from the first candidate path that is on disk (the reported
    path with surrounding white space and one quote at either end removed,
    taken as it is when absolute, then under the project root, [scripts],
    [temp], [output], and the root again with slashes normalised). *)
Theorem apply_change_returns_written_design
        (h : Host) (out err : list jsstring) (req : Request) (st : state)
        (w p : jsstring) (data : list N) (design : value) :
  worker_closes h (Some 0%Z) out err ->
  unspawned st ->
  capture1 (regex_match re_wrote (List.concat out)) = Some w ->
  p <> [] ->
  JSON_parse h (utf8_decode data) = inl design ->
  answered_on
    (fun disk =>
       find (on_disk disk) (ApplyChange.candidatePaths h (strip_quotes (trim w)))
       = Some p
       /\ disk p = Some (File data))
    (snd (ApplyChange.POST h req st)) ->
  fst (ApplyChange.POST h req st)
  = Ok (design_updated "Design updated successfully" design).
Proof.
  intros Hw Hst Hm Hp Hparse.
  apply (@triple_run _ (answered_on _)); [|exact Hst].
  apply (apply_change_reports Hw). intros st1 [Hfind Hfile].
  rewrite (apply_change_close_found h _ (List.concat err) Hm st1 Hfind Hp).
  now rewrite Hfile, Hparse.
Qed.

Lemma apply_change_returns_written_design_witness :
  fst (ApplyChange.POST
         (Posix.host []
            (Examples.leaves (lit "Wrote:  'design_42.json' ")
               [(lit "/app/temp/design_42.json",
                 File (utf8_encode Examples.updated_text))])
            [(Examples.updated_text, Examples.updated_design)])
         (Examples.post "apply-change" Examples.change_request)
         (Posix.boot Examples.project))
  = Ok (design_updated "Design updated successfully" Examples.updated_design).
Proof.
  refine (@apply_change_returns_written_design
            (Posix.host []
               (Examples.leaves (lit "Wrote:  'design_42.json' ")
                  [(lit "/app/temp/design_42.json",
                    File (utf8_encode Examples.updated_text))])
               [(Examples.updated_text, Examples.updated_design)])
            [lit "Wrote:  'design_42.json' "] []
            (Examples.post "apply-change" Examples.change_request)
            (Posix.boot Examples.project)
            (lit "'design_42.json' ") (lit "/app/temp/design_42.json")
            (utf8_encode Examples.updated_text) Examples.updated_design
            _ _ _ _ _ _).
  - intros cmd args disk. reflexivity.
  - reflexivity.
  - vm_compute. reflexivity.
  - discriminate.
  - vm_compute. reflexivity.
  - split; [vm_compute; reflexivity|]. split; vm_compute; reflexivity.
Defined.

(** X14. When apply-change has spawned its worker, the worker exits with
    code 0 and prints a Wrote marker, and the first candidate on disk is a
    file that is not JSON, the handler answers 500 with the parse error
    rendered as a string under [details], the path it read under
    [finalPath], and the first 2000 and 8000 code units of stdout and
    stderr. *)
Theorem apply_change_unreadable_design
        (h : Host) (out err : list jsstring) (req : Request) (st : state)
        (w p : jsstring) (data : list N) (e : exn) :
  worker_closes h (Some 0%Z) out err ->
  unspawned st ->
  capture1 (regex_match re_wrote (List.concat out)) = Some w ->
  p <> [] ->
  JSON_parse h (utf8_decode data) = inr e ->
  answered_on
    (fun disk =>
       find (on_disk disk) (ApplyChange.candidatePaths h (strip_quotes (trim w)))
       = Some p
       /\ disk p = Some (File data))
    (snd (ApplyChange.POST h req st)) ->
  fst (ApplyChange.POST h req st)
  = Ok (design_unreadable (exn_to_string e) p
          (List.concat out) (List.concat err)).
Proof.
  intros Hw Hst Hm Hp Hparse.
  apply (@triple_run _ (answered_on _)); [|exact Hst].
  apply (apply_change_reports Hw). intros st1 [Hfind Hfile].
  rewrite (apply_change_close_found h _ (List.concat err) Hm st1 Hfind Hp).
  now rewrite Hfile, Hparse.
Qed.

Lemma apply_change_unreadable_design_witness :
  fst (ApplyChange.POST
         (Posix.host []
            (Examples.leaves (lit "Wrote: output/design_42.json")
               [(lit "/app/output/design_42.json", File (utf8_encode (lit "{")))])
            [])
         (Examples.post "apply-change" Examples.change_request)
         (Posix.boot Examples.project))
  = Ok (design_unreadable (lit "SyntaxError: Unexpected token")
          (lit "/app/output/design_42.json")
          (lit "Wrote: output/design_42.json") []).
Proof.
  refine (@apply_change_unreadable_design
            (Posix.host []
               (Examples.leaves (lit "Wrote: output/design_42.json")
                  [(lit "/app/output/design_42.json",
                    File (utf8_encode (lit "{")))])
               [])
            [lit "Wrote: output/design_42.json"] []
            (Examples.post "apply-change" Examples.change_request)
            (Posix.boot Examples.project)
            (lit "output/design_42.json") (lit "/app/output/design_42.json")
            (utf8_encode (lit "{"))
            (Exn (lit "SyntaxError") (lit "Unexpected token"))
            _ _ _ _ _ _).
  - intros cmd args disk. reflexivity.
  - reflexivity.
  - vm_compute. reflexivity.
  - discriminate.
  - vm_compute. reflexivity.
  - split; [vm_compute; reflexivity|]. split; vm_compute; reflexivity.
Defined.

(** X15. When apply-change has spawned its worker, the worker exits with
    code 0 and prints a Wrote marker, and no candidate path is on disk,
    the handler answers 500 with the reported path and, under [tried],
    every candidate it probed (five for a relative path, six for an
    absolute one: the list is never cut). *)
Theorem apply_change_missing_file
        (h : Host) (out err : list jsstring) (req : Request) (st : state)
        (w : jsstring) :
  worker_closes h (Some 0%Z) out err ->
  unspawned st ->
  capture1 (regex_match re_wrote (List.concat out)) = Some w ->
  answered_on
    (fun disk =>
       find (on_disk disk) (ApplyChange.candidatePaths h (strip_quotes (trim w)))
       = None)
    (snd (ApplyChange.POST h req st)) ->
  fst (ApplyChange.POST h req st)
  = Ok (written_file_missing (strip_quotes (trim w))
          (ApplyChange.candidatePaths h (strip_quotes (trim w)))
          (List.concat out) (List.concat err))
  /\ (5 <= List.length (ApplyChange.candidatePaths h (strip_quotes (trim w))) <= 6)%nat.
Proof.
  intros Hw Hst Hm Hans. split.
  - revert Hans. apply (@triple_run _ (answered_on _)); [|exact Hst].
    apply (apply_change_reports Hw). intros st1 Hfind.
    now rewrite (apply_change_close_nowhere h _ (List.concat err) Hm st1 Hfind).
  - unfold ApplyChange.candidatePaths.
    destruct (path_isAbsolute h _); cbn; lia.
Qed.

Lemma apply_change_missing_file_witness :
  fst (ApplyChange.POST
         (Posix.host [] (Examples.prints 0 (lit "Wrote: /tmp/design_42.json") []) [])
         (Examples.post "apply-change" Examples.change_request)
         (Posix.boot Examples.project))
  = Ok (written_file_missing (lit "/tmp/design_42.json")
          [lit "/tmp/design_42.json";
           lit "/app/tmp/design_42.json";
           lit "/app/scripts/tmp/design_42.json";
           lit "/app/temp/tmp/design_42.json";
           lit "/app/output/tmp/design_42.json";
           lit "/app/tmp/design_42.json"]
          (lit "Wrote: /tmp/design_42.json") []).
Proof.
  refine (proj1
            (@apply_change_missing_file
               (Posix.host []
                  (Examples.prints 0 (lit "Wrote: /tmp/design_42.json") []) [])
               [lit "Wrote: /tmp/design_42.json"] [[]]
               (Examples.post "apply-change" Examples.change_request)
               (Posix.boot Examples.project)
               (lit "/tmp/design_42.json") _ _ _ _)).
  - intros cmd args disk. reflexivity.
  - reflexivity.
  - vm_compute. reflexivity.
  - split; vm_compute; reflexivity.
Defined.

(** X16. When apply-change has spawned its worker, the worker exits with
    code 0 and prints no Wrote marker, the handler parses the trimmed
    stdout: it answers with the design when that is JSON, and with 500
    (and the first 2000 and 8000 code units of stdout and stderr) when it
    is not. *)
Theorem apply_change_design_from_stdout
        (h : Host) (out err : list jsstring) (req : Request) (st : state) :
  worker_closes h (Some 0%Z) out err ->
  unspawned st ->
  capture1 (regex_match re_wrote (List.concat out)) = None ->
  spawned (trace (snd (ApplyChange.POST h req st))) ->
  fst (ApplyChange.POST h req st)
  = Ok (match JSON_parse h (trim (List.concat out)) with
        | inl design => design_updated "Design updated from stdout" design
        | inr _ => no_design_in_output (List.concat out) (List.concat err)
        end).
Proof.
  intros Hw Hst Hm Hsp.
  apply (@triple_run _ (answered_on (fun _ => True))); [|exact Hst|now split].
  apply (apply_change_reports Hw). intros st1 _.
  unfold ApplyChange.on_close. rewrite Hm.
  unfold try_catch, bind, ApplyChange.parse_json.
  now destruct (JSON_parse h (trim (List.concat out))).
Qed.

Lemma apply_change_design_from_stdout_witness :
  fst (ApplyChange.POST
         (Posix.host []
            (Examples.prints 0 ([c_lf] ++ Examples.updated_text ++ [c_lf]) [])
            [(Examples.updated_text, Examples.updated_design)])
         (Examples.post "apply-change" Examples.change_request)
         (Posix.boot Examples.project))
  = Ok (design_updated "Design updated from stdout" Examples.updated_design).
Proof.
  refine (@apply_change_design_from_stdout
            (Posix.host []
               (Examples.prints 0 ([c_lf] ++ Examples.updated_text ++ [c_lf]) [])
               [(Examples.updated_text, Examples.updated_design)])
            [[c_lf] ++ Examples.updated_text ++ [c_lf]] [[]]
            (Examples.post "apply-change" Examples.change_request)
            (Posix.boot Examples.project) _ _ _ _).
  - intros cmd args disk. reflexivity.
  - reflexivity.
  - vm_compute. reflexivity.
  - vm_compute. reflexivity.
Defined.

(* ================================================================== *)
(** * The effects of a job request, in order *)
(* ================================================================== *)

Section Emits.
Variable ok : effect -> bool.

Lemma emits_ret {A} (a : A) : emits ok (ret a).
Proof. intros st. exists []. cbn. now rewrite app_nil_r. Qed.

Lemma emits_bind {A B} (m : M A) (k : A -> M B) :
  emits ok m -> (forall a, emits ok (k a)) -> emits ok (bind m k).
Proof.
  intros Hm Hk st. unfold bind. specialize (Hm st).
  destruct (m st) as [[a|e|e] st1]; cbn [snd] in *; try exact Hm.
  destruct Hm as (t1 & Ht1 & Hok1). destruct (Hk a st1) as (t2 & Ht2 & Hok2).
  exists (t1 ++ t2). split.
  - now rewrite Ht2, Ht1, app_assoc.
  - now rewrite forallb_app, Hok1, Hok2.
Qed.

Lemma emits_try_catch {A} (m : M A) (handler : exn -> M A) :
  emits ok m -> (forall e, emits ok (handler e)) -> emits ok (try_catch m handler).
Proof.
  intros Hm Hh st. unfold try_catch. specialize (Hm st).
  destruct (m st) as [[a|e|e] st1]; cbn [snd] in *; try exact Hm.
  destruct Hm as (t1 & Ht1 & Hok1). destruct (Hh e st1) as (t2 & Ht2 & Hok2).
  exists (t1 ++ t2). split.
  - now rewrite Ht2, Ht1, app_assoc.
  - now rewrite forallb_app, Hok1, Hok2.
Qed.

Lemma emits_throw {A} (h : Host) (f : failure) : emits ok (@throw h A f).
Proof. intros st. exists []. cbn. now rewrite app_nil_r. Qed.

Lemma emits_Date_now (h : Host) : emits ok (Date_now h).
Proof. intros st. exists []. cbn. now rewrite app_nil_r. Qed.

Lemma emits_existsSync (p : jsstring) :
  ok (EExists p) = true -> emits ok (existsSync p).
Proof. intros Hp st. exists [EExists p]. cbn. now rewrite Hp. Qed.

Lemma emits_mkdir (h : Host) (p : jsstring) :
  ok (EMkdir p) = true -> emits ok (mkdir h p).
Proof.
  intros Hp st. exists [EMkdir p]. unfold mkdir.
  destruct (fs st p) as [[|]|]; cbn; now rewrite Hp.
Qed.

Lemma emits_writeFile (h : Host) (p text : jsstring) :
  ok (EWriteFile p (utf8_encode text)) = true -> emits ok (writeFile h p text).
Proof.
  intros Hp st. exists [EWriteFile p (utf8_encode text)]. unfold writeFile.
  destruct (fs st p) as [[|]|]; destruct (fs st (path_dirname h p)) as [[|]|];
    cbn; now rewrite Hp.
Qed.

Lemma touches_emits {A} (m : M A) : touches ok m -> emits ok m.
Proof. intros H st. apply H. Qed.
End Emits.

Lemma emits_ensureTempDir (h : Host) : emits not_spawn (ensureTempDir h).
Proof.
  unfold ensureTempDir.
  apply emits_bind; [now apply emits_existsSync|intros ex].
  apply emits_bind; [|intros _; apply emits_ret].
  destruct (negb ex); [now apply emits_mkdir|apply emits_ret].
Qed.

Lemma touches_reference_url (ok : effect -> bool) (h : Host) (req : Request)
      (reference : value) :
  touches ok (reference_url h req reference).
Proof. unfold reference_url. repeat touches_step. Qed.

Lemma touches_python_showcase (h : Host) :
  touches not_spawn (VirtualShowcase.getPythonExecutable h).
Proof. unfold VirtualShowcase.getPythonExecutable. repeat touches_step. Qed.

Lemma touches_python_runway (h : Host) :
  touches not_spawn (Runway.getPythonExecutable h).
Proof. unfold Runway.getPythonExecutable. repeat touches_step. Qed.

Lemma touches_weaken {A} (ok ok' : effect -> bool) (m : M A) :
  (forall e, ok e = true -> ok' e = true) -> touches ok m -> touches ok' m.
Proof.
  intros Hle Hm st. destruct (Hm st) as (Hfs & Hclock & t & Ht & Hok).
  repeat split; try assumption. exists t. split; [exact Ht|].
  rewrite forallb_forall in *. auto.
Qed.

Lemma is_read_not_spawn (e : effect) : is_read e = true -> not_spawn e = true.
Proof. now destruct e. Qed.

Section JobEffects.
Variable h : Host.
Variable T0 : list effect.

Lemma preparing_emits {A} (m : M A) :
  emits not_spawn m ->
  triple (preparing T0) m (fun _ => preparing T0) (preparing T0).
Proof.
  intros Hm st (before & Ht & Hok). destruct (Hm st) as (t & Ht' & Hok').
  assert (preparing T0 (snd (m st))).
  { exists (before ++ t). split.
    - now rewrite Ht', Ht, app_assoc.
    - now rewrite forallb_app, Hok, Hok'. }
  now destruct (m st) as [[a|e|e] st'].
Qed.

Lemma written_preparing (file : jsstring) (content : list N) (st : state) :
  written T0 file content st -> preparing T0 st.
Proof. intros (before & Ht & Hok & _). now exists before. Qed.

Lemma written_touches {A} (file : jsstring) (content : list N) (m : M A) :
  touches not_spawn m ->
  triple (written T0 file content) m (fun _ => written T0 file content)
         (written T0 file content).
Proof.
  intros Hm st (before & Ht & Hok & Hin & Hfile).
  destruct (Hm st) as (Hfs & _ & t & Ht' & Hok').
  assert (written T0 file content (snd (m st))).
  { exists (before ++ t). repeat split.
    - now rewrite Ht', Ht, app_assoc.
    - now rewrite forallb_app, Hok, Hok'.
    - apply in_or_app. now left.
    - now rewrite Hfs. }
  now destruct (m st) as [[a|e|e] st'].
Qed.

Lemma written_writeFile (file text : jsstring) :
  triple (preparing T0) (writeFile h file text)
         (fun _ => written T0 file (utf8_encode text)) (preparing T0).
Proof.
  intros st (before & Ht & Hok). unfold writeFile.
  assert (Hprep : preparing T0 (log (EWriteFile file (utf8_encode text)) st)).
  { exists (before ++ [EWriteFile file (utf8_encode text)]). split.
    - cbn. now rewrite Ht, app_assoc.
    - now rewrite forallb_app, Hok. }
  destruct (fs st file) as [[data|]|];
    destruct (fs st (path_dirname h file)) as [[data'|]|]; try exact Hprep.
  all: exists (before ++ [EWriteFile file (utf8_encode text)]); cbn [trace fs log];
    repeat split;
    [now rewrite Ht, app_assoc|now rewrite forallb_app, Hok
    |apply in_or_app; right; now left
    |unfold fs_set; now rewrite str_eqb_refl].
Qed.

Lemma settled_preparing (file : jsstring) (content : list N)
      (good : list jsstring -> Prop) (st : state) :
  preparing T0 st -> settled h T0 file content good st.
Proof. intros (before & Ht & Hok). exists before. auto. Qed.

Lemma settled_written (file : jsstring) (content : list N)
      (good : list jsstring -> Prop) (st : state) :
  written T0 file content st -> settled h T0 file content good st.
Proof. intros H. now apply settled_preparing, written_preparing with file content. Qed.

Lemma settled_running (file : jsstring) (content : list N)
      (good : list jsstring -> Prop) (st : state) :
  running h T0 file content good st -> settled h T0 file content good st.
Proof. intros (t & Ht & Hjob). exists t. auto. Qed.

Lemma running_spawn (file : jsstring) (content : list N)
      (good : list jsstring -> Prop) (cmd : jsstring) (args : list jsstring) :
  good args ->
  triple (written T0 file content) (spawn h cmd args)
         (fun _ => running h T0 file content good) (fun _ => False).
Proof.
  intros Hgood st (before & Ht & Hok & Hin & Hfile). unfold spawn.
  destruct (run_worker h cmd args (fs st)) as [r disk'] eqn:Hrun.
  exists (before ++ [ESpawn cmd args]). split.
  - cbn. now rewrite Ht, app_assoc.
  - exists before, cmd, args, [], (fs st). repeat split; try assumption.
    cbn. now rewrite Hrun.
Qed.

Lemma running_touches {A} (file : jsstring) (content : list N)
      (good : list jsstring -> Prop) (m : M A) :
  read_only m ->
  triple (running h T0 file content good) m
         (fun _ => running h T0 file content good)
         (running h T0 file content good).
Proof.
  intros Hm st (t & Ht & before & cmd & args & after & disk
                & Hshape & Hok & Hin & Hdisk & Hgood & Hfinal & Hafter).
  destruct (Hm st) as (Hfs & _ & t' & Ht' & Hok').
  assert (running h T0 file content good (snd (m st))).
  { exists (t ++ t'). split; [now rewrite Ht', Ht, app_assoc|].
    exists before, cmd, args, (after ++ t'), disk. repeat split; try assumption.
    - now rewrite Hshape, <- app_assoc.
    - now rewrite Hfs.
    - now rewrite forallb_app, Hafter, Hok'. }
  now destruct (m st) as [[a|e|e] st'].
Qed.
End JobEffects.

Lemma triple_body {A} (req : Request) (k : value -> M A)
      (P : state -> Prop) (Q : A -> state -> Prop) (E : state -> Prop) :
  (forall st, P st -> E st) ->
  (forall body, req_json req = inl body -> triple P (k body) Q E) ->
  triple P (bind (request_json req) k) Q E.
Proof.
  intros HE Hk st HP. unfold bind, request_json.
  destruct (req_json req) as [body|e] eqn:Hjson.
  - now apply (Hk body).
  - now apply HE.
Qed.

Lemma triple_converted {A} (h : Host) (v : value) (k : jsstring -> M A)
      (P : state -> Prop) (Q : A -> state -> Prop) (E : state -> Prop) :
  (forall st, P st -> E st) ->
  (stringifiable v = true -> triple P (k (to_string h v)) Q E) ->
  triple P (bind (ToString h v) k) Q E.
Proof.
  intros HE Hk st HP. unfold bind, ToString.
  destruct (stringifiable v).
  - now apply Hk.
  - now apply HE.
Qed.

Lemma triple_exn {A} (P : state -> Prop) (m : M A) (Q : A -> state -> Prop)
      (E E' : state -> Prop) :
  (forall st, E st -> E' st) -> triple P m Q E -> triple P m Q E'.
Proof. intros HE. apply triple_consequence; auto. Qed.

Lemma triple_settle {A} (P : state -> Prop) (m : M A) (S : state -> Prop) :
  (forall st, P st -> S st) ->
  triple P m (fun _ => P) P -> triple P m (fun _ => S) S.
Proof. intros HS. apply triple_consequence; auto. Qed.

Section RenderJob.
Variable h : Host.
Variable T0 : list effect.

Lemma showcase_settles (req : Request) :
  triple (preparing T0) (VirtualShowcase.POST h req)
    (fun _ => settled h T0 (design_file h (design_of req))
                (utf8_encode (JSON_stringify h true (design_of req)))
                (render_args h "agent3_virtual_showcase_demo.py"
                   (design_file h (design_of req))))
    (settled h T0 (design_file h (design_of req))
       (utf8_encode (JSON_stringify h true (design_of req)))
       (render_args h "agent3_virtual_showcase_demo.py"
          (design_file h (design_of req)))).
Proof.
  unfold VirtualShowcase.POST.
  apply triple_try_catch; [|intros e; now apply triple_ret].
  apply triple_body; [apply settled_preparing|intros body Hbody].
  cbv zeta. rewrite (design_of_body req Hbody).
  fold (design_file h (design_of req)).
  set (file := design_file h (design_of req)).
  set (content := utf8_encode (JSON_stringify h true (design_of req))).
  destruct (negb _ || negb _);
    [apply triple_ret; apply settled_preparing|].
  apply triple_bind with (Q1 := fun _ => preparing T0);
    [apply triple_exn with (E := preparing T0); [apply settled_preparing|];
     apply preparing_emits, emits_ensureTempDir|intros ?].
  apply triple_converted; [apply settled_preparing|intros Hid].
  apply triple_bind with (Q1 := fun _ => written T0 file content);
    [apply triple_exn with (E := preparing T0); [apply settled_preparing|];
     apply written_writeFile|intros ?].
  apply triple_bind with (Q1 := fun _ => written T0 file content);
    [apply triple_exn with (E := written T0 file content);
       [apply settled_written|];
     apply written_touches, touches_reference_url|intros referenceUrl].
  apply triple_bind with (Q1 := fun _ => written T0 file content);
    [apply triple_exn with (E := written T0 file content);
       [apply settled_written|];
     apply written_touches, touches_python_showcase|intros python].
  apply triple_bind
    with (Q1 := fun _ => running h T0 file content
                           (render_args h "agent3_virtual_showcase_demo.py" file));
    [apply triple_exn with (E := fun _ => False); [contradiction|];
     apply running_spawn; eexists; reflexivity|intros r].
  apply triple_settle; [apply settled_running|].
  destruct r as [msg|code out err].
  - now apply triple_ret.
  - apply running_touches, read_only_showcase_close.
Qed.

Lemma runway_settles (req : Request) :
  triple (preparing T0) (Runway.POST h req)
    (fun _ => settled h T0 (design_file h (design_of req))
                (utf8_encode (JSON_stringify h true (design_of req)))
                (render_args h "agent3_runway_demo.py"
                   (design_file h (design_of req))))
    (settled h T0 (design_file h (design_of req))
       (utf8_encode (JSON_stringify h true (design_of req)))
       (render_args h "agent3_runway_demo.py"
          (design_file h (design_of req)))).
Proof.
  unfold Runway.POST.
  apply triple_try_catch; [|intros e; now apply triple_ret].
  apply triple_body; [apply settled_preparing|intros body Hbody].
  cbv zeta. rewrite (design_of_body req Hbody).
  fold (design_file h (design_of req)).
  set (file := design_file h (design_of req)).
  set (content := utf8_encode (JSON_stringify h true (design_of req))).
  destruct (negb _ || negb _);
    [apply triple_ret; apply settled_preparing|].
  apply triple_bind with (Q1 := fun _ => preparing T0);
    [apply triple_exn with (E := preparing T0); [apply settled_preparing|];
     apply preparing_emits, touches_emits, touches_reference_url
    |intros referenceUrl].
  apply triple_bind with (Q1 := fun _ => preparing T0);
    [apply triple_exn with (E := preparing T0); [apply settled_preparing|];
     apply preparing_emits, emits_ensureTempDir|intros ?].
  apply triple_converted; [apply settled_preparing|intros Hid].
  apply triple_bind with (Q1 := fun _ => written T0 file content);
    [apply triple_exn with (E := preparing T0); [apply settled_preparing|];
     apply written_writeFile|intros ?].
  apply triple_bind with (Q1 := fun _ => written T0 file content);
    [apply triple_exn with (E := written T0 file content);
       [apply settled_written|];
     apply written_touches, touches_python_runway|intros python].
  apply triple_bind
    with (Q1 := fun _ => running h T0 file content
                           (render_args h "agent3_runway_demo.py" file));
    [apply triple_exn with (E := fun _ => False); [contradiction|];
     apply running_spawn; eexists; reflexivity|intros r].
  apply triple_settle; [apply settled_running|].
  destruct r as [msg|code out err].
  - now apply triple_ret.
  - apply running_touches, read_only_runway_close.
Qed.
End RenderJob.

Lemma preparing_start (st : state) : preparing (trace st) st.
Proof. exists []. now rewrite app_nil_r. Qed.

Lemma triple_final {A} (P : state -> Prop) (m : M A) (S : state -> Prop)
      (st : state) :
  triple P m (fun _ => S) S -> P st -> S (snd (m st)).
Proof.
  intros Hm HP. specialize (Hm st HP). now destruct (m st) as [[a|e|e] st'].
Qed.

(** What a render request does before it spawns its worker. *)
Lemma until_spawn_app (ok : effect -> bool) (t1 t2 : list effect) :
  forallb ok (until_spawn t1) = true ->
  forallb ok (until_spawn t2) = true ->
  forallb ok (until_spawn (t1 ++ t2)) = true.
Proof.
  intros H1 H2. induction t1 as [|e t1 IH]; [exact H2|].
  cbn [app until_spawn] in *. destruct (is_spawn e); [reflexivity|].
  cbn [forallb] in *. apply andb_true_iff in H1 as [He H1].
  now rewrite He, IH.
Qed.

Lemma until_spawn_all (ok : effect -> bool) (t : list effect) :
  forallb ok t = true -> forallb ok (until_spawn t) = true.
Proof.
  induction t as [|e t IH]; [reflexivity|]. cbn [forallb until_spawn].
  intros H. apply andb_true_iff in H as [He H].
  destruct (is_spawn e); [reflexivity|]. cbn [forallb]. now rewrite He, IH.
Qed.

Section Stages.
Variable h : Host.
Variable ok : effect -> bool.

Lemma emits_stages {A} (m : M A) : emits ok m -> stages ok m.
Proof.
  intros Hm st. destruct (Hm st) as (t & Ht & Hok).
  exists t. split; [exact Ht|now apply until_spawn_all].
Qed.

Lemma touches_stages {A} (m : M A) : touches ok m -> stages ok m.
Proof. intros Hm. now apply emits_stages, touches_emits. Qed.

Lemma stages_ret {A} (a : A) : stages ok (ret a).
Proof. apply emits_stages, emits_ret. Qed.

Lemma stages_bind {A B} (m : M A) (k : A -> M B) :
  stages ok m -> (forall a, stages ok (k a)) -> stages ok (bind m k).
Proof.
  intros Hm Hk st. unfold bind. specialize (Hm st).
  destruct (m st) as [[a|e|e] st1]; cbn [snd] in *; try exact Hm.
  destruct Hm as (t1 & Ht1 & Hok1). destruct (Hk a st1) as (t2 & Ht2 & Hok2).
  exists (t1 ++ t2). split.
  - now rewrite Ht2, Ht1, app_assoc.
  - now apply until_spawn_app.
Qed.

Lemma stages_try_catch {A} (m : M A) (handler : exn -> M A) :
  stages ok m -> (forall e, stages ok (handler e)) ->
  stages ok (try_catch m handler).
Proof.
  intros Hm Hh st. unfold try_catch. specialize (Hm st).
  destruct (m st) as [[a|e|e] st1]; cbn [snd] in *; try exact Hm.
  destruct Hm as (t1 & Ht1 & Hok1). destruct (Hh e st1) as (t2 & Ht2 & Hok2).
  exists (t1 ++ t2). split.
  - now rewrite Ht2, Ht1, app_assoc.
  - now apply until_spawn_app.
Qed.

Lemma stages_body {A} (req : Request) (k : value -> M A) :
  (forall body, req_json req = inl body -> stages ok (k body)) ->
  stages ok (bind (request_json req) k).
Proof.
  intros Hk st. unfold bind, request_json.
  destruct (req_json req) as [body|e] eqn:Hjson.
  - now apply (Hk body).
  - exists []. cbn. now rewrite app_nil_r.
Qed.

Lemma stages_converted {A} (v : value) (k : jsstring -> M A) :
  (stringifiable v = true -> stages ok (k (to_string h v))) ->
  stages ok (bind (ToString h v) k).
Proof.
  intros Hk st. unfold bind, ToString.
  destruct (stringifiable v).
  - now apply Hk.
  - exists []. cbn. now rewrite app_nil_r.
Qed.

Lemma stages_spawn (cmd : jsstring) (args : list jsstring) :
  stages ok (spawn h cmd args).
Proof.
  intros st. unfold spawn.
  destruct (run_worker h cmd args (fs st)) as [r disk].
  now exists [ESpawn cmd args].
Qed.

Hypothesis probes : forall p, ok (EExists p) = true.

Lemma probes_respond_artifact key path rest :
  touches ok (respond_artifact h key path rest).
Proof.
  unfold respond_artifact.
  destruct (normalizeForBrowser path); [apply touches_ret|apply touches_uncaught].
Qed.

Lemma probes_showcase_close design code stdout stderr :
  touches ok (VirtualShowcase.on_close h design code stdout stderr).
Proof.
  unfold VirtualShowcase.on_close. cbv zeta.
  destruct code as [[| |]|]; try apply touches_ret.
  destruct (capture1 _); [apply probes_respond_artifact|].
  apply touches_bind; [apply touches_ToString_in_callback|intros id].
  apply touches_bind; [apply touches_existsSync, probes|intros [|]].
  - apply probes_respond_artifact.
  - apply touches_ret.
Qed.

Lemma probes_runway_close design code stdout stderr :
  touches ok (Runway.on_close h design code stdout stderr).
Proof.
  unfold Runway.on_close. cbv zeta.
  destruct code as [[| |]|]; try apply touches_ret.
  destruct (capture1 _); [apply probes_respond_artifact|].
  apply touches_bind; [apply touches_ToString_in_callback|intros id].
  apply touches_bind; [apply touches_existsSync, probes|intros [|]].
  - apply probes_respond_artifact.
  - apply touches_ret.
Qed.

Lemma probes_python (m : M jsstring) :
  m = VirtualShowcase.getPythonExecutable h
  \/ m = Runway.getPythonExecutable h ->
  touches ok m.
Proof.
  intros [-> | ->];
    unfold VirtualShowcase.getPythonExecutable, Runway.getPythonExecutable;
    (apply touches_bind; [apply touches_existsSync, probes|intros [|]];
     [apply touches_ret|]);
    (apply touches_bind; [apply touches_existsSync, probes|intros [|]];
     [apply touches_ret|]);
    destruct (env_truthy h _); apply touches_ret.
Qed.

Hypothesis makes_temp : ok (EMkdir (path_join h [cwd h; lit "temp"])) = true.

Lemma stages_ensureTempDir : stages ok (ensureTempDir h).
Proof.
  apply emits_stages. unfold ensureTempDir.
  apply emits_bind; [apply emits_existsSync, probes|intros ex].
  apply emits_bind; [|intros _; apply emits_ret].
  destruct (negb ex); [now apply emits_mkdir|apply emits_ret].
Qed.
End Stages.

Section RenderStaging.
Variable h : Host.
Variable req : Request.

Lemma staging_write (file : jsstring) (content : list N) :
  staging h file content (EWriteFile file content) = true.
Proof. cbn. now rewrite !str_eqb_refl. Qed.

Lemma staging_temp (file : jsstring) (content : list N) :
  staging h file content (EMkdir (path_join h [cwd h; lit "temp"])) = true.
Proof. cbn. apply str_eqb_refl. Qed.

Lemma showcase_stages :
  stages (staging h (design_file h (design_of req))
                  (utf8_encode (JSON_stringify h true (design_of req))))
         (VirtualShowcase.POST h req).
Proof.
  unfold VirtualShowcase.POST.
  apply stages_try_catch; [|intros e; apply stages_ret].
  apply stages_body; intros body Hbody.
  cbv zeta. rewrite (design_of_body req Hbody).
  destruct (negb _ || negb _); [apply stages_ret|].
  apply stages_bind;
    [apply stages_ensureTempDir; [reflexivity|apply staging_temp]|intros ?].
  apply stages_converted; intros Hid.
  apply stages_bind;
    [apply emits_stages, emits_writeFile, staging_write|intros ?].
  apply stages_bind;
    [apply touches_stages, touches_reference_url|intros referenceUrl].
  apply stages_bind;
    [apply touches_stages, (@probes_python h); [reflexivity|now left]
    |intros python].
  apply stages_bind; [apply stages_spawn|intros [msg|code out err]].
  - apply stages_ret.
  - apply touches_stages, probes_showcase_close. reflexivity.
Qed.

Lemma runway_stages :
  stages (staging h (design_file h (design_of req))
                  (utf8_encode (JSON_stringify h true (design_of req))))
         (Runway.POST h req).
Proof.
  unfold Runway.POST.
  apply stages_try_catch; [|intros e; apply stages_ret].
  apply stages_body; intros body Hbody.
  cbv zeta. rewrite (design_of_body req Hbody).
  destruct (negb _ || negb _); [apply stages_ret|].
  apply stages_bind;
    [apply touches_stages, touches_reference_url|intros referenceUrl].
  apply stages_bind;
    [apply stages_ensureTempDir; [reflexivity|apply staging_temp]|intros ?].
  apply stages_converted; intros Hid.
  apply stages_bind;
    [apply emits_stages, emits_writeFile, staging_write|intros ?].
  apply stages_bind;
    [apply touches_stages, (@probes_python h); [reflexivity|now right]
    |intros python].
  apply stages_bind; [apply stages_spawn|intros [msg|code out err]].
  - apply stages_ret.
  - apply touches_stages, probes_runway_close. reflexivity.
Qed.
End RenderStaging.

(** X17. Whatever the request, virtual-showcase and runway spawn at most
    one worker, and only after they have written the request's design,
    pretty-printed, to [temp/<design_id>.design.json]: the worker starts
    on a disk where that file holds the design, and gets the path of the
    file after [--design]. Up to the spawn the only effects of the handlers
    are existence probes, the creation of the [temp] directory and the
    write of that design to that file; after the spawn they only look at
    the file system the worker left. *)
Theorem render_job_effects (h : Host) (req : Request) (st : state) :
  settled h (trace st) (design_file h (design_of req))
    (utf8_encode (JSON_stringify h true (design_of req)))
    (render_args h "agent3_virtual_showcase_demo.py"
       (design_file h (design_of req)))
    (snd (VirtualShowcase.POST h req st))
  /\ settled h (trace st) (design_file h (design_of req))
       (utf8_encode (JSON_stringify h true (design_of req)))
       (render_args h "agent3_runway_demo.py" (design_file h (design_of req)))
       (snd (Runway.POST h req st))
  /\ (forall POST,
        In POST [VirtualShowcase.POST h; Runway.POST h] ->
        exists t,
          trace (snd (POST req st)) = trace st ++ t
          /\ forallb (staging h (design_file h (design_of req))
                        (utf8_encode (JSON_stringify h true (design_of req))))
                     (until_spawn t) = true).
Proof.
  split; [|split].
  - apply (@triple_final _ _ _ _ st (@showcase_settles h (trace st) req)),
      preparing_start.
  - apply (@triple_final _ _ _ _ st (@runway_settles h (trace st) req)),
      preparing_start.
  - intros POST [<- | [<- | []]];
      [apply showcase_stages | apply runway_stages].
Qed.

Section FlatlayJob.
Variable h : Host.
Variable T0 : list effect.

Lemma flatlay_settles (req : Request) :
  triple (preparing T0) (FlatlayRender.POST h req)
    (fun _ st =>
       exists file,
         settled h T0 file
           (utf8_encode (JSON_stringify h true (design_of req)))
           (flatlay_args h file) st)
    (fun st =>
       exists file,
         settled h T0 file
           (utf8_encode (JSON_stringify h true (design_of req)))
           (flatlay_args h file) st).
Proof.
  set (content := utf8_encode (JSON_stringify h true (design_of req))).
  assert (Hprep : forall st, preparing T0 st ->
                    exists file, settled h T0 file content (flatlay_args h file) st).
  { intros st Hst. exists []. now apply settled_preparing. }
  unfold FlatlayRender.POST.
  apply triple_try_catch; [|intros e; now apply triple_ret].
  apply triple_body; [exact Hprep|intros body Hbody].
  apply triple_bind with (Q1 := fun _ => preparing T0);
    [apply triple_exn with (E := preparing T0); [exact Hprep|];
     apply preparing_emits; destruct (is_nullish body);
       [apply emits_throw|apply emits_ret]|intros ?].
  cbv zeta.
  replace (get_prop body "design") with (design_of req)
    by (unfold design_of; now rewrite Hbody).
  destruct (negb _); [apply triple_ret; exact Hprep|].
  apply triple_bind with (Q1 := fun _ => preparing T0);
    [apply triple_exn with (E := preparing T0); [exact Hprep|];
     apply preparing_emits, emits_ensureTempDir|intros tempDir].
  apply triple_bind with (Q1 := fun _ => preparing T0);
    [apply triple_exn with (E := preparing T0); [exact Hprep|];
     apply preparing_emits, emits_Date_now|intros now].
  set (file := path_join h [tempDir; lit "design_" ++ string_of_Z now ++ lit ".json"]).
  fold content.
  apply triple_bind with (Q1 := fun _ => written T0 file content);
    [apply triple_exn with (E := preparing T0); [exact Hprep|];
     apply written_writeFile|intros ?].
  apply triple_bind
    with (Q1 := fun _ => running h T0 file content (flatlay_args h file));
    [apply triple_exn with (E := fun _ => False); [contradiction|];
     apply running_spawn; reflexivity|intros r].
  apply triple_consequence
    with (P := running h T0 file content (flatlay_args h file))
         (Q := fun _ => running h T0 file content (flatlay_args h file))
         (E := running h T0 file content (flatlay_args h file)); auto.
  1,2: intros; exists file; now apply settled_running.
  destruct r as [msg|code out err].
  - now apply triple_ret.
  - apply running_touches, read_only_flatlay_close.
Qed.
End FlatlayJob.

(** X18. Whatever the request, flatlay-render spawns at most one worker,
    and only after it has written the request's design, pretty-printed, to
    a file: the worker starts on a disk where that file holds the design,
    and its arguments are the render script, [--input], the path of that
    file, [--variant] and [flatlay]. After the spawn the handler only
    looks at the file system the worker left. *)
Theorem flatlay_job_effects (h : Host) (req : Request) (st : state) :
  exists file,
    settled h (trace st) file
      (utf8_encode (JSON_stringify h true (design_of req)))
      (flatlay_args h file)
      (snd (FlatlayRender.POST h req st)).
Proof.
  apply (@triple_final _ _ _
           (fun st' =>
              exists file,
                settled h (trace st) file
                  (utf8_encode (JSON_stringify h true (design_of req)))
                  (flatlay_args h file) st')
           st (@flatlay_settles h (trace st) req)), preparing_start.
Qed.

(* ================================================================== *)
(** * The front end's asset URLs *)
(* ================================================================== *)

Lemma url_safe_plain (c : N) :
  url_safe c = true -> c <> c_backslash /\ is_js_space c = false.
Proof.
  unfold url_safe. intros H. apply orb_true_iff in H as [H|H].
  - apply uri_unescaped_cases in H. cbn [In] in H.
    split; [unfold c_backslash; lia|].
    unfold is_js_space, in_range. decide_tests. reflexivity.
  - apply N.eqb_eq in H. subst c. split; [discriminate|reflexivity].
Qed.

Lemma replace_backslashes_none (s : jsstring) :
  Forall (fun c => c <> c_backslash) s -> replace_backslashes s = s.
Proof.
  induction 1 as [|c s Hc _ IH]; [reflexivity|].
  unfold replace_backslashes in *. cbn [map].
  destruct (N.eqb_spec c c_backslash); [contradiction|]. now rewrite IH.
Qed.

(** A string with no white space at either end is its own trim. *)
Lemma trim_plain (c : N) (s : jsstring) :
  is_js_space c = false ->
  is_js_space (last s c) = false ->
  trim (c :: s) = c :: s.
Proof.
  intros Hc Hlast. unfold trim. cbn [drop_while]. rewrite Hc.
  destruct (rev (c :: s)) as [|d r] eqn:Hrev.
  { apply (f_equal (@List.length N)) in Hrev. rewrite length_rev in Hrev.
    discriminate. }
  assert (Hd : d = last s c).
  { destruct s as [|x s'] using rev_ind.
    - cbn in Hrev. now injection Hrev as <- _.
    - rewrite last_last. rewrite app_comm_cons, rev_app_distr in Hrev.
      cbn in Hrev. now injection Hrev as <- _. }
  cbn [drop_while]. rewrite Hd, Hlast, <- Hd, <- Hrev. apply rev_involutive.
Qed.

Lemma last_after (a b : jsstring) (c d : N) :
  last (a ++ c :: b) d = last (c :: b) d.
Proof.
  induction a as [|x a IH]; [reflexivity|].
  cbn [app]. rewrite <- IH. cbn [last]. now destruct (a ++ c :: b) eqn:E;
    [destruct a; discriminate E|].
Qed.

Lemma last_safe (e : jsstring) (d : N) :
  Forall (fun c => url_safe c = true) e ->
  is_js_space d = false ->
  is_js_space (last e d) = false.
Proof.
  intros He Hd. destruct e as [|x e'] using rev_ind; [exact Hd|].
  rewrite last_last. apply Forall_app in He as [_ Hx].
  inversion Hx; subst. now apply url_safe_plain.
Qed.

(** What [toAssetsUrl] makes of a reference of the server. *)
Lemma server_reference_kept (base : option jsstring) (e : jsstring) :
  Forall (fun c => url_safe c = true) e ->
  FrontEnd.toAssetsUrl base (Some (reference_prefix ++ e))
  = Some (Some (reference_prefix ++ e)).
Proof.
  intros Hsafe.
  assert (Hplain : replace_backslashes (reference_prefix ++ e)
                   = reference_prefix ++ e).
  { apply replace_backslashes_none, Forall_app. split.
    - repeat constructor; discriminate.
    - eapply Forall_impl; [|exact Hsafe]. intros c Hc.
      now apply url_safe_plain in Hc. }
  assert (Htrim : trim (reference_prefix ++ e) = reference_prefix ++ e).
  { change (reference_prefix ++ e)
      with (c_slash :: (lit "api/assets?path" ++ c_equals :: e)).
    apply trim_plain; [reflexivity|].
    rewrite last_after.
    destruct e as [|x e']; [reflexivity|].
    change (last (c_equals :: x :: e') c_slash) with (last (x :: e') c_slash).
    now apply last_safe. }
  change (reference_prefix ++ e)
    with (c_slash :: (lit "api/assets?path=" ++ e)) in *.
  remember (lit "api/assets?path=" ++ e) as rest eqn:Hrest.
  unfold FrontEnd.toAssetsUrl. cbv beta iota zeta.
  replace (test_at_start re_http_scheme (c_slash :: rest))
    with false by reflexivity.
  rewrite Hplain, Htrim. now subst rest.
Qed.

(** X19. The front end leaves a reference of the server alone: what
    [normalizeForBrowser] returns for a well-formed path goes through
    [toAssetsUrl] unchanged, whatever the API base. *)
Theorem toAssetsUrl_keeps_server_reference
        (base : option jsstring) (p reference : jsstring) :
  well_formed p = true ->
  normalizeForBrowser p = Some reference ->
  FrontEnd.toAssetsUrl base (Some reference) = Some (Some reference).
Proof.
  intros Hwf Hn.
  destruct (normalizeForBrowser_encodes p Hwf) as (e & _ & Hn' & Hsafe & _).
  assert (Href : reference = reference_prefix ++ e) by congruence.
  subst reference. now apply server_reference_kept.
Qed.

Lemma toAssetsUrl_keeps_server_reference_witness :
  FrontEnd.toAssetsUrl (Some (lit "http://localhost:8000/"))
    (Some (lit "/api/assets?path=output%2Fabc123_showcase.png"))
  = Some (Some (lit "/api/assets?path=output%2Fabc123_showcase.png")).
Proof.
  exact (@toAssetsUrl_keeps_server_reference
           (Some (lit "http://localhost:8000/"))
           (lit "C:\output\abc123_showcase.png")
           (lit "/api/assets?path=output%2Fabc123_showcase.png")
           eq_refl eq_refl).
Defined.

(** The decimal rendering of an integer is made of digits and a sign. *)
Lemma string_of_uint_unescaped (d : Decimal.uint) :
  Forall (fun c => uri_unescaped c = true) (lit (NilEmpty.string_of_uint d)).
Proof.
  induction d; cbn [NilEmpty.string_of_uint]; try (constructor; [reflexivity|]);
    try assumption.
  constructor.
Qed.

Lemma string_of_Z_unescaped (z : Z) :
  Forall (fun c => uri_unescaped c = true) (string_of_Z z).
Proof.
  unfold string_of_Z, NilZero.string_of_int, NilZero.string_of_uint.
  destruct (Z.to_int z) as [d|d]; destruct d;
    repeat (constructor; [reflexivity|]);
    try apply (string_of_uint_unescaped); constructor.
Qed.

(** A string of unescaped code units is its own encoding, and decodes to
    itself. *)
Lemma unescaped_plain (s : jsstring) :
  Forall (fun c => uri_unescaped c = true) s ->
  encodeURIComponent s = Some s /\ well_formed s = true.
Proof.
  induction 1 as [|c s Hc _ [IH1 IH2]]; [now split|].
  cbn [encodeURIComponent well_formed]. rewrite Hc, IH1, IH2.
  pose proof (uri_unescaped_ascii c Hc) as [Hlt _].
  destruct (not_surrogate_below (c := c)) as [-> ->]; [lia|].
  split; [reflexivity|].
  destruct (N.ltb_spec c 0x10000); [reflexivity|lia].
Qed.

Lemma form_component_unescaped (s : jsstring) :
  Forall (fun c => uri_unescaped c = true) s -> form_component s = s.
Proof.
  intros Hs. destruct (unescaped_plain Hs) as [Henc Hwf].
  destruct (encodeURIComponent_round_trip s Hwf) as (e & He & Hdec).
  rewrite Henc in He. injection He as <-.
  unfold form_component. rewrite plus_to_space_none; [exact Hdec|].
  eapply Forall_impl; [|exact Hs]. intros c Hc.
  now apply uri_unescaped_ascii in Hc.
Qed.

(** Cutting a string that is extended by a separator and more. *)
Lemma split_app (sep : N) (a b : jsstring) :
  split sep (a ++ sep :: b) = split sep a ++ split sep b.
Proof.
  induction a as [|c a IH]; cbn [app split].
  - now rewrite N.eqb_refl.
  - rewrite IH. destruct (c =? sep); [reflexivity|].
    destruct (split sep a) as [|seg segs] eqn:E; [|reflexivity].
    now destruct (split_nonempty sep a E).
Qed.

Lemma find_app {A} (f : A -> bool) (l1 l2 : list A) :
  find f (l1 ++ l2)
  = match find f l1 with Some x => Some x | None => find f l2 end.
Proof.
  induction l1 as [|x l1 IH]; [reflexivity|].
  cbn [app find]. now destruct (f x).
Qed.

Lemma form_parse_app (q y : jsstring) :
  form_parse (q ++ c_amp :: y) = form_parse q ++ form_parse y.
Proof.
  unfold form_parse. now rewrite split_app, filter_app, map_app.
Qed.

Lemma drop_until_found (p : N -> bool) (a b q : jsstring) :
  drop_until p a = Some q -> drop_until p (a ++ b) = Some (q ++ b).
Proof.
  induction a as [|c a IH]; [discriminate|].
  cbn [app drop_until]. destruct (p c); [|exact IH].
  now intros [= <-].
Qed.

Lemma no_hash_scanned (s : jsstring) :
  forallb (fun c => negb (c =? c_hash)) s = true ->
  Forall (fun c => (c_hash =? c) = false) s.
Proof.
  intros H. apply Forall_forall. intros c Hc.
  rewrite forallb_forall in H. specialize (H c Hc).
  apply negb_true_iff in H. now rewrite N.eqb_sym.
Qed.

Lemma unescaped_no_hash (s : jsstring) :
  Forall (fun c => uri_unescaped c = true) s ->
  forallb (fun c => negb (c =? c_hash)) s = true.
Proof.
  intros H. apply forallb_forall. intros c Hc.
  rewrite Forall_forall in H. specialize (H c Hc).
  apply uri_unescaped_ascii in H. apply negb_true_iff, N.eqb_neq. tauto.
Qed.

(** The query of a URL without fragment, extended by one more pair. *)
Lemma form_parse_extended (u y : jsstring) :
  forallb (fun c => negb (c =? c_hash)) u = true ->
  forallb (fun c => negb (c =? c_hash)) y = true ->
  forallb (fun c => negb (c =? c_question)) u = false ->
  form_parse (url_query (u ++ c_amp :: y))
  = form_parse (url_query u) ++ form_parse y.
Proof.
  intros Hu Hy Hq. unfold url_query.
  rewrite (take_until_none (N.eqb c_hash) (no_hash_scanned u Hu)).
  assert (Hall : Forall (fun c => (c_hash =? c) = false) (u ++ c_amp :: y)).
  { apply Forall_app. split; [now apply no_hash_scanned|].
    constructor; [reflexivity|now apply no_hash_scanned]. }
  rewrite (take_until_none (N.eqb c_hash) Hall).
  destruct (drop_until (N.eqb c_question) u) as [q|] eqn:Hdrop.
  - rewrite (drop_until_found _ _ (c_amp :: y) Hdrop). apply form_parse_app.
  - exfalso. clear Hu Hall. induction u as [|c u IH]; [discriminate|].
    cbn [forallb drop_until] in *. rewrite N.eqb_sym in Hdrop.
    destruct (c =? c_question); [discriminate|]. now apply IH.
Qed.



(** The pair the cache buster adds. *)
Lemma form_parse_t (now : Z) :
  form_parse (lit "t=" ++ string_of_Z now) = [(lit "t", string_of_Z now)].
Proof.
  pose proof (string_of_Z_unescaped now) as Hd.
  unfold form_parse. rewrite split_none.
  2:{ constructor; [discriminate|]. constructor; [discriminate|].
      eapply Forall_impl; [|exact Hd]. intros c Hc.
      now apply uri_unescaped_ascii in Hc. }
  change (lit "t=" ++ string_of_Z now) with (116 :: c_equals :: string_of_Z now).
  cbn [filter str_eqb negb map]. unfold form_pair.
  cbn [take_until drop_until]. rewrite N.eqb_refl.
  change (c_equals =? 116) with false. cbv iota.
  change (form_component [116]) with (lit "t").
  now rewrite form_component_unescaped by assumption.
Qed.


Lemma searchParams_get_busted (now : Z) (u name : jsstring) :
  forallb (fun c => negb (c =? c_hash)) u = true ->
  forallb (fun c => negb (c =? c_question)) u = false ->
  searchParams_get (u ++ lit "&t=" ++ string_of_Z now) name
  = match searchParams_get u name with
    | Some value => Some value
    | None => if str_eqb (lit "t") name then Some (string_of_Z now) else None
    end.
Proof.
  intros Hu Hq. unfold searchParams_get.
  change (u ++ lit "&t=" ++ string_of_Z now)
    with (u ++ c_amp :: (lit "t=" ++ string_of_Z now)).
  rewrite form_parse_extended; try assumption.
  2:{ apply (unescaped_no_hash (s := 116 :: string_of_Z now)) .
      constructor; [reflexivity|apply string_of_Z_unescaped]. }
  rewrite find_app, form_parse_t.
  destruct (find _ (form_parse (url_query u))) as [kv|]; [reflexivity|].
  cbn [find fst]. now destruct (str_eqb (lit "t") name).
Qed.



(** X21. From the server to the browser and back: the reference
    [normalizeForBrowser] gives for a relative path goes through
    [toAssetsUrl] unchanged, gets [&t=<now>] from [withCacheBuster] and
    the origin from [toAbsoluteUrl]; requested at that URL, the asset
    route still recovers the path, with its slashes normalised. *)
Theorem browser_round_trip
        (base : option jsstring) (origin : jsstring) (now : Z) (p : jsstring) :
  well_formed p = true ->
  is_relative p = true ->
  forallb (fun c => negb (c =? c_question) && negb (c =? c_hash)) origin = true ->
  exists reference,
    normalizeForBrowser p = Some reference
    /\ FrontEnd.toAssetsUrl base (Some reference) = Some (Some reference)
    /\ FrontEnd.withCacheBuster now (Some reference)
       = Some (reference ++ lit "&t=" ++ string_of_Z now)
    /\ FrontEnd.toAbsoluteUrl origin
         (Some (reference ++ lit "&t=" ++ string_of_Z now))
       = Some (origin ++ reference ++ lit "&t=" ++ string_of_Z now)
    /\ option_map Asset.requested_of
         (searchParams_get
            (origin ++ reference ++ lit "&t=" ++ string_of_Z now) (lit "path"))
       = Some (replace_backslashes p).
Proof.
  intros Hwf Hrel Horigin.
  destruct (normalizeForBrowser_encodes p Hwf) as (e & _ & Hn & Hsafe & Hdec).
  destruct (relative_not_stripped p Hrel) as [Hstrip Hlead].
  destruct (origin_scanned origin Horigin) as [Hoh Hoq].
  exists (reference_prefix ++ e). split; [exact Hn|].
  split.
  { now apply server_reference_kept. }
  split; [reflexivity|]. split; [reflexivity|].
  assert (Hu : forallb (fun c => negb (c =? c_hash))
                 (origin ++ reference_prefix ++ e) = true).
  { rewrite !forallb_app. apply andb_true_iff. split.
    - apply forallb_forall. intros c Hc. rewrite forallb_forall in Hoh.
      specialize (Hoh c Hc). now rewrite N.eqb_sym.
    - apply andb_true_iff. split; [reflexivity|].
      apply forallb_forall. intros c Hc. rewrite Forall_forall in Hsafe.
      specialize (Hsafe c Hc). apply url_safe_not_delimiter in Hsafe.
      apply negb_true_iff, N.eqb_neq. tauto. }
  assert (Hq : forallb (fun c => negb (c =? c_question))
                 (origin ++ reference_prefix ++ e) = false).
  { rewrite !forallb_app. apply andb_false_iff. right.
    apply andb_false_iff. now left. }
  replace (origin ++ (reference_prefix ++ e) ++ lit "&t=" ++ string_of_Z now)
    with ((origin ++ reference_prefix ++ e) ++ lit "&t=" ++ string_of_Z now)
    by now rewrite <- !app_assoc.
  rewrite (searchParams_get_busted now _ (lit "path") Hu Hq).
  rewrite (searchParams_get_reference origin Horigin Hsafe). cbn [option_map].
  rewrite Hdec, Hstrip. unfold Asset.requested_of.
  now rewrite replace_backslashes_idempotent, Hlead.
Qed.

Lemma browser_round_trip_witness :
  exists reference,
    normalizeForBrowser (lit "renders\look book\no (1).png") = Some reference
    /\ option_map Asset.requested_of
         (searchParams_get
            (lit "http://localhost:3000" ++ reference ++ lit "&t="
             ++ string_of_Z 1700000000000) (lit "path"))
       = Some (lit "renders/look book/no (1).png").
Proof.
  destruct (@browser_round_trip None (lit "http://localhost:3000")
              1700000000000 (lit "renders\look book\no (1).png")
              eq_refl eq_refl eq_refl)
    as (reference & Hn & _ & _ & _ & Hget).
  exists reference. split; [exact Hn|exact Hget].
Defined.

Lemma strip_leading_slashes_done (s : jsstring) :
  startsWith (strip_leading_slashes s) (lit "/") = false.
Proof.
  unfold strip_leading_slashes.
  induction s as [|c s IH]; [reflexivity|].
  cbn [drop_while]. destruct (c =? c_slash) eqn:Hc; [exact IH|].
  cbn [startsWith lit map list_ascii_of_string]. 
  change (N_of_ascii "/") with c_slash. now rewrite Hc.
Qed.

Lemma startsWith_app (s pre : jsstring) :
  startsWith s pre = true -> exists rest, s = pre ++ rest.
Proof.
  revert s. induction pre as [|c pre IH]; intros s H; [now exists s|].
  destruct s as [|x s]; [discriminate|]. cbn [startsWith] in H.
  apply andb_true_iff in H as [Hx Hs]. apply N.eqb_eq in Hx. subst x.
  destruct (IH s Hs) as (rest & ->). now exists rest.
Qed.

Lemma startsWith_double_slash (b rest : jsstring) :
  startsWith rest (lit "/") = false ->
  startsWith (b ++ lit "/" ++ rest) (lit "//") = true
  <-> b = lit "/" \/ startsWith b (lit "//") = true.
Proof.
  intros Hrest.
  change (lit "//") with [c_slash; c_slash].
  change (lit "/") with [c_slash] in *.
  destruct b as [|c1 [|c2 b']]; cbn [app startsWith].
  - rewrite N.eqb_refl. cbn [andb].
    destruct rest as [|r rest']; cbn [startsWith] in *.
    + split; [discriminate|intros [H|H]; discriminate H].
    + rewrite startsWith_nil, andb_true_r in Hrest. rewrite Hrest.
      split; [discriminate|intros [H|H]; discriminate H].
  - rewrite N.eqb_refl, startsWith_nil, andb_true_r. cbn [andb].
    destruct (N.eqb_spec c1 c_slash) as [->|Hc].
    + split; auto.
    + split; [discriminate|]. intros [H|H]; [congruence|discriminate H].
  - rewrite !startsWith_nil.
    split; [now right|]. intros [H|H]; [discriminate H|exact H].
Qed.

(** X22. For a path that is not an http(s) URL, the result of
    [toAssetsUrl] is the path itself when it starts with [/api/assets] or
    [/assets] (backslashes turned into slashes, trimmed), and otherwise
    the API base, one slash, and a rest that does not start with a slash.
    The path itself is never a protocol-relative URL; a result built from
    the base is one exactly when the base is [/] or starts with [//], so
    never when no base is configured. *)
Theorem toAssetsUrl_result_shape (base : option jsstring) (p u : jsstring) :
  test_at_start re_http_scheme p = false ->
  FrontEnd.toAssetsUrl base (Some p) = Some (Some u) ->
  (u = trim (replace_backslashes p)
   /\ startsWith u (lit "/api/assets") || startsWith u (lit "/assets") = true
   /\ startsWith u (lit "//") = false)
  \/ exists rest,
       u = FrontEnd.API_BASE base ++ lit "/" ++ rest
       /\ startsWith rest (lit "/") = false
       /\ (startsWith u (lit "//") = true
           <-> FrontEnd.API_BASE base = lit "/"
               \/ startsWith (FrontEnd.API_BASE base) (lit "//") = true).
Proof.
  intros Htest. unfold FrontEnd.toAssetsUrl.
  destruct p as [|c p']; [discriminate|]. rewrite Htest. cbv zeta.
  remember (trim (replace_backslashes (c :: p'))) as normalized eqn:Hnorm.
  destruct (startsWith normalized (lit "/api/assets")
            || startsWith normalized (lit "/assets")) eqn:Hstart.
  - intros [= Hu]. subst u. left. split; [reflexivity|]. split; [exact Hstart|].
    apply orb_true_iff in Hstart as [H|H];
      apply startsWith_app in H as (rest & ->); reflexivity.
  - intros Hu. right.
    assert (Hbuilt : forall rest,
               u = FrontEnd.API_BASE base ++ lit "/" ++ rest ->
               startsWith rest (lit "/") = false ->
               exists rest',
                 u = FrontEnd.API_BASE base ++ lit "/" ++ rest'
                 /\ startsWith rest' (lit "/") = false
                 /\ (startsWith u (lit "//") = true
                     <-> FrontEnd.API_BASE base = lit "/"
                         \/ startsWith (FrontEnd.API_BASE base) (lit "//")
                            = true)).
    { intros rest -> Hrest. exists rest. split; [reflexivity|].
      split; [exact Hrest|]. now apply startsWith_double_slash. }
    destruct (FrontEnd.from_first_prefix normalized _) as [rel|].
    + destruct (encodeURIComponent rel) as [encoded|]; [|discriminate Hu].
      unfold option_map in Hu. injection Hu as Hu.
      apply (Hbuilt (lit "assets/" ++ encoded)); [|reflexivity].
      rewrite <- Hu. now destruct (FrontEnd.API_BASE base).
    + injection Hu as Hu.
      apply (Hbuilt (strip_leading_slashes normalized));
        [|apply strip_leading_slashes_done].
      rewrite <- Hu. now destruct (FrontEnd.API_BASE base).
Qed.

Lemma toAssetsUrl_result_shape_witness :
  exists rest,
    lit "/evil.example/x.png" = FrontEnd.API_BASE None ++ lit "/" ++ rest
    /\ startsWith rest (lit "/") = false
    /\ (startsWith (lit "/evil.example/x.png") (lit "//") = true
        <-> FrontEnd.API_BASE None = lit "/"
            \/ startsWith (FrontEnd.API_BASE None) (lit "//") = true).
Proof.
  destruct (@toAssetsUrl_result_shape None (lit "\\evil.example\x.png")
              (lit "/evil.example/x.png") eq_refl eq_refl)
    as [[_ [H _]]|H]; [discriminate H|exact H].
Defined.

(** X23. An http(s) URL goes through the front end as it is: a string
    that starts with [http://] or [https://] matches the pattern of
    [toAssetsUrl], which returns it unchanged, and [toAbsoluteUrl] returns
    it unchanged too. The pattern of [toAssetsUrl] ignores letter case and
    the test of [toAbsoluteUrl] does not: a URL whose scheme is not in
    lower case is passed by the first and prefixed with the origin and a
    slash by the second. *)
Theorem absolute_url_through_front_end
        (base : option jsstring) (origin p : jsstring) :
  (matches_http p = true -> test_at_start re_http_scheme p = true)
  /\ (test_at_start re_http_scheme p = true ->
      FrontEnd.toAssetsUrl base (Some p) = Some (Some p)
      /\ FrontEnd.toAbsoluteUrl origin (Some p)
         = Some (if matches_http p then p else origin ++ lit "/" ++ p)).
Proof.
  split.
  - unfold matches_http. intros H. apply orb_true_iff in H as [H|H];
      apply startsWith_app in H as (rest & ->); reflexivity.
  - intros Htest. destruct p as [|c p']; [discriminate|].
    split.
    + unfold FrontEnd.toAssetsUrl. now rewrite Htest.
    + unfold FrontEnd.toAbsoluteUrl. fold (matches_http (c :: p')).
      destruct (matches_http (c :: p')); [reflexivity|].
      replace (startsWith (c :: p') (lit "/")) with false; [reflexivity|].
      symmetry. cbn [startsWith lit map list_ascii_of_string].
      change (N_of_ascii "/") with c_slash.
      destruct (N.eqb_spec c c_slash) as [->|]; [discriminate Htest|reflexivity].
Qed.

(** An object that has the six backend fields, the five defaulted ones
    truthy, is a fixed point of the normalisation. *)
Lemma model_config_fixed_point (g a b s p f : value) :
  truthy a = true -> truthy b = true -> truthy s = true ->
  truthy p = true -> truthy f = true ->
  normalizeModelConfigForBackend
    (VObj [fld "gender" g; fld "age_range" a; fld "body_type" b;
           fld "skin_tone" s; fld "pose" p; fld "framing" f])
  = VObj [fld "gender" g; fld "age_range" a; fld "body_type" b;
          fld "skin_tone" s; fld "pose" p; fld "framing" f].
Proof.
  intros Ha Hb Hs Hp Hf.
  set (n := VObj _).
  assert (Eg : get_prop n "gender" = g) by reflexivity.
  assert (Ea : get_prop n "age_range" = a) by reflexivity.
  assert (Ea' : get_prop n "ageRange" = VUndefined) by reflexivity.
  assert (Eb : get_prop n "body_type" = b) by reflexivity.
  assert (Eb' : get_prop n "bodyType" = VUndefined) by reflexivity.
  assert (Es : get_prop n "skin_tone" = s) by reflexivity.
  assert (Es' : get_prop n "skinTone" = VUndefined) by reflexivity.
  assert (Ep : get_prop n "pose" = p) by reflexivity.
  assert (Ef : get_prop n "framing" = f) by reflexivity.
  unfold normalizeModelConfigForBackend.
  rewrite Eg, Ea, Ea', Eb, Eb', Es, Es', Ep, Ef.
  unfold js_or. cbn [truthy]. rewrite Ha, Hb, Hs, Hp, Hf.
  subst n. cbn [truthy negb]. now destruct (truthy g).
Qed.

Lemma js_or_default_truthy (x d : value) :
  truthy d = true -> truthy (js_or x d) = true.
Proof. intros Hd. unfold js_or. now destruct (truthy x) eqn:Hx. Qed.

(** X24. [normalizeModelConfigForBackend] brings a configuration to a
    normal form exactly when the configuration is truthy: normalising the
    result again changes nothing. The empty object it returns for a falsy
    configuration is not a normal form: normalising it gives the defaults. *)
Theorem model_config_normal_form (m : value) :
  normalizeModelConfigForBackend (normalizeModelConfigForBackend m)
  = normalizeModelConfigForBackend m
  <-> truthy m = true.
Proof.
  split.
  - intros H. destruct (truthy m) eqn:Hm; [reflexivity|].
    unfold normalizeModelConfigForBackend in H at 2 3. rewrite Hm in H.
    discriminate H.
  - intros Hm. unfold normalizeModelConfigForBackend at 2 3. rewrite Hm.
    cbn [negb]. apply model_config_fixed_point;
      apply js_or_default_truthy; reflexivity.
Qed.

(** X25. [getLanIp] is a search: it returns the address of the first
    entry, in the order of the interfaces and then of their entries, whose
    family is IPv4 and that is not internal, and [null] when there is
    none; an interface without entries is skipped. *)
Theorem getLanIp_first_external
        (nets : list (jsstring * option (list Server.NetworkInterfaceInfo))) :
  Server.getLanIp nets
  = option_map Server.address (find external_ipv4 (entries nets)).
Proof.
  assert (Hinner : forall iface,
             Server.first_external iface
             = option_map Server.address (find external_ipv4 iface)).
  { induction iface as [|net iface IH]; [reflexivity|].
    cbn [Server.first_external find]. unfold external_ipv4 at 1.
    now destruct (str_eqb _ _ && negb _). }
  induction nets as [|[name [iface|]] nets IH]; [reflexivity| |exact IH].
  cbn [Server.getLanIp]. unfold entries in *. cbn [flat_map snd].
  rewrite find_app, Hinner.
  now destruct (find external_ipv4 iface).
Qed.

(** X26. The trends route never fails and never writes: whatever the
    disk, it reads [trends_index.json] under the project root once and
    answers 200 with the document parsed from it, or with the built-in
    sample when the file is missing, is a directory, or is not JSON. *)
Theorem trends_always_answers (h : Host) (req : Request) (st : state) :
  Trends.GET h req st
  = (Ok (Trends.json_of
           (trends_document h (fs st)
              (path_join h [cwd h; lit "trends_index.json"]))),
     log (EReadFile (path_join h [cwd h; lit "trends_index.json"])) st).
Proof.
  unfold Trends.GET, Trends.readFile, try_catch, bind, readFileSync,
    ApplyChange.parse_json, trends_document.
  cbv zeta. destruct (fs st _) as [[data|]|]; try reflexivity.
  cbn [ret]. now destruct (JSON_parse h (utf8_decode data)).
Qed.

(* ================================================================== *)
(** * What the patterns of the handlers recognise *)
(* ================================================================== *)

Lemma star_sound {R} (p : N -> bool) (k : jsstring -> option R)
      (s : jsstring) (x : R) :
  star p k s = Some x ->
  exists pre rest, s = pre ++ rest /\ forallb p pre = true /\ k rest = Some x.
Proof.
  induction s as [|c s IH]; cbn [star].
  - intros H. now exists [], [].
  - destruct (p c) eqn:Hc.
    + unfold or_else. destruct (star p k s) as [y|] eqn:Hs.
      * intros [= <-]. destruct (IH eq_refl) as (pre & rest & -> & Hpre & Hk).
        exists (c :: pre), rest. cbn [forallb]. now rewrite Hc.
      * intros Hk. now exists [], (c :: s).
    + intros Hk. now exists [], (c :: s).
Qed.

(** The matcher only succeeds on what the pattern recognises. *)
Lemma rmatch_sound {R} (r : regex) :
  forall (s : jsstring) (cap : option jsstring)
         (k : jsstring -> option jsstring -> option R) (x : R),
    rmatch r s cap k = Some x ->
    exists pre rest cap',
      s = pre ++ rest /\ recognises r pre cap cap' /\ k rest cap' = Some x.
Proof.
  induction r as [|p|r1 IH1 r2 IH2|r1 IH1 r2 IH2|r IH|p|r IH];
    intros s cap k x; cbn [rmatch].
  - intros H. exists [], s, cap. repeat split; [constructor|exact H].
  - destruct s as [|c s]; [discriminate|]. destruct (p c) eqn:Hc; [|discriminate].
    intros H. exists [c], s, cap. repeat split; [now constructor|exact H].
  - intros H. apply IH1 in H as (a & rest1 & cap1 & -> & Ha & H).
    apply IH2 in H as (b & rest & cap2 & -> & Hb & H).
    exists (a ++ b), rest, cap2. rewrite app_assoc.
    repeat split; [econstructor; eassumption|exact H].
  - unfold or_else. destruct (rmatch r1 s cap k) as [y|] eqn:H1.
    + intros [= <-]. apply IH1 in H1 as (a & rest & cap' & -> & Ha & H).
      exists a, rest, cap'. repeat split; [now apply rec_alt_left|exact H].
    + intros H. apply IH2 in H as (a & rest & cap' & -> & Ha & H).
      exists a, rest, cap'. repeat split; [now apply rec_alt_right|exact H].
  - unfold or_else. destruct (rmatch r s cap k) as [y|] eqn:H1.
    + intros [= <-]. apply IH in H1 as (a & rest & cap' & -> & Ha & H).
      exists a, rest, cap'. repeat split; [now apply rec_opt_some|exact H].
    + intros H. exists [], s, cap. repeat split; [apply rec_opt_none|exact H].
  - intros H. apply star_sound in H as (pre & rest & -> & Hpre & H).
    exists pre, rest, cap. repeat split; [now constructor|exact H].
  - intros H. apply IH in H as (a & rest & cap' & -> & Ha & H).
    exists a, rest, (Some a). repeat split; [econstructor; eassumption|].
    rewrite length_app, Nat.add_sub in H.
    now rewrite firstn_app, Nat.sub_diag, firstn_all, app_nil_r in H.
Qed.

Lemma regex_match_sound (r : regex) (s : jsstring) (m : option jsstring) :
  regex_match r s = Some m ->
  exists before pre rest,
    s = before ++ pre ++ rest /\ recognises r pre None m.
Proof.
  induction s as [|c s IH]; cbn [regex_match].
  - destruct (rmatch r [] None _) as [m'|] eqn:H; [|discriminate].
    intros [= <-]. apply rmatch_sound in H as (pre & rest & cap' & Hs & Hr & [= <-]).
    now exists [], pre, rest.
  - destruct (rmatch r (c :: s) None _) as [m'|] eqn:H.
    + intros [= <-].
      apply rmatch_sound in H as (pre & rest & cap' & Hs & Hr & [= <-]).
      now exists [], pre, rest.
    + intros H'. destruct (IH H') as (before & pre & rest & -> & Hr).
      now exists (c :: before), pre, rest.
Qed.

Lemma star_complete {R} (p : N -> bool) (k : jsstring -> option R)
      (pre rest : jsstring) (x : R) :
  forallb p pre = true -> k rest = Some x ->
  exists x', star p k (pre ++ rest) = Some x'.
Proof.
  intros Hpre Hk. induction pre as [|c pre IH].
  - cbn [app]. destruct rest as [|d rest]; cbn [star]; [eauto|].
    destruct (p d); [|eauto]. unfold or_else.
    destruct (star p k rest); eauto.
  - cbn [forallb] in Hpre. apply andb_true_iff in Hpre as [Hc Hpre].
    cbn [app star]. rewrite Hc. destruct (IH Hpre) as (x' & ->).
    now exists x'.
Qed.

(** The matcher succeeds wherever the pattern recognises a prefix after
    which the continuation succeeds. *)
Lemma rmatch_complete {R} (r : regex) (pre : jsstring)
      (cap cap' : option jsstring) :
  recognises r pre cap cap' ->
  forall (k : jsstring -> option jsstring -> option R) (rest : jsstring) (x : R),
    k rest cap' = Some x ->
    exists x', rmatch r (pre ++ rest) cap k = Some x'.
Proof.
  induction 1 as [cap|p c cap Hc|r1 r2 a b cap cap1 cap2 _ IH1 _ IH2
                  |r1 r2 a cap cap' _ IH|r1 r2 a cap cap' _ IH
                  |r a cap cap' _ IH|r cap|p s cap Hs|r a cap cap' _ IH];
    intros k rest x Hk; cbn [rmatch].
  - now exists x.
  - cbn [app]. rewrite Hc. now exists x.
  - rewrite <- app_assoc. destruct (IH2 k rest x Hk) as (y & Hy).
    exact (IH1 _ _ y Hy).
  - destruct (IH k rest x Hk) as (y & ->). now exists y.
  - unfold or_else. destruct (rmatch r1 (a ++ rest) cap k); [eauto|].
    exact (IH k rest x Hk).
  - destruct (IH k rest x Hk) as (y & ->). now exists y.
  - cbn [app]. unfold or_else. destruct (rmatch r rest cap k); eauto.
  - now apply star_complete with (x := x).
  - apply IH with (x := x).
    rewrite length_app, Nat.add_sub.
    now rewrite firstn_app, Nat.sub_diag, firstn_all, app_nil_r.
Qed.

Lemma regex_match_complete (r : regex) (before pre rest : jsstring)
      (cap' : option jsstring) :
  recognises r pre None cap' ->
  regex_match r (before ++ pre ++ rest) <> None.
Proof.
  intros Hr. induction before as [|c before IH].
  - cbn [app].
    destruct (rmatch_complete Hr (fun _ cap => Some cap) rest eq_refl)
      as (m & Hm).
    destruct (pre ++ rest); cbn [regex_match]; now rewrite Hm.
  - cbn [app regex_match]. destruct (rmatch r _ None _); [discriminate|exact IH].
Qed.

Lemma recognises_seq (r1 r2 : regex) (s : jsstring) (cap cap2 : option jsstring) :
  recognises (RSeq r1 r2) s cap cap2 ->
  exists a b cap1,
    s = a ++ b /\ recognises r1 a cap cap1 /\ recognises r2 b cap1 cap2.
Proof. inversion 1; subst. eauto 6. Qed.

Lemma recognises_group (r : regex) (s : jsstring) (cap cap' : option jsstring) :
  recognises (RGroup r) s cap cap' ->
  cap' = Some s /\ exists cap1, recognises r s cap cap1.
Proof. inversion 1; subst. eauto. Qed.

Lemma recognises_star (p : N -> bool) (s : jsstring) (cap cap' : option jsstring) :
  recognises (RStar p) s cap cap' -> cap' = cap /\ forallb p s = true.
Proof. inversion 1; subst. auto. Qed.

Lemma recognises_unit (p : N -> bool) (s : jsstring) (cap cap' : option jsstring) :
  recognises (RUnit p) s cap cap' -> cap' = cap /\ exists c, s = [c] /\ p c = true.
Proof. inversion 1; subst. eauto. Qed.

Lemma recognises_opt (r : regex) (s : jsstring) (cap cap' : option jsstring) :
  recognises (ROpt r) s cap cap' ->
  recognises r s cap cap' \/ (s = [] /\ cap' = cap).
Proof. inversion 1; subst; auto. Qed.

Lemma recognises_alt (r1 r2 : regex) (s : jsstring) (cap cap' : option jsstring) :
  recognises (RAlt r1 r2) s cap cap' ->
  recognises r1 s cap cap' \/ recognises r2 s cap cap'.
Proof. inversion 1; subst; auto. Qed.

(** A literal recognises the strings that spell it, letter case apart
    under the [i] flag. *)
Lemma recognises_rlit (ci : bool) (str : string) (s : jsstring)
      (cap cap' : option jsstring) :
  recognises (rlit ci str) s cap cap' <->
  cap' = cap /\ Forall2 (fun c x => unit_is ci c x = true) (lit str) s.
Proof.
  unfold rlit. revert s. induction (lit str) as [|c l IH]; intros s; cbn [fold_right].
  - split.
    + inversion 1; subst. split; [reflexivity|constructor].
    + intros [-> H]. inversion H; subst. constructor.
  - split.
    + intros H. apply recognises_seq in H as (a & b & cap1 & -> & Ha & Hb).
      apply recognises_unit in Ha as (-> & x & -> & Hx).
      apply IH in Hb as (-> & Hb). split; [reflexivity|].
      now constructor.
    + intros [-> H]. inversion H as [|c' x l' s' Hx Hs]; subst.
      change (x :: s') with ([x] ++ s').
      econstructor; [now constructor|]. apply IH. now split.
Qed.

Lemma unit_is_path_unit (c x : N) :
  re_path_unit c = true -> unit_is true c x = true -> re_path_unit x = true.
Proof.
  unfold unit_is, ascii_upper. intros Hc Hx. apply N.eqb_eq in Hx.
  destruct (is_lower x) eqn:Hlx.
  - revert Hlx. unfold re_path_unit, is_js_space, is_quote, is_lower, in_range,
      c_dquote, c_squote.
    clear. decide_tests; intros; try discriminate; reflexivity.
  - destruct (is_lower c) eqn:Hlc; [|now subst x].
    subst x. revert Hlc. unfold re_path_unit, is_js_space, is_quote, is_lower,
      in_range, c_dquote, c_squote.
    clear. decide_tests; intros; try discriminate; reflexivity.
Qed.

Lemma spelled_path_units (l s : jsstring) :
  forallb re_path_unit l = true ->
  Forall2 (fun c x => unit_is true c x = true) l s ->
  forallb re_path_unit s = true.
Proof.
  intros Hl H. induction H as [|c x l s Hx _ IH]; [reflexivity|].
  cbn [forallb] in *. apply andb_true_iff in Hl as [Hc Hl].
  now rewrite (@unit_is_path_unit c x Hc Hx), IH.
Qed.

Lemma spelled_upper (l s : jsstring) :
  Forall2 (fun c x => unit_is true c x = true) l s ->
  map ascii_upper s = map ascii_upper l.
Proof.
  induction 1 as [|c x l s Hx _ IH]; [reflexivity|].
  cbn [map]. unfold unit_is in Hx. apply N.eqb_eq in Hx. now rewrite Hx, IH.
Qed.

Lemma spelled_dot (s : jsstring) :
  Forall2 (fun c x => unit_is true c x = true) (lit ".") s -> s = [c_dot].
Proof.
  intros H. inversion H as [|c x l s' Hx Hs]; subst. inversion Hs; subst.
  f_equal. unfold unit_is, ascii_upper in Hx. apply N.eqb_eq in Hx.
  change (N_of_ascii ".") with c_dot in Hx.
  destruct (is_lower x) eqn:Hl; [|exact Hx].
  revert Hl Hx. unfold is_lower, in_range, c_dot. cbn.
  destruct (N.leb_spec 97 x); [|discriminate]. intros _ Hx. lia.
Qed.

(** The extension patterns. *)
Lemma recognises_image_ext (s : jsstring) (cap cap' : option jsstring) :
  recognises re_image_ext s cap cap' ->
  cap' = cap
  /\ forallb re_path_unit s = true
  /\ In (map ascii_upper s) [lit "PNG"; lit "JPG"; lit "JPEG"].
Proof.
  unfold re_image_ext. intros H. apply recognises_alt in H as [H|H].
  - apply recognises_rlit in H as [-> H]. split; [reflexivity|]. split.
    + exact (@spelled_path_units (lit "png") s eq_refl H).
    + left. symmetry. exact (@spelled_upper (lit "png") s H).
  - cbn [rseq] in H.
    apply recognises_seq in H as (a & b & cap1 & -> & Ha & H).
    apply recognises_seq in H as (e & g & cap2 & -> & He & Hg).
    apply recognises_rlit in Ha as [-> Ha]. apply recognises_rlit in Hg as [-> Hg].
    pose proof (@spelled_path_units (lit "jp") a eq_refl Ha) as Pa.
    pose proof (@spelled_path_units (lit "g") g eq_refl Hg) as Pg.
    pose proof (@spelled_upper (lit "jp") a Ha) as Ua.
    pose proof (@spelled_upper (lit "g") g Hg) as Ug.
    apply recognises_opt in He as [He|[-> ->]].
    + apply recognises_rlit in He as [-> He]. split; [reflexivity|].
      pose proof (@spelled_path_units (lit "e") e eq_refl He) as Pe.
      pose proof (@spelled_upper (lit "e") e He) as Ue.
      split.
      * now rewrite !forallb_app, Pa, Pe, Pg.
      * right; right; left. rewrite !map_app. now rewrite Ua, Ue, Ug.
    + split; [reflexivity|]. split.
      * now rewrite !forallb_app, Pa, Pg.
      * right; left. rewrite !map_app. now rewrite Ua, Ug.
Qed.

(** One or more path units, a dot and an image extension. *)
Lemma recognises_image_name (s : jsstring) (cap cap' : option jsstring) :
  recognises (rseq [RPlus re_path_unit; rlit true "."; re_image_ext]) s cap cap' ->
  cap' = cap /\ forallb re_path_unit s = true /\ image_path s.
Proof.
  cbn [rseq]. unfold RPlus. intros H.
  apply recognises_seq in H as (a & b & cap1 & -> & Ha & H).
  apply recognises_seq in Ha as (x & st & cap0 & -> & Hx & Hst).
  apply recognises_unit in Hx as (-> & c & -> & Hc).
  apply recognises_star in Hst as (-> & Hst).
  apply recognises_seq in H as (d & e & cap2 & -> & Hd & He).
  apply recognises_rlit in Hd as [-> Hd]. apply spelled_dot in Hd. subst d.
  apply recognises_image_ext in He as (-> & He & Hext).
  split; [reflexivity|]. split.
  - rewrite !forallb_app. cbn [forallb]. now rewrite Hc, Hst, He.
  - exists ([c] ++ st), e. repeat split; [discriminate|exact Hext].
Qed.

Lemma path_unit_not_space (c : N) :
  re_path_unit c = true -> is_js_space c = false.
Proof.
  unfold re_path_unit. intros H. apply negb_true_iff, orb_false_iff in H.
  tauto.
Qed.

(** A string of path units has no white space to trim. *)
Lemma trim_path_units (s : jsstring) :
  forallb re_path_unit s = true -> trim s = s.
Proof.
  intros H. destruct s as [|c s]; [reflexivity|].
  cbn [forallb] in H. apply andb_true_iff in H as [Hc Hs].
  apply trim_plain; [now apply path_unit_not_space|].
  destruct s as [|x s'] using rev_ind; [now apply path_unit_not_space|].
  rewrite last_last. rewrite forallb_app in Hs.
  apply andb_true_iff in Hs as [_ Hx]. cbn [forallb] in Hx.
  apply andb_true_iff in Hx as [Hx _]. now apply path_unit_not_space.
Qed.

Lemma spelled_nonempty (l s : jsstring) (c : N) :
  Forall2 (fun c x => unit_is true c x = true) (c :: l) s ->
  exists x s', s = x :: s'.
Proof. inversion 1; subst. eauto. Qed.

(** What the group of the general showcase pattern recognises. *)
Lemma recognises_showcase_saved (s : jsstring) (cap' : option jsstring) :
  recognises re_showcase_saved s None cap' ->
  exists g, cap' = Some g /\ forallb re_path_unit g = true /\ image_path g.
Proof.
  unfold re_showcase_saved. cbn [rseq]. intros H.
  apply recognises_seq in H as (a & b & cap1 & -> & Ha & H).
  apply recognises_rlit in Ha as [-> _].
  apply recognises_seq in H as (o & b' & cap2 & -> & Ho & H).
  assert (cap2 = None) as ->.
  { apply recognises_opt in Ho as [Ho|[_ Ho]]; [|exact Ho].
    now apply recognises_rlit in Ho as [-> _]. }
  apply recognises_seq in H as (c & b'' & cap3 & -> & Hc & H).
  apply recognises_rlit in Hc as [-> _].
  apply recognises_seq in H as (sp & g & cap4 & -> & Hsp & Hg).
  apply recognises_star in Hsp as [-> _].
  apply recognises_group in Hg as (-> & cap5 & Hg).
  apply recognises_image_name in Hg as (_ & Hunits & Himg).
  now exists g.
Qed.

(** A Saved line with a directory is a Saved line. *)
Lemma saved_under_is_saved (dir : string) (s : jsstring)
      (cap cap' : option jsstring) :
  forallb re_path_unit (lit dir) = true ->
  lit dir <> [] ->
  recognises (re_saved_image_under dir) s cap cap' ->
  exists cap'', recognises re_showcase_saved s cap cap''.
Proof.
  intros Hdir Hne. unfold re_saved_image_under. cbn [rseq]. intros H.
  apply recognises_seq in H as (sv & b & cap1 & -> & Hsv & H).
  apply recognises_rlit in Hsv as [-> Hsv].
  apply recognises_seq in H as (sp & g & cap2 & -> & Hsp & Hg).
  apply recognises_star in Hsp as [-> Hsp].
  apply recognises_group in Hg as (-> & cap3 & Hg).
  apply recognises_seq in Hg as (d & g1 & cap4 & -> & Hd & Hg).
  apply recognises_rlit in Hd as [-> Hd].
  apply recognises_seq in Hg as (sl & g2 & cap5 & -> & Hsl & Hg).
  apply recognises_rlit in Hsl as [-> Hsl].
  unfold RPlus in Hg.
  apply recognises_seq in Hg as (st & g3 & cap6 & -> & Hst & Hg).
  apply recognises_seq in Hst as (x & st' & cap7 & -> & Hx & Hst).
  apply recognises_unit in Hx as (-> & c & -> & Hc).
  apply recognises_star in Hst as (-> & Hst).
  change (lit "Saved:") with (lit "Saved" ++ lit ":") in Hsv.
  apply Forall2_app_inv_l in Hsv as (sv1 & sv2 & Hsv1 & Hsv2 & ->).
  pose proof (@spelled_path_units (lit dir) d Hdir Hd) as Pd.
  pose proof (@spelled_path_units (lit "/") sl eq_refl Hsl) as Psl.
  destruct (lit dir) as [|d0 l] eqn:Hl; [contradiction|].
  destruct (spelled_nonempty Hd) as (y & d' & ->).
  cbn [forallb] in Pd. apply andb_true_iff in Pd as [Py Pd].
  exists (Some ((([y] ++ (d' ++ sl ++ [c] ++ st')) ++ g3))).
  unfold re_showcase_saved. cbn [rseq].
  replace ((sv1 ++ sv2) ++ sp ++ (y :: d') ++ sl ++ ([c] ++ st') ++ g3)
    with (sv1 ++ [] ++ sv2 ++ sp ++ (([y] ++ (d' ++ sl ++ [c] ++ st')) ++ g3))
    by (cbn [app]; now rewrite <- !app_assoc).
  econstructor; [apply recognises_rlit; split; [reflexivity|exact Hsv1]|].
  econstructor; [apply rec_opt_none|].
  econstructor; [apply recognises_rlit; split; [reflexivity|exact Hsv2]|].
  econstructor; [now constructor|].
  eapply rec_group.
  econstructor; [|exact Hg].
  unfold RPlus. econstructor; [now constructor|].
  constructor. rewrite !forallb_app. cbn [forallb]. now rewrite Pd, Psl, Hc, Hst.
Qed.

Lemma saved_under_unmatched (dir : string) (combined : jsstring) :
  forallb re_path_unit (lit dir) = true ->
  lit dir <> [] ->
  regex_match re_showcase_saved combined = None ->
  regex_match (re_saved_image_under dir) combined = None.
Proof.
  intros Hdir Hne Hnone.
  destruct (regex_match (re_saved_image_under dir) combined) as [m|] eqn:Hm;
    [exfalso|reflexivity].
  apply regex_match_sound in Hm as (before & pre & rest & -> & Hr).
  destruct (@saved_under_is_saved dir pre None m Hdir Hne Hr) as (cap'' & Hr').
  exact (@regex_match_complete re_showcase_saved before pre rest cap'' Hr' Hnone).
Qed.

(** What [saved_match] of virtual-showcase comes to. *)
Lemma showcase_saved_match_first (combined : jsstring) :
  VirtualShowcase.saved_match combined = regex_match re_showcase_saved combined.
Proof.
  unfold VirtualShowcase.saved_match, match_or.
  destruct (regex_match re_showcase_saved combined) eqn:H; [reflexivity|].
  rewrite (@saved_under_unmatched "renders" combined eq_refl)
    by (discriminate || exact H).
  now rewrite (@saved_under_unmatched "output" combined eq_refl)
    by (discriminate || exact H).
Qed.

(** X27. Of the three patterns virtual-showcase tries on the output of
    its worker, the second and the third never decide: whenever one of
    them matches, the first one matches too, so the result is that of the
    first pattern alone. *)
Theorem showcase_fallback_patterns_never_decide (combined : jsstring) :
  VirtualShowcase.saved_match combined = regex_match re_showcase_saved combined
  /\ (regex_match re_showcase_saved combined = None ->
      regex_match (re_saved_image_under "renders") combined = None
      /\ regex_match (re_saved_image_under "output") combined = None).
Proof.
  split; [apply showcase_saved_match_first|].
  intros H. split; apply saved_under_unmatched; (reflexivity || discriminate || assumption).
Qed.

Lemma spelled_mp4 (s : jsstring) :
  Forall2 (fun c x => unit_is true c x = true) (lit ".mp4") s ->
  forallb re_path_unit s = true
  /\ exists ext, s = c_dot :: ext /\ map ascii_upper ext = lit "MP4".
Proof.
  intros H. split; [exact (@spelled_path_units (lit ".mp4") s eq_refl H)|].
  change (lit ".mp4") with (lit "." ++ lit "mp4") in H.
  apply Forall2_app_inv_l in H as (d & ext & Hd & Hext & ->).
  apply spelled_dot in Hd. subst d. exists ext. split; [reflexivity|].
  exact (@spelled_upper (lit "mp4") ext Hext).
Qed.

(** One or more path units and [.mp4]. *)
Lemma recognises_video_name (s : jsstring) (cap cap' : option jsstring) :
  recognises (rseq [RPlus re_path_unit; rlit true ".mp4"]) s cap cap' ->
  forallb re_path_unit s = true /\ video_path s.
Proof.
  cbn [rseq]. unfold RPlus. intros H.
  apply recognises_seq in H as (a & b & cap1 & -> & Ha & Hb).
  apply recognises_seq in Ha as (x & st & cap0 & -> & Hx & Hst).
  apply recognises_unit in Hx as (-> & c & -> & Hc).
  apply recognises_star in Hst as (-> & Hst).
  apply recognises_rlit in Hb as [-> Hb].
  apply spelled_mp4 in Hb as (Hunits & ext & -> & Hext).
  split.
  - rewrite !forallb_app, Hunits. cbn [forallb]. now rewrite Hc, Hst.
  - exists ([c] ++ st), ext. repeat split; [discriminate|exact Hext].
Qed.

Lemma recognises_runway_saved (s : jsstring) (cap' : option jsstring) :
  recognises re_runway_saved s None cap' ->
  exists g, cap' = Some g /\ forallb re_path_unit g = true /\ video_path g.
Proof.
  unfold re_runway_saved. cbn [rseq]. intros H.
  apply recognises_seq in H as (a & b & cap1 & -> & Ha & H).
  apply recognises_rlit in Ha as [-> _].
  apply recognises_seq in H as (sp & g & cap4 & -> & Hsp & Hg).
  apply recognises_star in Hsp as [-> _].
  apply recognises_group in Hg as (-> & cap5 & Hg).
  apply recognises_video_name in Hg as (Hunits & Hvid).
  now exists g.
Qed.

Lemma recognises_saved_video_under (dir : string) (s : jsstring)
      (cap' : option jsstring) :
  forallb re_path_unit (lit dir) = true ->
  recognises (re_saved_video_under dir) s None cap' ->
  exists g, cap' = Some g /\ forallb re_path_unit g = true /\ video_path g.
Proof.
  intros Hdir. unfold re_saved_video_under. cbn [rseq]. intros H.
  apply recognises_seq in H as (sv & b & cap1 & -> & Hsv & H).
  apply recognises_rlit in Hsv as [-> _].
  apply recognises_seq in H as (sp & g & cap2 & -> & Hsp & Hg).
  apply recognises_star in Hsp as [-> _].
  apply recognises_group in Hg as (-> & cap3 & Hg).
  exists g. split; [reflexivity|].
  apply recognises_seq in Hg as (d & g1 & cap4 & -> & Hd & Hg).
  apply recognises_rlit in Hd as [-> Hd].
  apply recognises_seq in Hg as (sl & g2 & cap5 & -> & Hsl & Hg).
  apply recognises_rlit in Hsl as [-> Hsl].
  pose proof (@spelled_path_units (lit dir) d Hdir Hd) as Pd.
  pose proof (@spelled_path_units (lit "/") sl eq_refl Hsl) as Psl.
  apply (@recognises_video_name g2 None cap3) in Hg as (Hunits & stem & ext & -> & Hstem & Hext).
  split.
  - now rewrite !forallb_app, Pd, Psl, <- forallb_app.
  - exists (d ++ sl ++ stem), ext. repeat split.
    + now rewrite <- !app_assoc.
    + destruct d; [destruct sl; [exact Hstem|discriminate]|discriminate].
    + exact Hext.
Qed.

Lemma unit_is_one_line (c x : N) :
  re_dot c = true -> unit_is true c x = true -> re_dot x = true.
Proof.
  unfold unit_is, ascii_upper. intros Hc Hx. apply N.eqb_eq in Hx.
  destruct (is_lower x) eqn:Hlx.
  - revert Hlx. unfold re_dot, is_line_terminator, is_lower, in_range.
    clear. decide_tests; intros; try discriminate; reflexivity.
  - destruct (is_lower c) eqn:Hlc; [|now subst x].
    subst x. revert Hlc. unfold re_dot, is_line_terminator, is_lower, in_range.
    clear. decide_tests; intros; try discriminate; reflexivity.
Qed.

Lemma spelled_one_line (l s : jsstring) :
  forallb re_dot l = true ->
  Forall2 (fun c x => unit_is true c x = true) l s ->
  forallb re_dot s = true.
Proof.
  intros Hl H. induction H as [|c x l s Hx _ IH]; [reflexivity|].
  cbn [forallb] in *. apply andb_true_iff in Hl as [Hc Hl].
  now rewrite (@unit_is_one_line c x Hc Hx), IH.
Qed.

Lemma recognises_flatlay_saved (s : jsstring) (cap' : option jsstring) :
  recognises re_flatlay_saved s None cap' ->
  exists g, cap' = Some g /\ forallb re_dot g = true /\ image_path g.
Proof.
  unfold re_flatlay_saved. cbn [rseq]. unfold RPlus. intros H.
  apply recognises_seq in H as (a & b & cap1 & -> & Ha & H).
  apply recognises_rlit in Ha as [-> _].
  apply recognises_seq in H as (o & b' & cap2 & -> & Ho & H).
  assert (cap2 = None) as ->.
  { apply recognises_opt in Ho as [Ho|[_ Ho]]; [|exact Ho].
    now apply recognises_rlit in Ho as [-> _]. }
  apply recognises_seq in H as (sp & g & cap3 & -> & Hsp & Hg).
  apply recognises_rlit in Hsp as [-> _].
  apply recognises_group in Hg as (-> & cap4 & Hg).
  exists g. split; [reflexivity|].
  apply recognises_seq in Hg as (st & g1 & cap5 & -> & Hst & Hg).
  apply recognises_seq in Hst as (x & st' & cap6 & -> & Hx & Hst).
  apply recognises_unit in Hx as (-> & c & -> & Hc).
  apply recognises_star in Hst as (-> & Hst).
  apply recognises_seq in Hg as (d & e & cap7 & -> & Hd & He).
  apply recognises_rlit in Hd as [-> Hd]. apply spelled_dot in Hd. subst d.
  assert (Hext : forallb re_dot e = true
                 /\ In (map ascii_upper e) [lit "PNG"; lit "JPG"; lit "JPEG"]).
  { apply recognises_alt in He as [He|He];
      [|apply recognises_alt in He as [He|He]];
      apply recognises_rlit in He as [_ He].
    - split; [exact (@spelled_one_line (lit "png") e eq_refl He)|].
      left. symmetry. exact (@spelled_upper (lit "png") e He).
    - split; [exact (@spelled_one_line (lit "jpg") e eq_refl He)|].
      right; left. symmetry. exact (@spelled_upper (lit "jpg") e He).
    - split; [exact (@spelled_one_line (lit "jpeg") e eq_refl He)|].
      right; right; left. symmetry. exact (@spelled_upper (lit "jpeg") e He). }
  destruct Hext as [Hline Hext]. split.
  - rewrite !forallb_app. cbn [forallb]. now rewrite Hc, Hst, Hline.
  - exists ([c] ++ st'), e. repeat split; [discriminate|exact Hext].
Qed.

(** X28. The path a render handler recognises after a Saved marker ends,
    after a stem that is not empty, in [.png], [.jpg] or [.jpeg] (for
    runway in [.mp4]), in any letter case. For virtual-showcase and runway
    it holds no white space and no quote, so that trimming leaves it as it
    is; for flatlay-render it may hold spaces but stays on one line. *)
Theorem recognised_path_shape (combined m1 : jsstring) :
  (capture1 (VirtualShowcase.saved_match combined) = Some m1 ->
   forallb re_path_unit m1 = true /\ trim m1 = m1 /\ image_path m1)
  /\ (capture1 (Runway.saved_match combined) = Some m1 ->
      forallb re_path_unit m1 = true /\ trim m1 = m1 /\ video_path m1)
  /\ (capture1 (regex_match re_flatlay_saved combined) = Some m1 ->
      forallb re_dot m1 = true /\ image_path m1).
Proof.
  split; [|split].
  - rewrite showcase_saved_match_first. intros H.
    destruct (regex_match re_showcase_saved combined) as [m|] eqn:Hm;
      [|discriminate].
    apply regex_match_sound in Hm as (before & pre & rest & _ & Hr).
    apply recognises_showcase_saved in Hr as (g & -> & Hunits & Himg).
    assert (g = m1) as -> by (destruct g; [discriminate|now injection H]).
    repeat split; try assumption. now apply trim_path_units.
  - unfold Runway.saved_match, match_or. intros H.
    assert (Hg : exists g, (capture1 (Some (Some g)) = Some m1)
                           /\ forallb re_path_unit g = true /\ video_path g).
    { destruct (regex_match re_runway_saved combined) as [m|] eqn:Hm.
      { apply regex_match_sound in Hm as (before & pre & rest & _ & Hr).
        apply recognises_runway_saved in Hr as (g & -> & Hunits & Hvid).
        now exists g. }
      destruct (regex_match (re_saved_video_under "output") combined)
        as [m|] eqn:Hm2.
      { apply regex_match_sound in Hm2 as (before & pre & rest & _ & Hr).
        apply recognises_saved_video_under in Hr as (g & -> & Hunits & Hvid);
          [|reflexivity].
        now exists g. }
      destruct (regex_match (re_saved_video_under "renders") combined)
        as [m|] eqn:Hm3; [|discriminate].
      apply regex_match_sound in Hm3 as (before & pre & rest & _ & Hr).
      apply recognises_saved_video_under in Hr as (g & -> & Hunits & Hvid);
        [|reflexivity].
      now exists g. }
    destruct Hg as (g & Hcap & Hunits & Hvid).
    assert (g = m1) as -> by (destruct g; [discriminate|now injection Hcap]).
    repeat split; try assumption. now apply trim_path_units.
  - intros H.
    destruct (regex_match re_flatlay_saved combined) as [m|] eqn:Hm;
      [|discriminate].
    apply regex_match_sound in Hm as (before & pre & rest & _ & Hr).
    apply recognises_flatlay_saved in Hr as (g & -> & Hline & Himg).
    assert (g = m1) as -> by (destruct g; [discriminate|now injection H]).
    now split.
Qed.

(* ================================================================== *)
(** * From the worker's artifact to the browser *)
(* ================================================================== *)

(** X29. What a render handler hands out, the asset route serves: for a
    relative path that passes the checks of the asset route and holds a
    file, [normalizeForBrowser] gives a reference, and a request for that
    reference, from any origin, is answered 200 with the octets of the
    file. *)
Theorem asset_serves_reference
        (h : Host) (origin p : jsstring) (req : Request) (st : state)
        (data : list N) :
  well_formed p = true ->
  is_relative p = true ->
  forallb (fun c => negb (c =? c_question) && negb (c =? c_hash)) origin = true ->
  servable h (replace_backslashes p) ->
  fs st (asset_path h (replace_backslashes p)) = Some (File data) ->
  exists reference,
    normalizeForBrowser p = Some reference
    /\ (req_url req = origin ++ reference ->
        fst (Asset.GET h req st)
        = Ok {| status := 200;
                headers :=
                  [(lit "Content-Type",
                    content_type h (asset_path h (replace_backslashes p)));
                   (lit "Cache-Control", lit "no-cache")];
                payload := RawBody data |}).
Proof.
  intros Hwf Hrel Horigin Hok Hfile.
  destruct (normalizeForBrowser_encodes p Hwf) as (e & _ & Hn & Hsafe & Hdec).
  destruct (relative_not_stripped p Hrel) as [Hstrip Hlead].
  exists (reference_prefix ++ e). split; [exact Hn|]. intros Hurl.
  assert (Hget : searchParams_get (req_url req) (lit "path")
                 = Some (replace_backslashes p)).
  { rewrite Hurl, (searchParams_get_reference origin Horigin Hsafe).
    now rewrite Hdec, Hstrip. }
  assert (Hreq : Asset.requested_of (replace_backslashes p)
                 = replace_backslashes p).
  { unfold Asset.requested_of. now rewrite replace_backslashes_idempotent, Hlead. }
  rewrite <- Hreq in Hok, Hfile.
  rewrite (@asset_GET_servable h req st (replace_backslashes p) Hget Hok).
  unfold try_catch, bind, existsSync, readFileSync.
  rewrite Hfile. cbn [negb log fs]. rewrite Hfile. cbn [ret fst].
  now rewrite Hreq.
Qed.

Lemma asset_serves_reference_witness :
  exists reference,
    normalizeForBrowser (lit "output\abc123_showcase.png") = Some reference
    /\ fst (Asset.GET (Posix.host [] Examples.absent [])
              (Posix.request
                 "http://localhost:3000/api/assets?path=output%2Fabc123_showcase.png"
                 VNull)
              (Posix.boot
                 (Examples.project
                    ++ [(lit "/app/output/abc123_showcase.png",
                         File [137; 80; 78; 71])])))
       = Ok {| status := 200;
               headers := [(lit "Content-Type", lit "image/png");
                           (lit "Cache-Control", lit "no-cache")];
               payload := RawBody [137; 80; 78; 71] |}.
Proof.
  destruct (@asset_serves_reference
              (Posix.host [] Examples.absent [])
              (lit "http://localhost:3000") (lit "output\abc123_showcase.png")
              (Posix.request
                 "http://localhost:3000/api/assets?path=output%2Fabc123_showcase.png"
                 VNull)
              (Posix.boot
                 (Examples.project
                    ++ [(lit "/app/output/abc123_showcase.png",
                         File [137; 80; 78; 71])]))
              [137; 80; 78; 71] eq_refl eq_refl eq_refl)
    as (reference & Hn & Hserve).
  - repeat split; try (vm_compute; reflexivity). left. vm_compute. reflexivity.
  - vm_compute. reflexivity.
  - exists reference. split; [exact Hn|]. apply Hserve.
    vm_compute in Hn. injection Hn as <-. vm_compute. reflexivity.
Defined.

(* ================================================================== *)
(** * Every request is answered *)
(* ================================================================== *)


